(** * Arduino-DistanceMeasurement: ranging driver and proximity state machine

    A shallow embedding of the C++ sources (DistanceSensor, HCSR04,
    MockTrafficLight, StateMachine, and the [Reset] and [__assert] of
    DebugUtils) and the properties of the specification stated over it.
    The file has two parts: the embedding with the vocabulary and the
    fixtures the statements use, then the properties.

    Conventions.
    - [uint32_t] values are integers in [0, 2^32); arithmetic on them is
      written with its wrap-around ([wrap_uint32]); [(int32_t)] casts and
      [int32_t] arithmetic go through [cast_int32].
    - [float] is IEEE-754 binary32 with round-to-nearest-even, evaluated with
      the executable reference semantics of the standard library
      ([SpecFloat], precision 24, maximal exponent 128); rounding errors
      are bounded in the rationals.
    - Member functions take the object as an explicit argument and return
      the updated object; the board (pins, clocks) is threaded by the
      monad [M].  A failed [assert] and the board reset end the run.
    - The [Logger] calls only print and are left out. *)

From Stdlib Require Import ZArith List Bool String Lia.
From Stdlib Require Import QArith Qpower Qround Lqa.
From Stdlib Require Import Floats.SpecFloat.
Import ListNotations.
Local Open Scope Z_scope.

(** ** Machine integers *)

Definition UINT32_MAX : Z := 4294967295.

(** Value of an unsigned 32-bit expression whose mathematical value is [z]. *)
Definition wrap_uint32 (z : Z) : Z := z mod 4294967296.

(** Value of [z] converted to the 16-bit [unsigned int] of the AVR target. *)
Definition wrap_uint16 (z : Z) : Z := z mod 65536.

(** [(int32_t)] conversion, also the result of [int32_t] arithmetic whose
    mathematical value is [z] (two's complement). *)
Definition cast_int32 (z : Z) : Z := (z + 2147483648) mod 4294967296 - 2147483648.

Definition is_uint32 (z : Z) : Prop := 0 <= z <= UINT32_MAX.
Definition is_int32 (z : Z) : Prop := -2147483648 <= z <= 2147483647.

(** The [abs] macro of Arduino.h, [((x)>0?(x):-(x))], at type [int32_t]. *)
Definition abs (x : Z) : Z := if x >? 0 then x else cast_int32 (- x).

(** ** Result codes

    Result.h is not among the sources; the enumerators are the entries of
    the name table of [ResultToStr] in Result.cpp, in the table's order. *)
Inductive Result : Type :=
| RESULT_OK | RESULT_ERROR | RESULT_NOT_SUP | RESULT_NOT_IMPL
| RESULT_NOT_READY | RESULT_NOT_EXECUTED | RESULT_NOT_ALLOWED
| RESULT_BAD_PARAM | RESULT_PARSE_ERROR | RESULT_PERM_DENIED
| RESULT_EXISTS | RESULT_BUSY | RESULT_DEV_ERR | RESULT_TIMEOUT
| RESULT_ABORTED | RESULT_NO_DATA | RESULT_NO_MEM | RESULT_NO_RESOURCE
| RESULT_HW_FAILURE | RESULT_HW_DISABLED | RESULT_OVERFLOW
| RESULT_UNDERFLOW | RESULT_CRC_ERROR | RESULT_NOT_VALID.

Definition Result_eqb (a b : Result) : bool :=
  match a, b with
  | RESULT_OK, RESULT_OK | RESULT_ERROR, RESULT_ERROR
  | RESULT_NOT_SUP, RESULT_NOT_SUP | RESULT_NOT_IMPL, RESULT_NOT_IMPL
  | RESULT_NOT_READY, RESULT_NOT_READY
  | RESULT_NOT_EXECUTED, RESULT_NOT_EXECUTED
  | RESULT_NOT_ALLOWED, RESULT_NOT_ALLOWED
  | RESULT_BAD_PARAM, RESULT_BAD_PARAM
  | RESULT_PARSE_ERROR, RESULT_PARSE_ERROR
  | RESULT_PERM_DENIED, RESULT_PERM_DENIED
  | RESULT_EXISTS, RESULT_EXISTS | RESULT_BUSY, RESULT_BUSY
  | RESULT_DEV_ERR, RESULT_DEV_ERR | RESULT_TIMEOUT, RESULT_TIMEOUT
  | RESULT_ABORTED, RESULT_ABORTED | RESULT_NO_DATA, RESULT_NO_DATA
  | RESULT_NO_MEM, RESULT_NO_MEM | RESULT_NO_RESOURCE, RESULT_NO_RESOURCE
  | RESULT_HW_FAILURE, RESULT_HW_FAILURE
  | RESULT_HW_DISABLED, RESULT_HW_DISABLED
  | RESULT_OVERFLOW, RESULT_OVERFLOW | RESULT_UNDERFLOW, RESULT_UNDERFLOW
  | RESULT_CRC_ERROR, RESULT_CRC_ERROR | RESULT_NOT_VALID, RESULT_NOT_VALID => true
  | _, _ => false
  end.

(** CommonDefines.h *)
Inductive SignalPolarity : Type := ActiveHigh | ActiveLow.

Definition MAX_COMPONENT_NAME_LENGTH : nat := 32.

(** ** The board: pins, clocks, and how a run can end *)

Module Arduino.

Inductive PinLevel : Type := LOW | HIGH.
Inductive PinMode : Type := INPUT | OUTPUT.

Definition NOT_A_PIN : Z := 255.

(** What the program does to the outside, in program order. *)
Inductive Event : Type :=
| PinModeEv (pin : Z) (mode : PinMode)
| DigitalWriteEv (pin : Z) (level : PinLevel)
| DelayMicrosecondsEv (us : Z)
| DelayEv (ms : Z).

(** [feed] holds the values the board will hand to the program, one per
    call of [micros], [millis] or [digitalRead], in the order of the
    calls: a synthetic environment, as a time-simulated test sets it up.
    A run that asks for more than the feed holds is [Stalled]. *)
Record Board : Type := mkBoard {
  feed : list Z;
  wire : list Event
}.

Inductive Stop : Type :=
| AssertFailed (expr : string)   (* __assert: diagnostic, then abort() *)
| BoardReset                     (* Reset(): jmp 0 *)
| NullPointer                    (* call through a null collaborator *)
| Stalled.                       (* the synthetic feed is exhausted *)

Inductive outcome (A : Type) : Type :=
| Done (a : A) (b : Board)
| Halted (why : Stop) (b : Board).
Arguments Done {A} a b.
Arguments Halted {A} why b.

Definition M (A : Type) : Type := Board -> outcome A.

Definition ret {A} (a : A) : M A := fun b => Done a b.

Definition bind {A B} (c : M A) (k : A -> M B) : M B :=
  fun b => match c b with
           | Done a b' => k a b'
           | Halted why b' => Halted why b'
           end.

Definition halt {A} (why : Stop) : M A := fun b => Halted why b.

Definition emit (e : Event) : M unit :=
  fun b => Done tt (mkBoard (feed b) (wire b ++ [e])).

Definition input : M Z :=
  fun b => match feed b with
           | [] => Halted Stalled b
           | x :: rest => Done x (mkBoard rest (wire b))
           end.

End Arduino.
Export Arduino.

Declare Scope board_scope.
Delimit Scope board_scope with board.
Notation "x <- c ;; k" := (bind c (fun x => k))
  (at level 61, c at next level, right associativity) : board_scope.
Notation "' pat <- c ;; k" := (bind c (fun x => match x with pat => k end))
  (at level 61, pat pattern, c at next level, right associativity) : board_scope.
Notation "c ;; k" := (bind c (fun _ => k))
  (at level 61, right associativity) : board_scope.
Local Open Scope board_scope.

Module Wiring.

Definition pinMode (pin : Z) (mode : PinMode) : M unit := emit (PinModeEv pin mode).
Definition digitalWrite (pin : Z) (level : PinLevel) : M unit :=
  emit (DigitalWriteEv pin level).
Definition digitalRead (pin : Z) : M PinLevel :=
  x <- input ;; ret (if x =? 0 then LOW else HIGH).
(** [delayMicroseconds(unsigned int us)]: on the AVR target the argument is
    converted to 16 bits, and the event records what the board receives. *)
Definition delayMicroseconds (us : Z) : M unit :=
  emit (DelayMicrosecondsEv (wrap_uint16 us)).
Definition delay (ms : Z) : M unit := emit (DelayEv ms).
Definition micros : M Z := x <- input ;; ret (wrap_uint32 x).
Definition millis : M Z := x <- input ;; ret (wrap_uint32 x).

(** assert.h with the [__assert] of DebugUtils.cpp: a failed assertion
    prints the expression and calls [abort()]. *)
Definition assert (cond : bool) (expr : string) : M unit :=
  if cond then ret tt else halt (AssertFailed expr).

(** DebugUtils.cpp, [Reset]: [asm volatile ("jmp 0")]; it never returns. *)
Definition Reset {A} : M A := halt BoardReset.

End Wiring.
Export Wiring.

(** ** Single-precision arithmetic *)

Module Float32.

Definition prec : Z := 24.
Definition emax : Z := 128.

Definition float : Type := spec_float.

Definition add : float -> float -> float := SFadd prec emax.
Definition mul : float -> float -> float := SFmul prec emax.
Definition div : float -> float -> float := SFdiv prec emax.

(** [(float)n] for an unsigned integer [n]. *)
Definition of_uint32 (n : Z) : float := binary_normalize prec emax n 0 false.

(** Integer part, rounding toward zero. *)
Definition truncate (x : float) : Z :=
  match x with
  | S754_finite s m e =>
      let a := match e with
               | Z0 => Zpos m
               | Zpos _ => Z.shiftl (Zpos m) e
               | Zneg p => Z.shiftr (Zpos m) (Zpos p)
               end in
      if s then - a else a
  | _ => 0
  end.

(** Conversion to [uint32_t].  C++ leaves it undefined when the integer
    part does not fit; the model wraps there. *)
Definition to_uint32 (x : float) : Z := wrap_uint32 (truncate x).

(** The literals of the sources. *)
Definition lit_331_4 : float := S754_finite false 10859315 (-15).    (* 331.4f *)
Definition lit_0_6 : float := S754_finite false 10066330 (-24).      (* 0.6f *)
Definition lit_10 : float := S754_finite false 10485760 (-20).       (* 10.0f *)
Definition lit_1000 : float := S754_finite false 16384000 (-14).     (* 1000.0f *)
Definition lit_2 : float := S754_finite false 8388608 (-22).         (* 2 *)

End Float32.

(** ** IDistanceSensor.h: what the state machine asks of a sensor *)

Class IDistanceSensor (S : Type) : Type := {
  (** [MeasureDistance(uint32_t& distance)]; the reference parameter is
      passed in and returned. *)
  sensor_MeasureDistance : S -> Z -> M (Result * Z * S);
  (** [MeasureDistance(uint32_t ambientTemperature, uint32_t& distance)] *)
  sensor_MeasureDistanceAt : Z -> S -> Z -> M (Result * Z * S)
}.

(** ** DistanceSensor.cpp: the ranging driver *)

Module DistanceSensor.

(** IDistanceSensor::Config; a null [name] is [None]. *)
Record Config : Type := mkConfig {
  name : option string;
  triggerPin : Z;
  echoPin : Z
}.

Record t : Type := mk {
  _initDone : bool;
  _name : string;
  _triggerPin : Z;
  _echoPin : Z;
  _minTriggerPulseDurationUs : Z;
  _minDistanceMm : Z;
  _maxDistanceMm : Z;
  _triggerPolarity : SignalPolarity;
  _echoPolarity : SignalPolarity
}.

(** Constructor. *)
Definition new (minTriggerPulseDurationUs minDistanceMm maxDistanceMm : Z)
    (triggerPolarity echoPolarity : SignalPolarity) : t :=
  mk false EmptyString NOT_A_PIN NOT_A_PIN
     minTriggerPulseDurationUs minDistanceMm maxDistanceMm
     triggerPolarity echoPolarity.

Definition IsInitialized (self : t) : bool := _initDone self.

Definition Init (configuration : Config) (self : t) : M (Result * t) :=
  if IsInitialized self then ret (RESULT_BUSY, self)
  else match name configuration with
       | None => ret (RESULT_BAD_PARAM, self)
       | Some n =>
           let self1 :=
             mk (_initDone self)
                (substring 0 (MAX_COMPONENT_NAME_LENGTH - 1) n)
                (triggerPin configuration) (echoPin configuration)
                (_minTriggerPulseDurationUs self) (_minDistanceMm self)
                (_maxDistanceMm self) (_triggerPolarity self)
                (_echoPolarity self) in
           pinMode (_triggerPin self1) OUTPUT ;;
           pinMode (_echoPin self1) INPUT ;;
           ret (RESULT_OK,
                mk true (_name self1) (_triggerPin self1) (_echoPin self1)
                   (_minTriggerPulseDurationUs self1) (_minDistanceMm self1)
                   (_maxDistanceMm self1) (_triggerPolarity self1)
                   (_echoPolarity self1))
       end.

Definition Deinit (self : t) : M t :=
  pinMode (_echoPin self) INPUT ;;
  pinMode (_triggerPin self) INPUT ;;
  ret (mk false EmptyString (_triggerPin self) (_echoPin self)
          (_minTriggerPulseDurationUs self) (_minDistanceMm self)
          (_maxDistanceMm self) (_triggerPolarity self)
          (_echoPolarity self)).

(** [331.4f + (0.6f * (float)ambientTemperature / 10.0f)] *)
Definition SpeedOfSound (ambientTemperature : Z) : Float32.float :=
  Float32.add Float32.lit_331_4
    (Float32.div
       (Float32.mul Float32.lit_0_6 (Float32.of_uint32 ambientTemperature))
       Float32.lit_10).

(** [((float)timeUs/1000.0f/1000.0f * (SpeedOfSound(ambientTemperature) / 2)) * 1000.0f] *)
Definition Time2Distance (ambientTemperature timeUs : Z) : Z :=
  Float32.to_uint32
    (Float32.mul
       (Float32.mul
          (Float32.div
             (Float32.div (Float32.of_uint32 timeUs) Float32.lit_1000)
             Float32.lit_1000)
          (Float32.div (SpeedOfSound ambientTemperature) Float32.lit_2))
       Float32.lit_1000).

(** [((float)distanceMm/1000.0f / (SpeedOfSound(ambientTemperature) / 2)) * 1000.0f * 1000.0f] *)
Definition Distance2Time (ambientTemperature distanceMm : Z) : Z :=
  Float32.to_uint32
    (Float32.mul
       (Float32.mul
          (Float32.div
             (Float32.div (Float32.of_uint32 distanceMm) Float32.lit_1000)
             (Float32.div (SpeedOfSound ambientTemperature) Float32.lit_2))
          Float32.lit_1000)
       Float32.lit_1000).

Definition SetTriggerPintState (active : bool) (self : t) : M unit :=
  let state :=
    if active
    then match _triggerPolarity self with ActiveHigh => HIGH | ActiveLow => LOW end
    else match _triggerPolarity self with ActiveHigh => LOW | ActiveLow => HIGH end in
  digitalWrite (_triggerPin self) state.

Definition TriggerMeasurement (self : t) : M unit :=
  SetTriggerPintState false self ;;
  delayMicroseconds (_minTriggerPulseDurationUs self / 5) ;;
  SetTriggerPintState true self ;;
  delayMicroseconds (_minTriggerPulseDurationUs self) ;;
  SetTriggerPintState false self ;;
  delayMicroseconds (_minTriggerPulseDurationUs self / 5).

Definition GetEchoPinState (self : t) : M bool :=
  level <- digitalRead (_echoPin self) ;;
  let rawPinState := match level with HIGH => true | LOW => false end in
  ret (match _echoPolarity self with
       | ActiveHigh => rawPinState
       | ActiveLow => negb rawPinState
       end).

(** The two polling loops of [ReadDistance],
    [while ((echoPinState == waitFor) && (time < endTime))
       { echoPinState = GetEchoPinState(); time = micros(); }],
    with [waitFor = false] for the rising edge and [true] for the
    falling edge.  [rounds] bounds the iterations; [ReadDistance] passes
    the length of the feed, which the loop cannot outlast since every
    iteration reads the feed. *)
Fixpoint PollEcho (rounds : nat) (self : t) (waitFor echoPinState : bool)
    (time endTime : Z) : M (bool * Z) :=
  if Bool.eqb echoPinState waitFor && (time <? endTime)
  then match rounds with
       | O => halt Stalled
       | S rounds' =>
           e <- GetEchoPinState self ;;
           now <- micros ;;
           PollEcho rounds' self waitFor e now endTime
       end
  else ret (echoPinState, time).

Definition ReadDistance (ambientTemperature : Z) (self : t) (distance : Z)
  : M (Result * Z) :=
  let maxWaitDurationUs := Distance2Time ambientTemperature (_maxDistanceMm self) in
  let echoPinState := false in
  startTime <- micros ;;
  let endTime := wrap_uint32 (startTime + maxWaitDurationUs) in
  let time := startTime in
  '(echoPinState, time) <-
     (fun b => PollEcho (List.length (feed b)) self false echoPinState time endTime b) ;;
  if negb echoPinState then ret (RESULT_TIMEOUT, distance)
  else
    echoPulseStartTimeUs <- micros ;;
    now <- micros ;;
    let endTime := wrap_uint32 (now + maxWaitDurationUs) in
    '(echoPinState, time) <-
       (fun b => PollEcho (List.length (feed b)) self true echoPinState time endTime b) ;;
    if echoPinState then ret (RESULT_TIMEOUT, distance)
    else
      let echoPulseDurationUs := wrap_uint32 (time - echoPulseStartTimeUs) in
      ret (RESULT_OK, Time2Distance ambientTemperature echoPulseDurationUs).

(** [MeasureDistance(uint32_t ambientTemperature, uint32_t& distance)] *)
Definition MeasureDistanceAt (ambientTemperature : Z) (self : t) (distance : Z)
  : M (Result * Z * t) :=
  if negb (IsInitialized self) then ret (RESULT_NOT_READY, distance, self)
  else
    TriggerMeasurement self ;;
    let distance := 0 in
    '(result, distance) <- ReadDistance ambientTemperature self distance ;;
    ret (result, distance, self).

(** [MeasureDistance(uint32_t& distance)] *)
Definition MeasureDistance (self : t) (distance : Z) : M (Result * Z * t) :=
  let ambientTemperature := 20 * 10 in
  MeasureDistanceAt ambientTemperature self distance.

End DistanceSensor.

#[export] Instance DistanceSensor_IDistanceSensor : IDistanceSensor DistanceSensor.t := {
  sensor_MeasureDistance := DistanceSensor.MeasureDistance;
  sensor_MeasureDistanceAt := DistanceSensor.MeasureDistanceAt
}.

(** ** HCSR04.cpp *)

Module HCSR04.

Definition minTriggerPulseDurationUs : Z := 10.
Definition minDistanceMm : Z := 20.
Definition maxDistanceMm : Z := 4000.
Definition triggerPolarity : SignalPolarity := ActiveHigh.
Definition echoPolarity : SignalPolarity := ActiveHigh.

Definition new : DistanceSensor.t :=
  DistanceSensor.new minTriggerPulseDurationUs minDistanceMm maxDistanceMm
    triggerPolarity echoPolarity.

End HCSR04.

(** ** ITrafficLight.h: what the state machine asks of the indicator *)

Inductive LightSelector : Type := RedLight | YellowLight | GreenLight.
Inductive LightState : Type := On | Off.

Class ITrafficLight (L : Type) : Type := {
  light_TurnOn : LightSelector -> L -> M (Result * L);
  light_SetAllLightsOff : L -> M (Result * L);
  light_PerformLightsTest : L -> M (Result * L)
}.

(** ** MockTrafficLight.cpp *)

Module MockTrafficLight.

Record t : Type := mk {
  _initDone : bool;
  _name : string;
  _redLightState : LightState;
  _yellowLightState : LightState;
  _greenLightState : LightState
}.

Definition new : t := mk false EmptyString Off Off Off.

Definition IsInitialized (self : t) : bool := _initDone self.

Definition SetAllLightsOff (self : t) : M (Result * t) :=
  if negb (IsInitialized self) then ret (RESULT_NOT_READY, self)
  else ret (RESULT_OK, mk (_initDone self) (_name self) Off Off Off).

(** ITrafficLight::Config keeps pin numbers too; the mock reads the name only. *)
Definition Init (name : option string) (self : t) : M (Result * t) :=
  if IsInitialized self then ret (RESULT_BUSY, self)
  else match name with
       | None => ret (RESULT_BAD_PARAM, self)
       | Some n =>
           let self :=
             mk (_initDone self) (substring 0 (MAX_COMPONENT_NAME_LENGTH - 1) n)
                (_redLightState self) (_yellowLightState self)
                (_greenLightState self) in
           '(_, self) <- SetAllLightsOff self ;;
           ret (RESULT_OK,
                mk true (_name self) (_redLightState self)
                   (_yellowLightState self) (_greenLightState self))
       end.

Definition SetState (whichLight : LightSelector) (state : LightState) (self : t)
  : M (Result * t) :=
  if negb (IsInitialized self) then ret (RESULT_NOT_READY, self)
  else
    let notOn := match state with On => false | Off => true end in
    if notOn || notOn then ret (RESULT_BAD_PARAM, self)
    else
      match whichLight with
      | RedLight => ret (RESULT_OK, mk (_initDone self) (_name self) state Off Off)
      | YellowLight => ret (RESULT_OK, mk (_initDone self) (_name self) Off state Off)
      | GreenLight => ret (RESULT_OK, mk (_initDone self) (_name self) Off Off state)
      end.

Definition TurnOn (whichLight : LightSelector) (self : t) : M (Result * t) :=
  SetState whichLight On self.

Definition TurnOff (whichLight : LightSelector) (self : t) : M (Result * t) :=
  SetState whichLight Off self.

Definition PerformLightsTest (self : t) : M (Result * t) :=
  if negb (IsInitialized self) then ret (RESULT_NOT_READY, self)
  else
    '(result, self) <- TurnOn RedLight self ;;
    '(result, self) <-
       (if Result_eqb result RESULT_OK
        then delay 500 ;; TurnOn YellowLight self
        else ret (result, self)) ;;
    '(result, self) <-
       (if Result_eqb result RESULT_OK
        then delay 500 ;; TurnOn GreenLight self
        else ret (result, self)) ;;
    if Result_eqb result RESULT_OK
    then delay 500 ;; SetAllLightsOff self
    else ret (result, self).

(** [GetState(LightSelector whichLight, LightState& state)]; the reference
    parameter is passed in and returned. *)
Definition GetState (whichLight : LightSelector) (state : LightState) (self : t)
  : M (Result * LightState) :=
  if negb (IsInitialized self) then ret (RESULT_NOT_READY, state)
  else
    match whichLight with
    | RedLight => ret (RESULT_OK, _redLightState self)
    | YellowLight => ret (RESULT_OK, _yellowLightState self)
    | GreenLight => ret (RESULT_OK, _greenLightState self)
    end.

Definition Deinit (self : t) : M t :=
  '(_, self) <- SetAllLightsOff self ;;
  ret (mk false EmptyString (_redLightState self) (_yellowLightState self)
          (_greenLightState self)).

End MockTrafficLight.

#[export] Instance MockTrafficLight_ITrafficLight : ITrafficLight MockTrafficLight.t := {
  light_TurnOn := MockTrafficLight.TurnOn;
  light_SetAllLightsOff := MockTrafficLight.SetAllLightsOff;
  light_PerformLightsTest := MockTrafficLight.PerformLightsTest
}.

(** ** DiscreteLEDTrafficLight.cpp *)

Module DiscreteLEDTrafficLight.

(** ITrafficLight::Config; a null [name] is [None]. *)
Record Config : Type := mkConfig {
  name : option string;
  redLightPin : Z;
  yellowLightPin : Z;
  greenLightPin : Z;
  pinsPolarity : SignalPolarity
}.

Record t : Type := mk {
  _initDone : bool;
  _name : string;
  _redLightPin : Z;
  _yellowLightPin : Z;
  _greenLightPin : Z;
  _pinsPolarity : SignalPolarity
}.

Definition new : t := mk false EmptyString NOT_A_PIN NOT_A_PIN NOT_A_PIN ActiveHigh.

Definition IsInitialized (self : t) : bool := _initDone self.

Definition SetPintState (pin : Z) (active : bool) (self : t) : M unit :=
  let state :=
    if active
    then match _pinsPolarity self with ActiveHigh => HIGH | ActiveLow => LOW end
    else match _pinsPolarity self with ActiveHigh => LOW | ActiveLow => HIGH end in
  digitalWrite pin state.

(** [bool state] receives [HIGH] or [LOW], that is [true] or [false]. *)
Definition GetPintState (pin : Z) (self : t) : M bool :=
  level <- digitalRead pin ;;
  let rawState := match level with HIGH => true | LOW => false end in
  let state :=
    if rawState
    then match _pinsPolarity self with ActiveHigh => HIGH | ActiveLow => LOW end
    else match _pinsPolarity self with ActiveHigh => LOW | ActiveLow => HIGH end in
  ret (match state with HIGH => true | LOW => false end).

Definition SetAllLightsOff (self : t) : M (Result * t) :=
  if negb (IsInitialized self) then ret (RESULT_NOT_READY, self)
  else
    SetPintState (_redLightPin self) false self ;;
    SetPintState (_yellowLightPin self) false self ;;
    SetPintState (_greenLightPin self) false self ;;
    ret (RESULT_OK, self).

Definition Init (configuration : Config) (self : t) : M (Result * t) :=
  if IsInitialized self then ret (RESULT_BUSY, self)
  else match name configuration with
       | None => ret (RESULT_BAD_PARAM, self)
       | Some n =>
           let self :=
             mk (_initDone self) (substring 0 (MAX_COMPONENT_NAME_LENGTH - 1) n)
                (redLightPin configuration) (yellowLightPin configuration)
                (greenLightPin configuration) (pinsPolarity configuration) in
           pinMode (_redLightPin self) OUTPUT ;;
           pinMode (_yellowLightPin self) OUTPUT ;;
           pinMode (_greenLightPin self) OUTPUT ;;
           '(_, self) <- SetAllLightsOff self ;;
           ret (RESULT_OK,
                mk true (_name self) (_redLightPin self) (_yellowLightPin self)
                   (_greenLightPin self) (_pinsPolarity self))
       end.

Definition Deinit (self : t) : M t :=
  '(_, self) <- SetAllLightsOff self ;;
  pinMode (_redLightPin self) INPUT ;;
  pinMode (_yellowLightPin self) INPUT ;;
  pinMode (_greenLightPin self) INPUT ;;
  ret (mk false EmptyString (_redLightPin self) (_yellowLightPin self)
          (_greenLightPin self) (_pinsPolarity self)).

Definition SetState (whichLight : LightSelector) (state : LightState) (self : t)
  : M (Result * t) :=
  if negb (IsInitialized self) then ret (RESULT_NOT_READY, self)
  else
    let notOn := match state with On => false | Off => true end in
    if notOn || notOn then ret (RESULT_BAD_PARAM, self)
    else
      match whichLight with
      | RedLight =>
          SetPintState (_redLightPin self) true self ;;
          SetPintState (_yellowLightPin self) false self ;;
          SetPintState (_greenLightPin self) false self ;;
          ret (RESULT_OK, self)
      | YellowLight =>
          SetPintState (_redLightPin self) false self ;;
          SetPintState (_yellowLightPin self) true self ;;
          SetPintState (_greenLightPin self) false self ;;
          ret (RESULT_OK, self)
      | GreenLight =>
          SetPintState (_redLightPin self) false self ;;
          SetPintState (_yellowLightPin self) false self ;;
          SetPintState (_greenLightPin self) true self ;;
          ret (RESULT_OK, self)
      end.

Definition TurnOn (whichLight : LightSelector) (self : t) : M (Result * t) :=
  SetState whichLight On self.

Definition TurnOff (whichLight : LightSelector) (self : t) : M (Result * t) :=
  SetState whichLight Off self.

(** [GetState(LightSelector whichLight, LightState& state)] *)
Definition GetState (whichLight : LightSelector) (state : LightState) (self : t)
  : M (Result * LightState) :=
  if negb (IsInitialized self) then ret (RESULT_NOT_READY, state)
  else
    let pin := match whichLight with
               | RedLight => _redLightPin self
               | YellowLight => _yellowLightPin self
               | GreenLight => _greenLightPin self
               end in
    lit <- GetPintState pin self ;;
    ret (RESULT_OK, if lit then On else Off).

Definition PerformLightsTest (self : t) : M (Result * t) :=
  if negb (IsInitialized self) then ret (RESULT_NOT_READY, self)
  else
    '(result, self) <- TurnOn RedLight self ;;
    '(result, self) <-
       (if Result_eqb result RESULT_OK
        then delay 500 ;; TurnOn YellowLight self
        else ret (result, self)) ;;
    '(result, self) <-
       (if Result_eqb result RESULT_OK
        then delay 500 ;; TurnOn GreenLight self
        else ret (result, self)) ;;
    if Result_eqb result RESULT_OK
    then delay 500 ;; SetAllLightsOff self
    else ret (result, self).

End DiscreteLEDTrafficLight.

#[export] Instance DiscreteLEDTrafficLight_ITrafficLight
  : ITrafficLight DiscreteLEDTrafficLight.t := {
  light_TurnOn := DiscreteLEDTrafficLight.TurnOn;
  light_SetAllLightsOff := DiscreteLEDTrafficLight.SetAllLightsOff;
  light_PerformLightsTest := DiscreteLEDTrafficLight.PerformLightsTest
}.

(** ** MockDistanceSensor.cpp *)

(** The random-number calls of the Arduino core: [random()] takes its next
    value, which is not negative, from the feed; [random(howsmall, howbig)]
    is [random() % (howbig - howsmall) + howsmall] (and [howsmall] when the
    interval is empty); [analogRead] reads the feed, and [randomSeed] has
    nothing left to do. *)
Module Random.

Definition analogRead (pin : Z) : M Z := input.

Definition randomSeed (seed : Z) : M unit := ret tt.

Definition random (howsmall howbig : Z) : M Z :=
  if howsmall >=? howbig then ret howsmall
  else x <- input ;; ret (x mod (howbig - howsmall) + howsmall).

End Random.

Module MockDistanceSensor.

Definition minTriggerPulseDurationUs : Z := 10.
Definition minDistanceMm : Z := 20.
Definition maxDistanceMm : Z := 4000.

Record t : Type := mk {
  _initDone : bool;
  _name : string;
  _minTriggerPulseDurationUs : Z;
  _minDistanceMm : Z;
  _maxDistanceMm : Z
}.

Definition new : t :=
  mk false EmptyString minTriggerPulseDurationUs minDistanceMm maxDistanceMm.

Definition IsInitialized (self : t) : bool := _initDone self.

Definition Init (configuration : DistanceSensor.Config) (self : t) : M (Result * t) :=
  if IsInitialized self then ret (RESULT_BUSY, self)
  else match DistanceSensor.name configuration with
       | None => ret (RESULT_BAD_PARAM, self)
       | Some n =>
           seed <- Random.analogRead 0 ;;
           Random.randomSeed seed ;;
           ret (RESULT_OK,
                mk true (substring 0 (MAX_COMPONENT_NAME_LENGTH - 1) n)
                   (_minTriggerPulseDurationUs self) (_minDistanceMm self)
                   (_maxDistanceMm self))
       end.

Definition Deinit (self : t) : M t :=
  ret (mk false EmptyString (_minTriggerPulseDurationUs self)
          (_minDistanceMm self) (_maxDistanceMm self)).

Definition TriggerMeasurement (self : t) : M unit :=
  delayMicroseconds (_minTriggerPulseDurationUs self / 5) ;;
  delayMicroseconds (_minTriggerPulseDurationUs self) ;;
  delayMicroseconds (_minTriggerPulseDurationUs self / 5).

(** The same expressions as in DistanceSensor.cpp. *)
Definition SpeedOfSound (ambientTemperature : Z) : Float32.float :=
  Float32.add Float32.lit_331_4
    (Float32.div
       (Float32.mul Float32.lit_0_6 (Float32.of_uint32 ambientTemperature))
       Float32.lit_10).

Definition Distance2Time (ambientTemperature distanceMm : Z) : Z :=
  Float32.to_uint32
    (Float32.mul
       (Float32.mul
          (Float32.div
             (Float32.div (Float32.of_uint32 distanceMm) Float32.lit_1000)
             (Float32.div (SpeedOfSound ambientTemperature) Float32.lit_2))
          Float32.lit_1000)
       Float32.lit_1000).

(** [random] takes and returns [long]; the bounds are converted on the way
    in and the result on the way out. *)
Definition ReadDistance (ambientTemperature : Z) (self : t) (distance : Z) : M Z :=
  r <- Random.random (cast_int32 (_minDistanceMm self))
         (cast_int32 (_maxDistanceMm self)) ;;
  let distance := wrap_uint32 r in
  let timeUs := Distance2Time ambientTemperature distance in
  (if timeUs <? 1000
   then delayMicroseconds timeUs
   else delay (timeUs / 1000 + 1)) ;;
  ret distance.

Definition MeasureDistanceAt (ambientTemperature : Z) (self : t) (distance : Z)
  : M (Result * Z * t) :=
  if negb (IsInitialized self) then ret (RESULT_NOT_READY, distance, self)
  else
    TriggerMeasurement self ;;
    let distance := 0 in
    distance <- ReadDistance ambientTemperature self distance ;;
    ret (RESULT_OK, distance, self).

Definition MeasureDistance (self : t) (distance : Z) : M (Result * Z * t) :=
  let ambientTemperature := 20 * 10 in
  MeasureDistanceAt ambientTemperature self distance.

End MockDistanceSensor.

#[export] Instance MockDistanceSensor_IDistanceSensor
  : IDistanceSensor MockDistanceSensor.t := {
  sensor_MeasureDistance := MockDistanceSensor.MeasureDistance;
  sensor_MeasureDistanceAt := MockDistanceSensor.MeasureDistanceAt
}.

(** ** StateMachine.h, StateMachine.cpp: the proximity state machine *)

Module StateMachine.

Inductive State : Type :=
| Invalid | Initializing | Idle | Error | SubjectApproaching | SubjectRetreating.

Inductive MovingDirection : Type := Stopped | Forward | Backward.

Definition State_eqb (a b : State) : bool :=
  match a, b with
  | Invalid, Invalid | Initializing, Initializing | Idle, Idle | Error, Error
  | SubjectApproaching, SubjectApproaching
  | SubjectRetreating, SubjectRetreating => true
  | _, _ => false
  end.

Section WithCollaborators.

Context {S L : Type} `{IDistanceSensor S} `{ITrafficLight L}.

(** A null pointer is [None]. *)
Record Config : Type := mkConfig {
  distanceSensor : option S;
  trafficLight : option L;
  maxDistanceThresholdMm : Z;
  farThresholdMm : Z;
  nearThresholdMm : Z;
  movingDistanceDetectionThresholdMm : Z;
  movingTimeThresholdMs : Z;
  holdingTimeThresholdMs : Z
}.

Record t : Type := mk {
  _initDone : bool;
  _state : State;
  _previousState : State;
  _distanceSensor : option S;
  _trafficLight : option L;
  _previousDistance : Z;
  _previousTime : Z;
  _maxDistanceThresholdMm : Z;
  _farThresholdMm : Z;
  _nearThresholdMm : Z;
  _movingDistanceDetectionThresholdMm : Z;
  _movingTimeThresholdMs : Z;
  _holdingTimeThresholdMs : Z
}.

(** Constructor. *)
Definition new : t :=
  mk false Invalid Invalid None None UINT32_MAX 0 0 0 0 0 0 0.

(** Field assignments. *)
Definition set_distanceSensor (self : t) (s : S) : t :=
  mk (_initDone self) (_state self) (_previousState self) (Some s)
     (_trafficLight self) (_previousDistance self) (_previousTime self)
     (_maxDistanceThresholdMm self) (_farThresholdMm self) (_nearThresholdMm self)
     (_movingDistanceDetectionThresholdMm self) (_movingTimeThresholdMs self)
     (_holdingTimeThresholdMs self).

Definition set_trafficLight (self : t) (l : L) : t :=
  mk (_initDone self) (_state self) (_previousState self) (_distanceSensor self)
     (Some l) (_previousDistance self) (_previousTime self)
     (_maxDistanceThresholdMm self) (_farThresholdMm self) (_nearThresholdMm self)
     (_movingDistanceDetectionThresholdMm self) (_movingTimeThresholdMs self)
     (_holdingTimeThresholdMs self).

Definition set_previousDistance (self : t) (d : Z) : t :=
  mk (_initDone self) (_state self) (_previousState self) (_distanceSensor self)
     (_trafficLight self) d (_previousTime self)
     (_maxDistanceThresholdMm self) (_farThresholdMm self) (_nearThresholdMm self)
     (_movingDistanceDetectionThresholdMm self) (_movingTimeThresholdMs self)
     (_holdingTimeThresholdMs self).

Definition set_previousTime (self : t) (time : Z) : t :=
  mk (_initDone self) (_state self) (_previousState self) (_distanceSensor self)
     (_trafficLight self) (_previousDistance self) time
     (_maxDistanceThresholdMm self) (_farThresholdMm self) (_nearThresholdMm self)
     (_movingDistanceDetectionThresholdMm self) (_movingTimeThresholdMs self)
     (_holdingTimeThresholdMs self).

(** [_previousState = _state; _state = nextState;] *)
Definition set_state (self : t) (nextState : State) : t :=
  mk (_initDone self) nextState (_state self) (_distanceSensor self)
     (_trafficLight self) (_previousDistance self) (_previousTime self)
     (_maxDistanceThresholdMm self) (_farThresholdMm self) (_nearThresholdMm self)
     (_movingDistanceDetectionThresholdMm self) (_movingTimeThresholdMs self)
     (_holdingTimeThresholdMs self).

Definition is_null {A} (p : option A) : bool :=
  match p with None => true | Some _ => false end.

Definition Init (configuration : Config) (self : t) : M t :=
  assert (negb (_initDone self)) "_initDone == false" ;;
  assert (negb (is_null (distanceSensor configuration)))
         "configuration.distanceSensor != nullptr" ;;
  assert (negb (is_null (trafficLight configuration)))
         "configuration.trafficLight != nullptr" ;;
  ret (mk true Initializing (_previousState self)
          (distanceSensor configuration) (trafficLight configuration)
          UINT32_MAX 0
          (maxDistanceThresholdMm configuration)
          (farThresholdMm configuration)
          (nearThresholdMm configuration)
          (movingDistanceDetectionThresholdMm configuration)
          (movingTimeThresholdMs configuration)
          (holdingTimeThresholdMs configuration)).

(** The [switch (result)] of [MeasureDistance]: what becomes of the
    sensor's answer. *)
Definition HandleResult (result : Result) (distance : Z) : M Z :=
  match result with
  | RESULT_OK => ret distance
  | RESULT_TIMEOUT => ret UINT32_MAX
  | RESULT_DEV_ERR => delay 1000 ;; Reset
  | RESULT_NOT_READY =>
      assert (negb (Result_eqb result RESULT_NOT_READY))
             "result != RESULT_NOT_READY" ;;
      ret distance
  | _ => assert false "false" ;; ret distance
  end.

Definition MeasureDistance (self : t) : M (Z * t) :=
  let distance := 0 in
  match _distanceSensor self with
  | None => halt NullPointer
  | Some sensor =>
      '(result, distance, sensor) <- sensor_MeasureDistance sensor distance ;;
      distance <- HandleResult result distance ;;
      ret (distance, set_distanceSensor self sensor)
  end.

Definition SetAllLightsOff (self : t) : M t :=
  match _trafficLight self with
  | None => halt NullPointer
  | Some light =>
      '(_, light) <- light_SetAllLightsOff light ;;
      ret (set_trafficLight self light)
  end.

Definition TestLights (self : t) : M (Result * t) :=
  match _trafficLight self with
  | None => halt NullPointer
  | Some light =>
      '(result, light) <- light_PerformLightsTest light ;;
      ret (result, set_trafficLight self light)
  end.

Definition SetTrafficLights (distance : Z) (self : t) : M t :=
  match _trafficLight self with
  | None => halt NullPointer
  | Some light =>
      '(result, light) <-
         (if distance >? _maxDistanceThresholdMm self
          then light_SetAllLightsOff light
          else if distance >? _farThresholdMm self
          then light_TurnOn GreenLight light
          else if distance >? _nearThresholdMm self
          then light_TurnOn YellowLight light
          else light_TurnOn RedLight light) ;;
      assert (Result_eqb result RESULT_OK) "result == RESULT_OK" ;;
      ret (set_trafficLight self light)
  end.

(** [deltaT] is a [uint32_t], [deltaD] an [int32_t]; [abs(deltaD)] meets
    the unsigned threshold in an unsigned comparison. *)
Definition GetMovingDirection (self : t) (deltaT deltaD : Z) : MovingDirection :=
  if deltaT >? _movingTimeThresholdMs self
  then if wrap_uint32 (abs deltaD) >? _movingDistanceDetectionThresholdMm self
       then (if deltaD >? 0 then Backward else Forward)
       else Stopped
  else Stopped.

(** The [deltaD] of [Update]:
    [(distance > _previousDistance) ?
        (int32_t)(distance - _previousDistance) :
        ((int32_t)(_previousDistance - distance) * (-1))]. *)
Definition DeltaD (distance previousDistance : Z) : Z :=
  if distance >? previousDistance
  then cast_int32 (wrap_uint32 (distance - previousDistance))
  else cast_int32 (cast_int32 (wrap_uint32 (previousDistance - distance)) * (-1)).

(** The [switch (_state)] of [Update]; it yields [nextState]. *)
Definition Transition (distance time deltaT : Z)
    (movingDirection : MovingDirection) (self : t) : M (State * t) :=
  let nextState := _state self in
  match _state self with
  | Initializing =>
      let self := set_previousTime self time in
      '(result, self) <- TestLights self ;;
      ret (if negb (Result_eqb result RESULT_OK) then Error else Idle, self)
  | Idle =>
      let self := set_previousTime self time in
      match movingDirection with
      | Stopped => self <- SetAllLightsOff self ;; ret (nextState, self)
      | Backward => ret (SubjectRetreating, self)
      | Forward => ret (SubjectApproaching, self)
      end
  | SubjectApproaching =>
      self <- SetTrafficLights distance self ;;
      match movingDirection with
      | Stopped =>
          if deltaT >? _holdingTimeThresholdMs self
          then self <- SetAllLightsOff self ;; ret (Idle, self)
          else ret (nextState, self)
      | Backward => ret (SubjectRetreating, set_previousTime self time)
      | Forward => ret (SubjectApproaching, set_previousTime self time)
      end
  | SubjectRetreating =>
      self <- SetTrafficLights distance self ;;
      match movingDirection with
      | Stopped =>
          if deltaT >? _holdingTimeThresholdMs self
          then self <- SetAllLightsOff self ;; ret (Idle, self)
          else ret (nextState, self)
      | Backward => ret (SubjectRetreating, set_previousTime self time)
      | Forward => ret (SubjectApproaching, set_previousTime self time)
      end
  | Invalid => ret (Error, self)
  | Error =>
      assert (negb (State_eqb (_state self) Error)) "_state != State::Error" ;;
      ret (nextState, self)
  end.

(** [Update] from the point where the distance and the two [millis()]
    readings are known. *)
Definition Advance (distance time now : Z) (self : t) : M t :=
  let deltaT := wrap_uint32 (now - _previousTime self) in
  let deltaD := DeltaD distance (_previousDistance self) in
  let movingDirection := GetMovingDirection self deltaT deltaD in
  let self := set_previousDistance self distance in
  '(nextState, self) <- Transition distance time deltaT movingDirection self ;;
  ret (set_state self nextState).

Definition Update (self : t) : M t :=
  assert (_initDone self) "_initDone == true" ;;
  '(distance, self) <- MeasureDistance self ;;
  time <- millis ;;
  now <- millis ;;
  Advance distance time now self.

End WithCollaborators.

Arguments Config : clear implicits.
Arguments t : clear implicits.

(** The enumerators as the integers the compiler gives them. *)
Definition State_value (state : State) : Z :=
  match state with
  | Invalid => -1
  | Initializing => 0
  | Idle => 1
  | Error => 2
  | SubjectApproaching => 3
  | SubjectRetreating => 4
  end.

Definition MovingDirection_value (movingDirection : MovingDirection) : Z :=
  match movingDirection with
  | Stopped => 0
  | Forward => 1
  | Backward => 2
  end.

Definition DIRECTION_STRINGS : list string :=
  ["Stopped"; "Forward"; "Backward"; "Invalid"]%string.

(** [ToString(MovingDirection)], on the integer value of its argument; an
    index outside the table would be [None]. *)
Definition ToString_MovingDirection (movingDirection : Z) : option string :=
  if (movingDirection >=? MovingDirection_value Stopped)
     && (movingDirection <=? MovingDirection_value Forward)
  then nth_error DIRECTION_STRINGS (Z.to_nat movingDirection)
  else nth_error DIRECTION_STRINGS (Z.to_nat (MovingDirection_value Forward + 1)).

Definition STATE_STRINGS : list string :=
  ["Invalid"; "Initializing"; "Idle"; "Error"; "SubjectApproaching";
   "SubjectRetreating"; "Unknown"]%string.

(** [ToString(State)], likewise. *)
Definition ToString_State (state : Z) : option string :=
  if (state >=? State_value Invalid) && (state <=? State_value SubjectRetreating)
  then nth_error STATE_STRINGS (Z.to_nat (state + 1))
  else nth_error STATE_STRINGS (Z.to_nat (State_value SubjectRetreating + 2)).

End StateMachine.

(** ** Result.cpp *)

Definition resName : list string :=
  ["RESULT_OK"; "RESULT_ERROR"; "RESULT_NOT_SUP"; "RESULT_NOT_IMPL";
   "RESULT_NOT_READY"; "RESULT_NOT_EXECUTED"; "RESULT_NOT_ALLOWED";
   "RESULT_BAD_PARAM"; "RESULT_PARSE_ERROR"; "RESULT_PERM_DENIED";
   "RESULT_EXISTS"; "RESULT_BUSY"; "RESULT_DEV_ERR"; "RESULT_TIMEOUT";
   "RESULT_ABORTED"; "RESULT_NO_DATA"; "RESULT_NO_MEM"; "RESULT_NO_RESOURCE";
   "RESULT_HW_FAILURE"; "RESULT_HW_DISABLED"; "RESULT_OVERFLOW";
   "RESULT_UNDERFLOW"; "RESULT_CRC_ERROR"; "RESULT_NOT_VALID"]%string.

(** [ResultToStr], on the integer value of its argument.  [RESULT_OK] is the
    first enumerator, 0; [RESULT_MAX_VAL] is declared in Result.h, which is
    not among the sources, and is taken as a parameter.  An index outside
    the table would be [None]. *)
Definition ResultToStr (RESULT_MAX_VAL : Z) (r : Z) : option string :=
  let rr := r in
  if (rr <? 0) || (rr >=? RESULT_MAX_VAL)
  then Some "Unknown Error Code"%string
  else nth_error resName (Z.to_nat rr).

(** ** Vocabulary of the specification *)

(** The commands of the tier selection: indicator off, or one tier lit. *)
Inductive TierCommand : Type := AllOff | Tier (whichLight : LightSelector).

(** The state machine sends the command to its indicator and insists on
    [RESULT_OK], as [SetTrafficLights] does after choosing. *)
Definition IssueTier {S L : Type} `{ITrafficLight L}
    (c : TierCommand) (self : StateMachine.t S L) : M (StateMachine.t S L) :=
  match StateMachine._trafficLight self with
  | None => halt NullPointer
  | Some light =>
      '(result, light) <-
         match c with
         | AllOff => light_SetAllLightsOff light
         | Tier whichLight => light_TurnOn whichLight light
         end ;;
      assert (Result_eqb result RESULT_OK) "result == RESULT_OK" ;;
      ret (StateMachine.set_trafficLight self light)
  end.


(** A ranging driver on which no [Init] has succeeded since construction or
    since the last [Deinit]. *)
Inductive Unconfigured : DistanceSensor.t -> Prop :=
| Unconfigured_fresh (minTriggerPulseDurationUs minDistanceMm maxDistanceMm : Z)
    (triggerPolarity echoPolarity : SignalPolarity) :
    Unconfigured
      (DistanceSensor.new minTriggerPulseDurationUs minDistanceMm maxDistanceMm
         triggerPolarity echoPolarity)
| Unconfigured_Deinit (self : DistanceSensor.t) (b : Board)
    (self' : DistanceSensor.t) (b' : Board) :
    DistanceSensor.Deinit self b = Done self' b' ->
    Unconfigured self'
| Unconfigured_failed_Init (self : DistanceSensor.t)
    (configuration : DistanceSensor.Config) (b : Board)
    (result : Result) (self' : DistanceSensor.t) (b' : Board) :
    Unconfigured self ->
    DistanceSensor.Init configuration self b = Done (result, self') b' ->
    result <> RESULT_OK ->
    Unconfigured self'.

(** *** Synthetic echo pulses

    What the board feeds the driver during one [ReadDistance]: the clock at
    the start, polls that see the echo inactive, the poll that sees it
    rise, the two clock readings taken between the loops, polls that see
    it active, and the poll that sees it fall.  A poll is one reading of
    the echo pin followed by one reading of [micros]. *)

(** The pin value that reads as [active] under the driver's echo polarity. *)
Definition echo_level (self : DistanceSensor.t) (active : bool) : Z :=
  match DistanceSensor._echoPolarity self with
  | ActiveHigh => if active then 1 else 0
  | ActiveLow => if active then 0 else 1
  end.

Definition polls (self : DistanceSensor.t) (active : bool) (clock : list Z) : list Z :=
  flat_map (fun t => [echo_level self active; t]) clock.

Definition echo_pulse (self : DistanceSensor.t)
    (t0 : Z) (lows : list Z) (tRise tStart tRef : Z) (highs : list Z) (tFall : Z)
    (rest : list Z) : list Z :=
  t0 :: polls self false lows ++ [echo_level self true; tRise]
     ++ [tStart; tRef]
     ++ polls self true highs ++ [echo_level self false; tFall] ++ rest.

(** The trigger pulse as it appears on the wire: the three delays as the
    16-bit parameter of [delayMicroseconds] receives them. *)
Definition trigger_pulse (self : DistanceSensor.t) : list Event :=
  let pin := DistanceSensor._triggerPin self in
  let us := DistanceSensor._minTriggerPulseDurationUs self in
  let level (active : bool) :=
    match DistanceSensor._triggerPolarity self with
    | ActiveHigh => if active then HIGH else LOW
    | ActiveLow => if active then LOW else HIGH
    end in
  [DigitalWriteEv pin (level false); DelayMicrosecondsEv (wrap_uint16 (us / 5));
   DigitalWriteEv pin (level true); DelayMicrosecondsEv (wrap_uint16 us);
   DigitalWriteEv pin (level false); DelayMicrosecondsEv (wrap_uint16 (us / 5))].

(** Every clock reading of the list is a [uint32_t] below the deadline. *)
Definition before (deadline : Z) (clock : list Z) : Prop :=
  Forall (fun t => is_uint32 t /\ t < deadline) clock.

(** *** Closed form and round trip *)

(** The closed form of the specification in exact arithmetic, rounded down:
    [W / 1,000,000 * ((331.4 + 0.6 * (T / 10)) / 2) * 1000]
    [= W * (33140 + 6 * T) / 200000] millimetres. *)
Definition closed_form_mm (T W : Z) : Z := W * (33140 + 6 * T) / 200000.

(** Two integers that differ by rounding only. *)
Definition within_integer_rounding (a b : Z) : Prop := Z.abs (a - b) <= 1.

(** *** Single precision against exact arithmetic

    The vocabulary for bounding the rounding error of a single-precision
    expression: the value of a float as a rational, and the statement that
    a float is a normal positive number near a given rational. *)

(** The rational [N / D] lies at the location [l] above the integer [m]. *)
Definition inloc (N D m : Z) (l : location) : Prop :=
  match l with
  | loc_Exact => N = m * D
  | loc_Inexact Lt => m * D < N /\ 2 * N < (2 * m + 1) * D
  | loc_Inexact Eq => 2 * N = (2 * m + 1) * D
  | loc_Inexact Gt => (2 * m + 1) * D < 2 * N /\ N < (m + 1) * D
  end.

(** The value of a float; zero, infinities and NaN count as 0. *)
Definition F2Q (x : spec_float) : Q :=
  match x with
  | S754_finite s m e => (inject_Z (if s then Zneg m else Zpos m) * Qpower 2 e)%Q
  | _ => 0%Q
  end.

(** The unit roundoff of single precision, [2^-24]. *)
Definition u24 : Q := (1 # 16777216)%Q.

(** [x] is positive with a full 24-bit significand and an exponent between
    [lo] and [hi]. *)
Definition normal (x : spec_float) (lo hi : Z) : Prop :=
  exists m e, x = S754_finite false m e
              /\ 2 ^ 23 <= Zpos m < 2 ^ 24 /\ lo <= e <= hi.

(** [x] is a normal positive number with exponent between [lo] and [hi]
    whose value is [v] up to the relative error [eps]. *)
Definition approx (x : spec_float) (v eps : Q) (lo hi : Z) : Prop :=
  normal x lo hi /\ (v * (1 - eps) <= F2Q x <= v * (1 + eps))%Q.

(** Relative errors are counted in units of 1/16000000, just above the
    unit roundoff. *)
Definition rel_err (k : Z) : Q := (k # 16000000)%Q.

(** Half the speed of sound in exact arithmetic, in m/s:
    [(331.4 + 0.6 * T / 10) / 2]. *)
Definition half_speed (T : Z) : Q :=
  (((3314 # 10) + (6 # 10) * inject_Z T / 10) / 2)%Q.

(** A sweep over pulse widths at 20.0 degrees Celsius. *)
Module Sweep.

(** The conversions with [SpeedOfSound(T) / 2] taken as given. *)
Definition Time2DistanceAt (halfSpeed : Float32.float) (timeUs : Z) : Z :=
  Float32.to_uint32
    (Float32.mul
       (Float32.mul
          (Float32.div
             (Float32.div (Float32.of_uint32 timeUs) Float32.lit_1000)
             Float32.lit_1000)
          halfSpeed)
       Float32.lit_1000).

Definition Distance2TimeAt (halfSpeed : Float32.float) (distanceMm : Z) : Z :=
  Float32.to_uint32
    (Float32.mul
       (Float32.mul
          (Float32.div
             (Float32.div (Float32.of_uint32 distanceMm) Float32.lit_1000)
             halfSpeed)
          Float32.lit_1000)
       Float32.lit_1000).

(** [SpeedOfSound(200) / 2], about 171.7 m/s. *)
Definition halfSpeed200 : Float32.float := S754_finite false 11252531 (-16).

(** For the width [W], its distance [d] and the time [W'] converted back:
    [d] is the closed form or one less, and [W'] is at most 6 below [W]. *)
Definition holds (W d W' : Z) : bool :=
  (closed_form_mm 200 W - 1 <=? d) && (d <=? closed_form_mm 200 W)
  && (W - 6 <=? W') && (W' <=? W).

(** Checks [holds] at [W], [W + 1], ..., [n] widths in all, reusing the
    converted time while the distance does not change. *)
Fixpoint sweep (n : nat) (W dPrev WPrev : Z) : bool :=
  match n with
  | O => true
  | S k =>
      let d := Time2DistanceAt halfSpeed200 W in
      let W' := if d =? dPrev then WPrev else Distance2TimeAt halfSpeed200 d in
      holds W d W' && sweep k (W + 1) d W'
  end.

End Sweep.

(** *** Answers of a computation

    [answers c P]: whenever [c] completes, its value satisfies [P]; and when
    it does not complete, it is only because the synthetic feed ran out. *)
Definition answers {A : Type} (c : M A) (P : A -> Prop) : Prop :=
  forall b, match c b with
            | Done a _ => P a
            | Halted why _ => why = Stalled
            end.

(** ** Fixtures: collaborators and configurations for concrete runs *)

(** A sensor double that replays scripted answers, so that the state
    machine can be run on every answer the interface allows. *)
Module ScriptedSensor.

Definition t : Type := list (Result * Z).

Definition MeasureDistanceAt (ambientTemperature : Z) (self : t) (distance : Z)
  : M (Result * Z * t) :=
  match self with
  | [] => ret (RESULT_NOT_READY, distance, self)
  | (result, d) :: rest => ret (result, d, rest)
  end.

Definition MeasureDistance (self : t) (distance : Z) : M (Result * Z * t) :=
  MeasureDistanceAt (20 * 10) self distance.

End ScriptedSensor.

#[export] Instance ScriptedSensor_IDistanceSensor : IDistanceSensor ScriptedSensor.t := {
  sensor_MeasureDistance := ScriptedSensor.MeasureDistance;
  sensor_MeasureDistanceAt := ScriptedSensor.MeasureDistanceAt
}.

Module Fixture.

Definition board (inputs : list Z) : Board := mkBoard inputs [].

(** The HC-SR04 after [Init] on pins 7 (trigger) and 8 (echo). *)
Definition sensor : DistanceSensor.t :=
  DistanceSensor.mk true "HC-SR04" 7 8
    HCSR04.minTriggerPulseDurationUs HCSR04.minDistanceMm HCSR04.maxDistanceMm
    HCSR04.triggerPolarity HCSR04.echoPolarity.

(** The mock indicator after [Init]. *)
Definition light : MockTrafficLight.t :=
  MockTrafficLight.mk true "lights" Off Off Off.

(** near 100 mm, far 300 mm, cutoff 2000 mm; motion above 50 mm after
    500 ms; idle after 3000 ms without motion. *)
Definition config {S : Type} (s : S) : StateMachine.Config S MockTrafficLight.t :=
  StateMachine.mkConfig (Some s) (Some light) 2000 300 100 50 500 3000.


(** The state machine as [Init (config s)] leaves it, put in [state]
    with the given previous reading and timestamp. *)
Definition machine {S : Type} (s : S) (state : StateMachine.State)
    (previousDistance previousTime : Z) : StateMachine.t S MockTrafficLight.t :=
  StateMachine.mk true state StateMachine.Initializing (Some s) (Some light)
    previousDistance previousTime 2000 300 100 50 500 3000.

End Fixture.

(** ** Vocabulary for runs and outputs *)

(** The board on which a run ends, however it ends. *)
Definition board_of {A : Type} (o : outcome A) : Board :=
  match o with
  | Done _ b => b
  | Halted _ b => b
  end.

(** A computation that writes nothing to the outside. *)
Definition silent {A : Type} (c : M A) : Prop :=
  forall b, wire (board_of (c b)) = wire b.

(** What the board feeds the driver when no echo comes: polls that see the
    echo inactive, the last of them with the clock at or past the deadline. *)
Definition echo_absent (self : DistanceSensor.t)
    (t0 : Z) (lows : list Z) (tLate : Z) (rest : list Z) : list Z :=
  t0 :: polls self false lows ++ [echo_level self false; tLate] ++ rest.

(** The echo rises and stays active until the clock is at or past the
    second deadline. *)
Definition echo_stuck (self : DistanceSensor.t)
    (t0 : Z) (lows : list Z) (tRise tStart tRef : Z) (highs : list Z) (tLate : Z)
    (rest : list Z) : list Z :=
  t0 :: polls self false lows ++ [echo_level self true; tRise]
     ++ [tStart; tRef]
     ++ polls self true highs ++ [echo_level self true; tLate] ++ rest.

(** A sweep over the distances of the HC-SR04 range at 20.0 degrees
    Celsius: the distance converted to time and back. *)
Module SweepBack.

(** For the distance [d] and the distance [d'] converted back: [d'] is [d]
    or one less. *)
Definition holds (d d' : Z) : bool := (d - 1 <=? d') && (d' <=? d).

(** Checks [holds] at [d], [d + 1], ..., [n] distances in all, and that
    the converted time grows from each distance to the next. *)
Fixpoint sweep (n : nat) (d WPrev : Z) : bool :=
  match n with
  | O => true
  | S k =>
      let W := Sweep.Distance2TimeAt Sweep.halfSpeed200 d in
      let d' := Sweep.Time2DistanceAt Sweep.halfSpeed200 W in
      holds d d' && (WPrev <? W) && sweep k (d + 1) W
  end.

End SweepBack.

(** ** Vocabulary for the indicators *)

Definition LightSelector_eqb (a b : LightSelector) : bool :=
  match a, b with
  | RedLight, RedLight | YellowLight, YellowLight | GreenLight, GreenLight => true
  | _, _ => false
  end.

(** The pin of a light, and the level that makes a light active or
    inactive under the polarity of the indicator. *)
Definition led_pin (self : DiscreteLEDTrafficLight.t) (whichLight : LightSelector) : Z :=
  match whichLight with
  | RedLight => DiscreteLEDTrafficLight._redLightPin self
  | YellowLight => DiscreteLEDTrafficLight._yellowLightPin self
  | GreenLight => DiscreteLEDTrafficLight._greenLightPin self
  end.

Definition led_level (self : DiscreteLEDTrafficLight.t) (active : bool) : PinLevel :=
  match DiscreteLEDTrafficLight._pinsPolarity self with
  | ActiveHigh => if active then HIGH else LOW
  | ActiveLow => if active then LOW else HIGH
  end.

(** The three pin writes that show [lit], or no light for [None], in the
    order red, yellow, green. *)
Definition led_frame (self : DiscreteLEDTrafficLight.t) (lit : option LightSelector)
  : list Event :=
  let shows (whichLight : LightSelector) :=
    match lit with
    | Some l => LightSelector_eqb l whichLight
    | None => false
    end in
  [DigitalWriteEv (led_pin self RedLight) (led_level self (shows RedLight));
   DigitalWriteEv (led_pin self YellowLight) (led_level self (shows YellowLight));
   DigitalWriteEv (led_pin self GreenLight) (led_level self (shows GreenLight))].

(** The level a pin was last driven to on the wire, if any. *)
Fixpoint driven (w : list Event) (pin : Z) : option PinLevel :=
  match w with
  | [] => None
  | e :: w' =>
      match driven w' pin with
      | Some level => Some level
      | None =>
          match e with
          | DigitalWriteEv p level => if p =? pin then Some level else None
          | _ => None
          end
      end
  end.

(** What [digitalRead] returns for a pin at the given level. *)
Definition level_value (level : PinLevel) : Z :=
  match level with LOW => 0 | HIGH => 1 end.

(** The calls a user can make on the mock indicator, and a sequence of
    them run in order. *)
Inductive MockCall : Type :=
| CallInit (name : option string)
| CallDeinit
| CallTurnOn (whichLight : LightSelector)
| CallTurnOff (whichLight : LightSelector)
| CallSetState (whichLight : LightSelector) (state : LightState)
| CallSetAllLightsOff
| CallPerformLightsTest.

Definition MockCall_run (c : MockCall) (self : MockTrafficLight.t)
  : M MockTrafficLight.t :=
  match c with
  | CallInit name => '(_, self) <- MockTrafficLight.Init name self ;; ret self
  | CallDeinit => MockTrafficLight.Deinit self
  | CallTurnOn l => '(_, self) <- MockTrafficLight.TurnOn l self ;; ret self
  | CallTurnOff l => '(_, self) <- MockTrafficLight.TurnOff l self ;; ret self
  | CallSetState l s => '(_, self) <- MockTrafficLight.SetState l s self ;; ret self
  | CallSetAllLightsOff => '(_, self) <- MockTrafficLight.SetAllLightsOff self ;; ret self
  | CallPerformLightsTest =>
      '(_, self) <- MockTrafficLight.PerformLightsTest self ;; ret self
  end.

Fixpoint MockCalls_run (cs : list MockCall) (self : MockTrafficLight.t)
  : M MockTrafficLight.t :=
  match cs with
  | [] => ret self
  | c :: cs' => self <- MockCall_run c self ;; MockCalls_run cs' self
  end.

(** How many lights of the mock indicator are on. *)
Definition lit_count (self : MockTrafficLight.t) : nat :=
  let one (s : LightState) := match s with On => 1%nat | Off => 0%nat end in
  (one (MockTrafficLight._redLightState self)
   + one (MockTrafficLight._yellowLightState self)
   + one (MockTrafficLight._greenLightState self))%nat.

(** ** Vocabulary for runs of the state machine *)

(** The three states of normal operation. *)
Definition operating (state : StateMachine.State) : Prop :=
  state = StateMachine.Idle
  \/ state = StateMachine.SubjectApproaching
  \/ state = StateMachine.SubjectRetreating.

(** Two machines with the same thresholds. *)
Definition same_thresholds {S L : Type} (a b : StateMachine.t S L) : Prop :=
  StateMachine._maxDistanceThresholdMm a = StateMachine._maxDistanceThresholdMm b
  /\ StateMachine._farThresholdMm a = StateMachine._farThresholdMm b
  /\ StateMachine._nearThresholdMm a = StateMachine._nearThresholdMm b
  /\ StateMachine._movingDistanceDetectionThresholdMm a
     = StateMachine._movingDistanceDetectionThresholdMm b
  /\ StateMachine._movingTimeThresholdMs a = StateMachine._movingTimeThresholdMs b
  /\ StateMachine._holdingTimeThresholdMs a = StateMachine._holdingTimeThresholdMs b.

(** Successive updates, each from the point where its distance and its two
    clock readings [(distance, time, now)] are known. *)
Fixpoint Advances {S L : Type} `{IDistanceSensor S} `{ITrafficLight L}
    (samples : list (Z * Z * Z)) (self : StateMachine.t S L)
  : M (StateMachine.t S L) :=
  match samples with
  | [] => ret self
  | (distance, time, now) :: rest =>
      self <- StateMachine.Advance distance time now self ;;
      Advances rest self
  end.

(** Every update comes no later than [threshold] milliseconds after the
    clock reading the update before it has kept. *)
Fixpoint paced (threshold previousTime : Z) (samples : list (Z * Z * Z)) : Prop :=
  match samples with
  | [] => True
  | (distance, time, now) :: rest =>
      wrap_uint32 (now - previousTime) <= threshold /\ paced threshold time rest
  end.

(** * Properties *)

(** ** The fixtures are states the code reaches *)

Lemma Fixture_sensor_reached :
  DistanceSensor.Init (DistanceSensor.mkConfig (Some "HC-SR04"%string) 7 8)
    HCSR04.new (Fixture.board [])
  = Done (RESULT_OK, Fixture.sensor)
         (mkBoard [] [PinModeEv 7 OUTPUT; PinModeEv 8 INPUT]).
Proof. reflexivity. Qed.

Lemma Fixture_light_reached :
  MockTrafficLight.Init (Some "lights"%string) MockTrafficLight.new (Fixture.board [])
  = Done (RESULT_OK, Fixture.light) (Fixture.board []).
Proof. reflexivity. Qed.

(** [Init], then a first update with the light test passing: the machine is
    [Idle] with the first reading retained. *)
Lemma Fixture_machine_reached :
  (self <- StateMachine.Init (Fixture.config [(RESULT_OK, 1200)]) StateMachine.new ;;
   StateMachine.Update self) (Fixture.board [250; 250])
  = Done (Fixture.machine [] StateMachine.Idle 1200 250)
         (mkBoard [] [DelayEv 500; DelayEv 500; DelayEv 500]).
Proof. reflexivity. Qed.

(** ** Machine arithmetic *)

Ltac solve_range :=
  try unfold is_uint32 in *; try unfold is_int32 in *;
  try unfold UINT32_MAX in *; lia.

Lemma wrap_uint32_small (z : Z) : is_uint32 z -> wrap_uint32 z = z.
Proof.
  unfold is_uint32, UINT32_MAX, wrap_uint32. intros Hz.
  apply Z.mod_small. lia.
Qed.

Lemma wrap_uint32_range (z : Z) : is_uint32 (wrap_uint32 z).
Proof.
  unfold is_uint32, UINT32_MAX, wrap_uint32.
  pose proof (Z.mod_pos_bound z 4294967296 ltac:(lia)). lia.
Qed.

Lemma cast_int32_small (z : Z) : is_int32 z -> cast_int32 z = z.
Proof.
  unfold is_int32, cast_int32. intros Hz.
  rewrite Z.mod_small by lia. lia.
Qed.

Lemma cast_int32_range (z : Z) : is_int32 (cast_int32 z).
Proof.
  unfold is_int32, cast_int32.
  pose proof (Z.mod_pos_bound (z + 2147483648) 4294967296 ltac:(lia)). lia.
Qed.

(** A value in the upper half of the unsigned range reads as negative. *)
Lemma cast_int32_high (z : Z) :
  2147483648 <= z <= UINT32_MAX -> cast_int32 z = z - 4294967296.
Proof.
  unfold UINT32_MAX, cast_int32. intros Hz.
  replace (z + 2147483648) with ((z - 2147483648) + 1 * 4294967296) by lia.
  rewrite Z.mod_add by lia. rewrite Z.mod_small by lia. lia.
Qed.

(** The macro [abs], read back as an unsigned number, is the absolute value
    on the whole [int32_t] range, [INT32_MIN] included. *)
Lemma abs_unsigned (x : Z) : is_int32 x -> wrap_uint32 (abs x) = Z.abs x.
Proof.
  unfold is_int32, abs. intros Hx.
  destruct (x >? 0) eqn:Hpos.
  - apply Z.gtb_lt in Hpos. rewrite wrap_uint32_small; [lia|].
    unfold is_uint32, UINT32_MAX. lia.
  - assert (Hle : x <= 0).
    { destruct (Z.gtb_spec x 0); [discriminate | lia]. }
    destruct (Z.eq_dec x (-2147483648)) as [->|Hne].
    + reflexivity.
    + rewrite cast_int32_small by (unfold is_int32; lia).
      rewrite wrap_uint32_small; [lia|].
      unfold is_uint32, UINT32_MAX. lia.
Qed.

(** ** Motion classification *)

Section MotionClassification.

Context {S L : Type}.
Variable self : StateMachine.t S L.

Let timeThreshold := StateMachine._movingTimeThresholdMs self.
Let distanceThreshold := StateMachine._movingDistanceDetectionThresholdMm self.

(** [GetMovingDirection] as one formula over the mathematical values. *)
Lemma GetMovingDirection_formula (deltaT deltaD : Z) :
  is_int32 deltaD ->
  StateMachine.GetMovingDirection self deltaT deltaD =
    if (deltaT >? timeThreshold) && (Z.abs deltaD >? distanceThreshold)
    then (if deltaD >? 0 then StateMachine.Backward else StateMachine.Forward)
    else StateMachine.Stopped.
Proof.
  intros Hd. unfold StateMachine.GetMovingDirection.
  rewrite (abs_unsigned deltaD Hd).
  subst timeThreshold distanceThreshold.
  destruct (deltaT >? _); [|reflexivity].
  destruct (Z.abs deltaD >? _); reflexivity.
Qed.

(** C1.  With [Stopped], [Forward], [Backward] the code's names for
    Stationary, Approaching, Retreating: the direction is Stationary
    unless both [deltaT > movingTimeThresholdMs] and
    [|deltaD| > movingDistanceDetectionThresholdMm]; when both hold it is
    Retreating for [deltaD > 0] and Approaching otherwise.  A [deltaD]
    above the distance threshold with [deltaT] not above the time
    threshold is Stationary, and [deltaD = 0] is always Stationary. *)
Theorem C1_motion_direction (deltaT deltaD : Z) :
  is_int32 deltaD -> is_uint32 distanceThreshold ->
  (~ (deltaT > timeThreshold /\ Z.abs deltaD > distanceThreshold) ->
     StateMachine.GetMovingDirection self deltaT deltaD = StateMachine.Stopped)
  /\ (deltaT > timeThreshold -> Z.abs deltaD > distanceThreshold ->
      StateMachine.GetMovingDirection self deltaT deltaD =
        if deltaD >? 0 then StateMachine.Backward else StateMachine.Forward)
  /\ (deltaD > distanceThreshold -> deltaT <= timeThreshold ->
      StateMachine.GetMovingDirection self deltaT deltaD = StateMachine.Stopped)
  /\ (deltaD = 0 ->
      StateMachine.GetMovingDirection self deltaT deltaD = StateMachine.Stopped).
Proof.
  intros Hd Hthr.
  rewrite (GetMovingDirection_formula deltaT deltaD Hd).
  unfold is_uint32 in Hthr.
  destruct (Z.gtb_spec deltaT timeThreshold) as [HT|HT];
    destruct (Z.gtb_spec (Z.abs deltaD) distanceThreshold) as [HD|HD];
    cbn [andb]; repeat split; intros; try reflexivity; try lia.
Qed.

End MotionClassification.

Lemma C1_witness :
  StateMachine.GetMovingDirection
    (Fixture.machine Fixture.sensor StateMachine.Idle 1000 0) 600 (-80)
  = StateMachine.Forward
  /\ StateMachine.GetMovingDirection
       (Fixture.machine Fixture.sensor StateMachine.Idle 1000 0) 400 80
     = StateMachine.Stopped.
Proof.
  split.
  - apply (C1_motion_direction
             (Fixture.machine Fixture.sensor StateMachine.Idle 1000 0) 600 (-80));
      cbn; solve_range.
  - destruct (C1_motion_direction
                (Fixture.machine Fixture.sensor StateMachine.Idle 1000 0) 400 80)
      as (_ & _ & Hguard & _); [cbn; solve_range .. |].
    apply Hguard; cbn; lia.
Defined.

(** ** Tier selection *)

Section TierSelection.

Context {S L : Type} `{ITrafficLight L}.
Variable self : StateMachine.t S L.

Let near := StateMachine._nearThresholdMm self.
Let far := StateMachine._farThresholdMm self.
Let maxCutoff := StateMachine._maxDistanceThresholdMm self.

(** C2.  With [near < far < maxCutoff], [SetTrafficLights] issues: off for
    [d > maxCutoff]; green (far tier) for [far < d <= maxCutoff]; yellow
    (near-medium tier) for [near < d <= far]; red (nearest tier) for
    [d <= near].  With 100, 300 and 2000 mm, 50 mm selects red and
    2500 mm selects off. *)
Theorem C2_tier_selection (d : Z) :
  near < far < maxCutoff ->
  (d > maxCutoff ->
     StateMachine.SetTrafficLights d self = IssueTier AllOff self)
  /\ (far < d <= maxCutoff ->
      StateMachine.SetTrafficLights d self = IssueTier (Tier GreenLight) self)
  /\ (near < d <= far ->
      StateMachine.SetTrafficLights d self = IssueTier (Tier YellowLight) self)
  /\ (d <= near ->
      StateMachine.SetTrafficLights d self = IssueTier (Tier RedLight) self)
  /\ (near = 100 -> far = 300 -> maxCutoff = 2000 ->
      StateMachine.SetTrafficLights 50 self = IssueTier (Tier RedLight) self
      /\ StateMachine.SetTrafficLights 2500 self = IssueTier AllOff self).
Proof.
  intros Horder.
  assert (Hgen : forall x,
    StateMachine.SetTrafficLights x self =
    IssueTier (if x >? maxCutoff then AllOff
               else if x >? far then Tier GreenLight
               else if x >? near then Tier YellowLight
               else Tier RedLight) self).
  { intros x. unfold StateMachine.SetTrafficLights, IssueTier.
    subst near far maxCutoff.
    destruct (StateMachine._trafficLight self); [|reflexivity].
    destruct (x >? _); [reflexivity|].
    destruct (x >? _); [reflexivity|].
    destruct (x >? _); reflexivity. }
  repeat split; intros; rewrite Hgen.
  - destruct (Z.gtb_spec d maxCutoff); [reflexivity | lia].
  - destruct (Z.gtb_spec d maxCutoff); [lia|].
    destruct (Z.gtb_spec d far); [reflexivity | lia].
  - destruct (Z.gtb_spec d maxCutoff); [lia|].
    destruct (Z.gtb_spec d far); [lia|].
    destruct (Z.gtb_spec d near); [reflexivity | lia].
  - destruct (Z.gtb_spec d maxCutoff); [lia|].
    destruct (Z.gtb_spec d far); [lia|].
    destruct (Z.gtb_spec d near); [lia | reflexivity].
  - destruct (Z.gtb_spec 50 maxCutoff); [lia|].
    destruct (Z.gtb_spec 50 far); [lia|].
    destruct (Z.gtb_spec 50 near); [lia | reflexivity].
  - destruct (Z.gtb_spec 2500 maxCutoff); [reflexivity | lia].
Qed.

End TierSelection.

(** At 50 mm the mock indicator ends with red on, yellow and green off. *)
Lemma C2_witness :
  StateMachine.SetTrafficLights 50
    (Fixture.machine Fixture.sensor StateMachine.SubjectApproaching 80 0)
    (Fixture.board [])
  = Done (StateMachine.set_trafficLight
            (Fixture.machine Fixture.sensor StateMachine.SubjectApproaching 80 0)
            (MockTrafficLight.mk true "lights" On Off Off))
         (Fixture.board []).
Proof.
  destruct (C2_tier_selection
              (Fixture.machine Fixture.sensor StateMachine.SubjectApproaching 80 0)
              50 ltac:(cbn; lia)) as (_ & _ & _ & Hred & _).
  rewrite (Hred ltac:(cbn; lia)). reflexivity.
Defined.

(** ** The distance delta *)

Lemma DeltaD_decreasing (distance previousDistance : Z) :
  is_uint32 distance -> is_uint32 previousDistance ->
  previousDistance >= distance ->
  StateMachine.DeltaD distance previousDistance =
    cast_int32 (- cast_int32 (previousDistance - distance)).
Proof.
  unfold is_uint32, UINT32_MAX. intros Hd Hp Hge.
  unfold StateMachine.DeltaD.
  destruct (Z.gtb_spec distance previousDistance); [lia|].
  rewrite wrap_uint32_small by (unfold is_uint32, UINT32_MAX; lia).
  f_equal. lia.
Qed.

Lemma DeltaD_increasing (distance previousDistance : Z) :
  is_uint32 distance -> is_uint32 previousDistance ->
  distance > previousDistance ->
  StateMachine.DeltaD distance previousDistance =
    cast_int32 (distance - previousDistance).
Proof.
  unfold is_uint32, UINT32_MAX. intros Hd Hp Hgt.
  unfold StateMachine.DeltaD.
  destruct (Z.gtb_spec distance previousDistance); [|lia].
  rewrite wrap_uint32_small by (unfold is_uint32, UINT32_MAX; lia).
  reflexivity.
Qed.

(** Against the marker the delta is [distance + 1] read as an [int32_t]. *)
Lemma DeltaD_from_marker (distance : Z) :
  is_uint32 distance ->
  StateMachine.DeltaD distance UINT32_MAX = cast_int32 (distance + 1).
Proof.
  intros Hd.
  rewrite DeltaD_decreasing;
    [| assumption | unfold is_uint32, UINT32_MAX; lia
     | unfold is_uint32, UINT32_MAX in *; lia ].
  unfold is_uint32, UINT32_MAX in *.
  destruct (Z_lt_le_dec distance 2147483648) as [Hlow|Hhigh].
  - rewrite (cast_int32_high (4294967295 - distance))
      by (unfold UINT32_MAX; lia).
    f_equal. lia.
  - rewrite (cast_int32_small (4294967295 - distance))
      by (unfold is_int32; lia).
    unfold cast_int32.
    replace (- (4294967295 - distance) + 2147483648)
      with ((distance + 1 + 2147483648) + (-1) * 4294967296) by lia.
    rewrite Z.mod_add by lia. reflexivity.
Qed.

Section DeltaWraparound.

Context {S L : Type}.
Variable self : StateMachine.t S L.

(** C9 (amended).  [deltaD] is computed with 32-bit casts: for
    [p > d] (and [p - d] other than [2^31]) it is
    [-((int32_t)(p - d))].  Against the marker [p = UINT32_MAX] it is
    [d + 1] read as an [int32_t]: equal to [d + 1], positive, for
    [d <= 2^31 - 2], where the appearing target is classified Retreating
    ([Backward]) once both thresholds are exceeded; and equal to
    [d + 1 - 2^32], negative, for [d >= 2^31]. *)
Theorem C9_delta_wraparound (d p : Z) :
  is_uint32 d -> is_uint32 p ->
  (p > d -> p - d <> 2147483648 ->
     StateMachine.DeltaD d p = - cast_int32 (p - d))
  /\ StateMachine.DeltaD d UINT32_MAX = cast_int32 (d + 1)
  /\ (d <= 2147483646 ->
      StateMachine.DeltaD d UINT32_MAX = d + 1
      /\ StateMachine.DeltaD d UINT32_MAX > 0
      /\ forall deltaT,
           deltaT > StateMachine._movingTimeThresholdMs self ->
           d + 1 > StateMachine._movingDistanceDetectionThresholdMm self ->
           StateMachine.GetMovingDirection self deltaT
             (StateMachine.DeltaD d UINT32_MAX) = StateMachine.Backward)
  /\ (2147483648 <= d ->
      StateMachine.DeltaD d UINT32_MAX = d + 1 - 4294967296
      /\ StateMachine.DeltaD d UINT32_MAX <= 0).
Proof.
  intros Hd Hp.
  assert (Hd' := Hd). assert (Hp' := Hp).
  unfold is_uint32, UINT32_MAX in Hd', Hp'.
  split; [|split; [|split]].
  - intros Hgt Hne.
    rewrite DeltaD_decreasing by (assumption || lia).
    apply cast_int32_small.
    pose proof (cast_int32_range (p - d)) as Hr. unfold is_int32 in *.
    assert (cast_int32 (p - d) <> -2147483648); [|lia].
    destruct (Z_lt_le_dec (p - d) 2147483648).
    + rewrite cast_int32_small by (unfold is_int32; lia). lia.
    + rewrite cast_int32_high by (unfold UINT32_MAX; lia). lia.
  - apply DeltaD_from_marker; assumption.
  - intros Hlow. rewrite DeltaD_from_marker by assumption.
    rewrite cast_int32_small by (unfold is_int32; lia).
    split; [reflexivity|]. split; [lia|].
    intros deltaT HT HD.
    rewrite GetMovingDirection_formula by (unfold is_int32; lia).
    destruct (Z.gtb_spec deltaT (StateMachine._movingTimeThresholdMs self)); [|lia].
    destruct (Z.gtb_spec (Z.abs (d + 1))
                (StateMachine._movingDistanceDetectionThresholdMm self)); [|lia].
    destruct (Z.gtb_spec (d + 1) 0); [reflexivity | lia].
  - intros Hhigh. rewrite DeltaD_from_marker by assumption.
    destruct (Z.eq_dec d 4294967295) as [->|Hne].
    + split; [reflexivity | discriminate].
    + rewrite cast_int32_high by (unfold UINT32_MAX; lia).
      split; lia.
Qed.

End DeltaWraparound.

(** C9, as stated, at a reading of 3 000 000 000 mm: the delta against the
    marker is negative, not [d + 1]. *)
Lemma C9_counterexample :
  ~ (StateMachine.DeltaD 3000000000 UINT32_MAX = 3000000000 + 1
     /\ StateMachine.DeltaD 3000000000 UINT32_MAX > 0).
Proof.
  intros [Heq _]. vm_compute in Heq. discriminate Heq.
Qed.

Lemma C9_witness :
  StateMachine.DeltaD 1200 UINT32_MAX = 1201
  /\ StateMachine.GetMovingDirection
       (Fixture.machine Fixture.sensor StateMachine.Idle UINT32_MAX 0) 600
       (StateMachine.DeltaD 1200 UINT32_MAX) = StateMachine.Backward.
Proof.
  assert (Hd : is_uint32 1200) by (unfold is_uint32, UINT32_MAX; lia).
  assert (Hp : is_uint32 UINT32_MAX) by (unfold is_uint32, UINT32_MAX; lia).
  destruct (C9_delta_wraparound
              (Fixture.machine Fixture.sensor StateMachine.Idle UINT32_MAX 0)
              1200 UINT32_MAX Hd Hp) as (_ & _ & Hlow & _).
  destruct (Hlow ltac:(lia)) as (Heq & _ & Hdir).
  split; [exact Heq|].
  apply Hdir; cbn; lia.
Defined.

(** ** Configuration of the state machine *)

Section Configuration.

Context {S L : Type}.


End Configuration.



(** ** The ranging driver before configuration *)

(** C8.  A driver that is not configured -- fresh from its constructor,
    after [Deinit], or after an [Init] that failed -- answers
    [RESULT_NOT_READY] to both [MeasureDistance] overloads, and the board
    is untouched: no trigger pulse is written, no echo or clock is read. *)
Theorem C8_not_ready_before_init
    (self : DistanceSensor.t) (ambientTemperature distance : Z) (b : Board) :
  Unconfigured self ->
  DistanceSensor.MeasureDistanceAt ambientTemperature self distance b
    = Done (RESULT_NOT_READY, distance, self) b
  /\ DistanceSensor.MeasureDistance self distance b
     = Done (RESULT_NOT_READY, distance, self) b.
Proof.
  intros Hun.
  assert (Hflag : DistanceSensor.IsInitialized self = false).
  { induction Hun as [a c d p q | s0 b0 s1 b1 Hrun
                      | s0 cfg b0 r s1 b1 Hprev IH Hrun Hfail].
    - reflexivity.
    - unfold DistanceSensor.Deinit, bind, pinMode, emit, ret in Hrun.
      injection Hrun as <- _. reflexivity.
    - unfold DistanceSensor.Init in Hrun. rewrite IH in Hrun.
      destruct (DistanceSensor.name cfg).
      + unfold bind, pinMode, emit, ret in Hrun.
        injection Hrun as <- _ _. congruence.
      + unfold ret in Hrun. injection Hrun as _ <- _. exact IH. }
  unfold DistanceSensor.MeasureDistance, DistanceSensor.MeasureDistanceAt.
  rewrite Hflag. split; reflexivity.
Qed.

Lemma C8_witness :
  DistanceSensor.MeasureDistanceAt 200 HCSR04.new 0 (Fixture.board [0; 1; 30])
    = Done (RESULT_NOT_READY, 0, HCSR04.new) (Fixture.board [0; 1; 30])
  /\ DistanceSensor.MeasureDistance HCSR04.new 0 (Fixture.board [0; 1; 30])
     = Done (RESULT_NOT_READY, 0, HCSR04.new) (Fixture.board [0; 1; 30]).
Proof.
  apply (C8_not_ready_before_init HCSR04.new 200 0 (Fixture.board [0; 1; 30])).
  apply Unconfigured_fresh.
Defined.

(** ** One update cycle *)

Section UpdateCycle.

Context {S L : Type} `{IDistanceSensor S} `{ITrafficLight L}.

(** What [MeasureDistance] makes of the sensor's answer. *)
Lemma MeasureDistance_answer (self : StateMachine.t S L) (s : S) (b : Board)
    (result : Result) (d : Z) (s' : S) (b1 : Board) :
  StateMachine._distanceSensor self = Some s ->
  sensor_MeasureDistance s 0 b = Done (result, d, s') b1 ->
  StateMachine.MeasureDistance self b =
    (x <- StateMachine.HandleResult result d ;;
     ret (x, StateMachine.set_distanceSensor self s')) b1.
Proof.
  intros Hs Hrun. unfold StateMachine.MeasureDistance.
  rewrite Hs. unfold bind at 1. rewrite Hrun. reflexivity.
Qed.

(** [MeasureDistance] changes nothing of the machine but the sensor object. *)
Lemma MeasureDistance_frame (self : StateMachine.t S L) (b : Board)
    (distance : Z) (self1 : StateMachine.t S L) (b1 : Board) :
  StateMachine.MeasureDistance self b = Done (distance, self1) b1 ->
  exists s', self1 = StateMachine.set_distanceSensor self s'.
Proof.
  unfold StateMachine.MeasureDistance.
  destruct (StateMachine._distanceSensor self) as [s|]; [|discriminate].
  unfold bind at 1.
  destruct (sensor_MeasureDistance s 0 b) as [[[r d] s'] b0|]; [|discriminate].
  unfold bind.
  destruct (StateMachine.HandleResult r d b0) as [x b2|]; [|discriminate].
  unfold ret. intros Heq. injection Heq as _ <- _. exists s'. reflexivity.
Qed.

(** [Update], once its three readings are in. *)
Lemma Update_after_readings (self : StateMachine.t S L) (b : Board)
    (distance : Z) (self1 : StateMachine.t S L) (b1 : Board)
    (time now : Z) (rest : list Z) :
  StateMachine._initDone self = true ->
  StateMachine.MeasureDistance self b = Done (distance, self1) b1 ->
  feed b1 = time :: now :: rest ->
  StateMachine.Update self b =
    StateMachine.Advance distance (wrap_uint32 time) (wrap_uint32 now) self1
      (mkBoard rest (wire b1)).
Proof.
  intros Hinit Hmeasure Hfeed. unfold StateMachine.Update.
  rewrite Hinit. unfold assert, bind at 1, ret at 1.
  unfold bind at 1. rewrite Hmeasure.
  unfold millis, input, bind. rewrite Hfeed. reflexivity.
Qed.

Lemma Update_measure_halts (self : StateMachine.t S L) (b : Board)
    (why : Stop) (b1 : Board) :
  StateMachine._initDone self = true ->
  StateMachine.MeasureDistance self b = Halted why b1 ->
  StateMachine.Update self b = Halted why b1.
Proof.
  intros Hinit Hmeasure. unfold StateMachine.Update.
  rewrite Hinit. unfold assert, bind at 1, ret at 1.
  unfold bind at 1. rewrite Hmeasure. reflexivity.
Qed.

(** C4 (amended).  When the sensor answers [RESULT_TIMEOUT], the state
    machine's [MeasureDistance] completes with the number [UINT32_MAX]
    in place of the sample -- no assertion, no reset -- and [Update]
    goes on with that number as the distance of the cycle, exactly as
    after a successful reading of [UINT32_MAX] mm. *)
Theorem C4_timeout_absorbed (self : StateMachine.t S L) (s : S) (b : Board)
    (d : Z) (s' : S) (b1 : Board) :
  StateMachine._distanceSensor self = Some s ->
  sensor_MeasureDistance s 0 b = Done (RESULT_TIMEOUT, d, s') b1 ->
  StateMachine.MeasureDistance self b
    = Done (UINT32_MAX, StateMachine.set_distanceSensor self s') b1
  /\ (forall time now rest,
        StateMachine._initDone self = true ->
        feed b1 = time :: now :: rest ->
        StateMachine.Update self b =
          StateMachine.Advance UINT32_MAX (wrap_uint32 time) (wrap_uint32 now)
            (StateMachine.set_distanceSensor self s') (mkBoard rest (wire b1)))
  /\ StateMachine.HandleResult RESULT_TIMEOUT d
     = StateMachine.HandleResult RESULT_OK UINT32_MAX.
Proof.
  intros Hs Hrun.
  assert (Hm : StateMachine.MeasureDistance self b
               = Done (UINT32_MAX, StateMachine.set_distanceSensor self s') b1).
  { rewrite (MeasureDistance_answer self s b _ _ _ _ Hs Hrun). reflexivity. }
  split; [exact Hm|]. split; [|reflexivity].
  intros time now rest Hinit Hfeed.
  exact (Update_after_readings self b _ _ _ time now rest Hinit Hm Hfeed).
Qed.

End UpdateCycle.

(** C4, as stated: the cycle after a timeout is the very cycle after a
    successful reading of 4 294 967 295 mm, so the marker is a numeric
    sentinel and not a separate outcome. *)
Lemma C4_counterexample :
  ~ (forall d, is_uint32 d ->
       StateMachine.Update
         (Fixture.machine [(RESULT_OK, d)] StateMachine.SubjectApproaching 1200 0)
         (Fixture.board [4000; 4000])
       <> StateMachine.Update
            (Fixture.machine [(RESULT_TIMEOUT, 0)] StateMachine.SubjectApproaching 1200 0)
            (Fixture.board [4000; 4000])).
Proof.
  intros Hclaim.
  apply (Hclaim UINT32_MAX); [solve_range | reflexivity].
Qed.

(** The HC-SR04 driver times out when the echo stays low past the
    deadline; the state machine's sample is then [UINT32_MAX]. *)
Lemma C4_witness :
  StateMachine.MeasureDistance
    (Fixture.machine Fixture.sensor StateMachine.SubjectApproaching 1200 0)
    (Fixture.board [0; 0; 30000; 4000; 4000])
  = Done (UINT32_MAX,
          Fixture.machine Fixture.sensor StateMachine.SubjectApproaching 1200 0)
         (mkBoard [4000; 4000]
            [DigitalWriteEv 7 LOW; DelayMicrosecondsEv 2;
             DigitalWriteEv 7 HIGH; DelayMicrosecondsEv 10;
             DigitalWriteEv 7 LOW; DelayMicrosecondsEv 2]).
Proof.
  refine (proj1 (C4_timeout_absorbed
                   (Fixture.machine Fixture.sensor StateMachine.SubjectApproaching 1200 0)
                   Fixture.sensor (Fixture.board [0; 0; 30000; 4000; 4000])
                   0 Fixture.sensor _ eq_refl _)).
  vm_compute. reflexivity.
Defined.

Section StationaryHold.

Context {S L : Type} `{IDistanceSensor S} `{ITrafficLight L}.

Lemma SetTrafficLights_frame (distance : Z) (self self' : StateMachine.t S L)
    (b b' : Board) :
  StateMachine.SetTrafficLights distance self b = Done self' b' ->
  exists light, self' = StateMachine.set_trafficLight self light.
Proof.
  unfold StateMachine.SetTrafficLights.
  destruct (StateMachine._trafficLight self) as [l|]; [|discriminate].
  unfold bind at 1.
  match goal with |- context [match ?c b with _ => _ end] =>
    destruct (c b) as [[r l'] b0|]; [|discriminate] end.
  unfold bind, assert.
  destruct (Result_eqb r RESULT_OK); [|discriminate].
  unfold ret. intros Heq. injection Heq as <- _. exists l'. reflexivity.
Qed.

Lemma SetAllLightsOff_frame (self self' : StateMachine.t S L) (b b' : Board) :
  StateMachine.SetAllLightsOff self b = Done self' b' ->
  exists light, self' = StateMachine.set_trafficLight self light.
Proof.
  unfold StateMachine.SetAllLightsOff.
  destruct (StateMachine._trafficLight self) as [l|]; [|discriminate].
  unfold bind.
  destruct (light_SetAllLightsOff l b) as [[r l'] b0|]; [|discriminate].
  unfold ret. intros Heq. injection Heq as <- _. exists l'. reflexivity.
Qed.

(** The [Stopped] branch of the two tracking states. *)
Lemma Transition_stopped (distance time deltaT : Z) (self : StateMachine.t S L)
    (b : Board) :
  StateMachine._state self = StateMachine.SubjectApproaching
  \/ StateMachine._state self = StateMachine.SubjectRetreating ->
  StateMachine.Transition distance time deltaT StateMachine.Stopped self b =
    (self2 <- StateMachine.SetTrafficLights distance self ;;
     if deltaT >? StateMachine._holdingTimeThresholdMs self
     then self3 <- StateMachine.SetAllLightsOff self2 ;; ret (StateMachine.Idle, self3)
     else ret (StateMachine._state self, self2)) b.
Proof.
  intros Hstate.
  assert (Hbody : forall st,
    (self2 <- StateMachine.SetTrafficLights distance self ;;
     if deltaT >? StateMachine._holdingTimeThresholdMs self2
     then self3 <- StateMachine.SetAllLightsOff self2 ;; ret (StateMachine.Idle, self3)
     else ret (st, self2)) b
    = (self2 <- StateMachine.SetTrafficLights distance self ;;
       if deltaT >? StateMachine._holdingTimeThresholdMs self
       then self3 <- StateMachine.SetAllLightsOff self2 ;; ret (StateMachine.Idle, self3)
       else ret (st, self2)) b).
  { intros st. unfold bind at 1 3.
    destruct (StateMachine.SetTrafficLights distance self b) as [self2 b2|] eqn:Hlit;
      [|reflexivity].
    destruct (SetTrafficLights_frame _ _ _ _ _ Hlit) as [l ->]. reflexivity. }
  unfold StateMachine.Transition.
  destruct Hstate as [-> | ->]; apply Hbody.
Qed.

(** An update of a tracking state whose direction is [Stopped]. *)
Lemma Update_stopped (self : StateMachine.t S L) (b : Board)
    (distance : Z) (self1 : StateMachine.t S L) (b1 : Board)
    (time now : Z) (rest : list Z) :
  StateMachine._initDone self = true ->
  StateMachine.MeasureDistance self b = Done (distance, self1) b1 ->
  feed b1 = time :: now :: rest ->
  StateMachine._state self = StateMachine.SubjectApproaching
  \/ StateMachine._state self = StateMachine.SubjectRetreating ->
  let deltaT := wrap_uint32 (wrap_uint32 now - StateMachine._previousTime self) in
  StateMachine.GetMovingDirection self deltaT
    (StateMachine.DeltaD distance (StateMachine._previousDistance self))
    = StateMachine.Stopped ->
  StateMachine.Update self b =
    (self2 <- StateMachine.SetTrafficLights distance
                (StateMachine.set_previousDistance self1 distance) ;;
     if deltaT >? StateMachine._holdingTimeThresholdMs self
     then self3 <- StateMachine.SetAllLightsOff self2 ;;
          ret (StateMachine.set_state self3 StateMachine.Idle)
     else ret (StateMachine.set_state self2 (StateMachine._state self)))
      (mkBoard rest (wire b1)).
Proof.
  intros Hinit Hmeasure Hfeed Hstate deltaT Hdir.
  set (b2 := mkBoard rest (wire b1)).
  destruct (MeasureDistance_frame _ _ _ _ _ Hmeasure) as [s' ->].
  rewrite (Update_after_readings _ _ _ _ _ _ _ _ Hinit Hmeasure Hfeed).
  fold b2. unfold StateMachine.Advance.
  change (StateMachine._previousTime (StateMachine.set_distanceSensor self s'))
    with (StateMachine._previousTime self).
  change (StateMachine._previousDistance (StateMachine.set_distanceSensor self s'))
    with (StateMachine._previousDistance self).
  fold deltaT.
  change (StateMachine.GetMovingDirection (StateMachine.set_distanceSensor self s'))
    with (StateMachine.GetMovingDirection self).
  rewrite Hdir.
  unfold bind at 1.
  rewrite (Transition_stopped distance (wrap_uint32 time) deltaT
             (StateMachine.set_previousDistance
                (StateMachine.set_distanceSensor self s') distance) b2 Hstate).
  change (StateMachine._holdingTimeThresholdMs
            (StateMachine.set_previousDistance
               (StateMachine.set_distanceSensor self s') distance))
    with (StateMachine._holdingTimeThresholdMs self).
  change (StateMachine._state
            (StateMachine.set_previousDistance
               (StateMachine.set_distanceSensor self s') distance))
    with (StateMachine._state self).
  unfold bind, ret.
  destruct (StateMachine.SetTrafficLights distance _ b2) as [self2 b3|];
    [|reflexivity].
  destruct (deltaT >? StateMachine._holdingTimeThresholdMs self); [|reflexivity].
  destruct (StateMachine.SetAllLightsOff self2 b3); reflexivity.
Qed.

(** C6.  An update in [SubjectApproaching] or [SubjectRetreating] whose
    direction is [Stopped] first drives the tier of the current
    distance; then, if the time since the motion timer was reset
    exceeds [holdingTimeThresholdMs], it turns the indicator off and the
    next state is [Idle]; otherwise the state is unchanged.  Turning the
    indicator off is the command [SetAllLightsOff] of [ITrafficLight],
    sent to the indicator as the tier command left it, and the machine
    ends with the indicator as that command returned it, whatever its
    result; within the holding time nothing is sent after the tier
    command. *)
Theorem C6_stationary_hold (self : StateMachine.t S L) (b : Board)
    (distance : Z) (self1 : StateMachine.t S L) (b1 : Board)
    (time now : Z) (rest : list Z) :
  StateMachine._initDone self = true ->
  StateMachine.MeasureDistance self b = Done (distance, self1) b1 ->
  feed b1 = time :: now :: rest ->
  StateMachine._state self = StateMachine.SubjectApproaching
  \/ StateMachine._state self = StateMachine.SubjectRetreating ->
  let deltaT := wrap_uint32 (wrap_uint32 now - StateMachine._previousTime self) in
  StateMachine.GetMovingDirection self deltaT
    (StateMachine.DeltaD distance (StateMachine._previousDistance self))
    = StateMachine.Stopped ->
  let tracked := StateMachine.set_previousDistance self1 distance in
  let b2 := mkBoard rest (wire b1) in
  (deltaT > StateMachine._holdingTimeThresholdMs self ->
     StateMachine.Update self b =
       (self2 <- StateMachine.SetTrafficLights distance tracked ;;
        self3 <- StateMachine.SetAllLightsOff self2 ;;
        ret (StateMachine.set_state self3 StateMachine.Idle)) b2
     /\ (forall self' b',
          StateMachine.Update self b = Done self' b' ->
          StateMachine._state self' = StateMachine.Idle)
     /\ (forall self2 b3 light1 result light2 b4,
          StateMachine.SetTrafficLights distance tracked b2 = Done self2 b3 ->
          StateMachine._trafficLight self2 = Some light1 ->
          light_SetAllLightsOff light1 b3 = Done (result, light2) b4 ->
          exists self',
            StateMachine.Update self b = Done self' b4
            /\ StateMachine._state self' = StateMachine.Idle
            /\ StateMachine._trafficLight self' = Some light2))
  /\ (deltaT <= StateMachine._holdingTimeThresholdMs self ->
      StateMachine.Update self b =
        (self2 <- StateMachine.SetTrafficLights distance tracked ;;
         ret (StateMachine.set_state self2 (StateMachine._state self))) b2
      /\ (forall self' b',
           StateMachine.Update self b = Done self' b' ->
           StateMachine._state self' = StateMachine._state self)
      /\ (forall self2 b3,
           StateMachine.SetTrafficLights distance tracked b2 = Done self2 b3 ->
           exists self',
             StateMachine.Update self b = Done self' b3
             /\ StateMachine._state self' = StateMachine._state self
             /\ StateMachine._trafficLight self'
                = StateMachine._trafficLight self2)).
Proof.
  intros Hinit Hmeasure Hfeed Hstate deltaT Hdir tracked b2.
  pose proof (Update_stopped self b distance self1 b1 time now rest
                Hinit Hmeasure Hfeed Hstate Hdir) as Hupd.
  fold deltaT tracked b2 in Hupd.
  rewrite Hupd. clear Hupd. unfold bind, ret.
  split; intros Hcmp.
  - destruct (Z.gtb_spec deltaT (StateMachine._holdingTimeThresholdMs self)); [|lia].
    split; [reflexivity|]. split.
    + destruct (StateMachine.SetTrafficLights distance tracked b2) as [self2 b3|];
        [|discriminate].
      destruct (StateMachine.SetAllLightsOff self2 b3) as [self3 b4|]; [|discriminate].
      intros self' b' Hdone. injection Hdone as <- _. reflexivity.
    + intros self2 b3 light1 result light2 b4 Hlit Hlight Hoff.
      rewrite Hlit. unfold StateMachine.SetAllLightsOff.
      rewrite Hlight. unfold bind. rewrite Hoff. unfold ret.
      eexists. split; [reflexivity|]. split; reflexivity.
  - destruct (Z.gtb_spec deltaT (StateMachine._holdingTimeThresholdMs self)); [lia|].
    split; [reflexivity|]. split.
    + destruct (StateMachine.SetTrafficLights distance tracked b2) as [self2 b3|];
        [|discriminate].
      intros self' b' Hdone. injection Hdone as <- _. reflexivity.
    + intros self2 b3 Hlit. rewrite Hlit.
      eexists. split; [reflexivity|]. split; reflexivity.
Qed.

End StationaryHold.

(** With the mock indicator the outcome can be read off its lights: after
    the stationary hold every light is off and the machine is [Idle]. *)
Lemma StationaryHold_on_mock {S : Type} `{IDistanceSensor S}
    (self : StateMachine.t S MockTrafficLight.t) (b : Board)
    (distance : Z) (self1 : StateMachine.t S MockTrafficLight.t) (b1 : Board)
    (time now : Z) (rest : list Z) (light : MockTrafficLight.t) :
  StateMachine._initDone self = true ->
  StateMachine.MeasureDistance self b = Done (distance, self1) b1 ->
  feed b1 = time :: now :: rest ->
  StateMachine._state self = StateMachine.SubjectApproaching
  \/ StateMachine._state self = StateMachine.SubjectRetreating ->
  let deltaT := wrap_uint32 (wrap_uint32 now - StateMachine._previousTime self) in
  StateMachine.GetMovingDirection self deltaT
    (StateMachine.DeltaD distance (StateMachine._previousDistance self))
    = StateMachine.Stopped ->
  StateMachine._trafficLight self = Some light ->
  MockTrafficLight.IsInitialized light = true ->
  deltaT > StateMachine._holdingTimeThresholdMs self ->
  StateMachine.Update self b =
    Done (StateMachine.set_state
            (StateMachine.set_trafficLight
               (StateMachine.set_previousDistance self1 distance)
               (MockTrafficLight.mk true (MockTrafficLight._name light) Off Off Off))
            StateMachine.Idle)
         (mkBoard rest (wire b1)).
Proof.
  intros Hinit Hmeasure Hfeed Hstate deltaT Hdir Hlight Hon Hhold.
  rewrite (Update_stopped self b distance self1 b1 time now rest
             Hinit Hmeasure Hfeed Hstate Hdir).
  fold deltaT.
  destruct (Z.gtb_spec deltaT (StateMachine._holdingTimeThresholdMs self)); [|lia].
  destruct (MeasureDistance_frame _ _ _ _ _ Hmeasure) as [s' ->].
  unfold StateMachine.SetTrafficLights, StateMachine.SetAllLightsOff.
  cbn [StateMachine._trafficLight StateMachine.set_previousDistance
       StateMachine.set_distanceSensor StateMachine.set_trafficLight].
  rewrite Hlight.
  cbn [light_SetAllLightsOff light_TurnOn MockTrafficLight_ITrafficLight].
  unfold MockTrafficLight.TurnOn, MockTrafficLight.SetState,
    MockTrafficLight.SetAllLightsOff.
  unfold MockTrafficLight.IsInitialized in *. rewrite Hon.
  destruct light as [initDone name r y g]. cbn in Hon. subst initDone.
  cbn [negb orb MockTrafficLight._initDone MockTrafficLight._name].
  destruct (distance >? _); [reflexivity|].
  destruct (distance >? _); [reflexivity|].
  destruct (distance >? _); reflexivity.
Qed.

(** Approaching, target still at 1000 mm, 5000 ms after the motion timer
    was reset, holding threshold 3000 ms: green is driven, then every light
    is turned off and the machine is [Idle]. *)
Lemma C6_witness :
  StateMachine.Update
    (Fixture.machine [(RESULT_OK, 1000)] StateMachine.SubjectApproaching 1000 0)
    (Fixture.board [5000; 5000])
  = Done (StateMachine.mk true StateMachine.Idle StateMachine.SubjectApproaching
            (Some []) (Some (MockTrafficLight.mk true "lights" Off Off Off))
            1000 0 2000 300 100 50 500 3000)
         (Fixture.board []).
Proof.
  assert (Hmeasure :
    StateMachine.MeasureDistance
      (Fixture.machine [(RESULT_OK, 1000)] StateMachine.SubjectApproaching 1000 0)
      (Fixture.board [5000; 5000])
    = Done (1000, Fixture.machine [] StateMachine.SubjectApproaching 1000 0)
           (Fixture.board [5000; 5000])) by reflexivity.
  pose proof (C6_stationary_hold
                (Fixture.machine [(RESULT_OK, 1000)] StateMachine.SubjectApproaching 1000 0)
                (Fixture.board [5000; 5000]) 1000
                (Fixture.machine [] StateMachine.SubjectApproaching 1000 0)
                (Fixture.board [5000; 5000]) 5000 5000 []) as Hthm.
  destruct (Hthm eq_refl Hmeasure eq_refl (or_introl eq_refl) eq_refl) as [Hhold _].
  destruct (Hhold ltac:(vm_compute; reflexivity)) as [Hrun _].
  rewrite Hrun. reflexivity.
Defined.

(** ** The fault state *)

Section FaultState.

Context {S L : Type} `{IDistanceSensor S} `{ITrafficLight L}.

(** With a sample in hand, an update in [Error] ends at the assertion of
    the [Error] case. *)
Lemma Update_fault_assertion (self : StateMachine.t S L) (b : Board) :
  StateMachine._state self = StateMachine.Error ->
  forall distance self1 b1 time now rest,
    StateMachine._initDone self = true ->
    StateMachine.MeasureDistance self b = Done (distance, self1) b1 ->
    feed b1 = time :: now :: rest ->
    StateMachine.Update self b =
      Halted (AssertFailed "_state != State::Error") (mkBoard rest (wire b1)).
Proof.
  intros Hstate distance self1 b1 time now rest Hinit Hmeasure Hfeed.
  rewrite (Update_after_readings _ _ _ _ _ _ _ _ Hinit Hmeasure Hfeed).
  destruct (MeasureDistance_frame _ _ _ _ _ Hmeasure) as [s' ->].
  unfold StateMachine.Advance, StateMachine.Transition.
  cbn [StateMachine._state StateMachine.set_previousDistance
       StateMachine.set_distanceSensor].
  rewrite Hstate. reflexivity.
Qed.

(** C7 (amended).  In [Error] no update completes, so no update leaves
    the state.  How the run ends depends on the measurement that
    [Update] makes first: with a sample in hand (the sensor answered
    [RESULT_OK] or [RESULT_TIMEOUT]) the assertion [_state != State::Error]
    fails; on [RESULT_DEV_ERR] the board is reset, after a delay of
    1000 ms, before that assertion is reached; on any other answer an
    assertion of [MeasureDistance] fails; an uninitialised machine fails
    the first assertion. *)
Theorem C7_fault_is_terminal (self : StateMachine.t S L) (b : Board) :
  StateMachine._state self = StateMachine.Error ->
  (forall self' b', StateMachine.Update self b <> Done self' b')
  /\ (forall distance self1 b1 time now rest,
        StateMachine._initDone self = true ->
        StateMachine.MeasureDistance self b = Done (distance, self1) b1 ->
        feed b1 = time :: now :: rest ->
        StateMachine.Update self b =
          Halted (AssertFailed "_state != State::Error") (mkBoard rest (wire b1)))
  /\ (forall s d s' b1,
        StateMachine._initDone self = true ->
        StateMachine._distanceSensor self = Some s ->
        sensor_MeasureDistance s 0 b = Done (RESULT_DEV_ERR, d, s') b1 ->
        StateMachine.Update self b =
          Halted BoardReset (mkBoard (feed b1) (wire b1 ++ [DelayEv 1000])))
  /\ (forall s result d s' b1,
        StateMachine._initDone self = true ->
        StateMachine._distanceSensor self = Some s ->
        sensor_MeasureDistance s 0 b = Done (result, d, s') b1 ->
        result <> RESULT_OK -> result <> RESULT_TIMEOUT ->
        result <> RESULT_DEV_ERR ->
        exists expr, StateMachine.Update self b = Halted (AssertFailed expr) b1)
  /\ (StateMachine._initDone self = false ->
      StateMachine.Update self b = Halted (AssertFailed "_initDone == true") b).
Proof.
  intros Hstate.
  pose proof (Update_fault_assertion self b Hstate) as Hsample.
  split; [|split; [exact Hsample|split; [|split]]].
  - intros self' b' Hdone.
    destruct (StateMachine._initDone self) eqn:Hinit.
    + destruct (StateMachine.MeasureDistance self b) as [[distance self1] b1|why b1]
        eqn:Hmeasure.
      * destruct (feed b1) as [|time [|now rest]] eqn:Hfeed.
        -- unfold StateMachine.Update in Hdone. rewrite Hinit in Hdone.
           unfold assert, bind at 1, ret at 1 in Hdone.
           unfold bind at 1 in Hdone. rewrite Hmeasure in Hdone.
           unfold millis, input, bind in Hdone. rewrite Hfeed in Hdone.
           discriminate Hdone.
        -- unfold StateMachine.Update in Hdone. rewrite Hinit in Hdone.
           unfold assert, bind at 1, ret at 1 in Hdone.
           unfold bind at 1 in Hdone. rewrite Hmeasure in Hdone.
           unfold millis, input, bind in Hdone. rewrite Hfeed in Hdone.
           discriminate Hdone.
        -- rewrite (Hsample _ _ _ _ _ _ eq_refl eq_refl Hfeed) in Hdone.
           discriminate Hdone.
      * rewrite (Update_measure_halts _ _ _ _ Hinit Hmeasure) in Hdone.
        discriminate Hdone.
    + unfold StateMachine.Update in Hdone. rewrite Hinit in Hdone.
      discriminate Hdone.
  - intros s d s' b1 Hinit Hs Hrun.
    apply (Update_measure_halts _ _ _ _ Hinit).
    rewrite (MeasureDistance_answer _ _ _ _ _ _ _ Hs Hrun). reflexivity.
  - intros s result d s' b1 Hinit Hs Hrun Hok Htimeout Hdev.
    pose proof (MeasureDistance_answer _ _ _ _ _ _ _ Hs Hrun) as Hm.
    destruct result; try congruence;
      (eexists; apply (Update_measure_halts _ _ _ _ Hinit);
       rewrite Hm; reflexivity).
  - intros Hinit. unfold StateMachine.Update. rewrite Hinit. reflexivity.
Qed.

End FaultState.

(** C7, as stated, for a sensor answering [RESULT_DEV_ERR] while the
    machine is in [Error]: the run ends in the board reset, not in a
    failed assertion. *)
Lemma C7_counterexample :
  ~ (exists expr b',
       StateMachine.Update
         (Fixture.machine [(RESULT_DEV_ERR, 0)] StateMachine.Error 1200 0)
         (Fixture.board [4000; 4000])
       = Halted (AssertFailed expr) b').
Proof.
  intros (expr & b' & Hrun). vm_compute in Hrun. discriminate Hrun.
Qed.

Lemma C7_witness :
  StateMachine.Update
    (Fixture.machine [(RESULT_OK, 1200)] StateMachine.Error 1200 0)
    (Fixture.board [4000; 4000])
  = Halted (AssertFailed "_state != State::Error") (Fixture.board []).
Proof.
  destruct (C7_fault_is_terminal
              (Fixture.machine [(RESULT_OK, 1200)] StateMachine.Error 1200 0)
              (Fixture.board [4000; 4000]) eq_refl)
    as (_ & Hsample & _).
  assert (Hmeasure :
    StateMachine.MeasureDistance
      (Fixture.machine [(RESULT_OK, 1200)] StateMachine.Error 1200 0)
      (Fixture.board [4000; 4000])
    = Done (1200, Fixture.machine [] StateMachine.Error 1200 0)
           (Fixture.board [4000; 4000])) by reflexivity.
  exact (Hsample 1200 (Fixture.machine [] StateMachine.Error 1200 0)
           (Fixture.board [4000; 4000]) 4000 4000 [] eq_refl Hmeasure eq_refl).
Defined.

(** ** The ranging driver on a synthetic echo pulse *)

Lemma GetEchoPinState_reads (self : DistanceSensor.t) (active : bool)
    (inputs : list Z) (w : list Event) :
  DistanceSensor.GetEchoPinState self (mkBoard (echo_level self active :: inputs) w)
  = Done active (mkBoard inputs w).
Proof.
  unfold DistanceSensor.GetEchoPinState, echo_level, digitalRead, input, bind, ret.
  cbn [feed wire].
  destruct (DistanceSensor._echoPolarity self), active; reflexivity.
Qed.

Lemma micros_reads (t : Z) (inputs : list Z) (w : list Event) :
  is_uint32 t ->
  micros (mkBoard (t :: inputs) w) = Done t (mkBoard inputs w).
Proof.
  intros Ht. unfold micros, input, bind, ret. cbn [feed wire].
  rewrite (wrap_uint32_small t Ht). reflexivity.
Qed.

(** One polling loop: as long as the pin reads [waitFor] and the clock stays
    below the deadline the loop goes on; the first other reading ends it,
    with the clock reading taken right after. *)
Lemma PollEcho_until_edge (self : DistanceSensor.t) (waitFor : bool)
    (endTime tEdge : Z) (rest : list Z) (w : list Event) (clock : list Z) :
  before endTime clock -> is_uint32 tEdge ->
  forall (rounds : nat) (time : Z),
    time < endTime -> (List.length clock < rounds)%nat ->
    DistanceSensor.PollEcho rounds self waitFor waitFor time endTime
      (mkBoard (polls self waitFor clock
                ++ [echo_level self (negb waitFor); tEdge] ++ rest) w)
    = Done (negb waitFor, tEdge) (mkBoard rest w).
Proof.
  intros Hclock Hedge.
  induction Hclock as [|t clock [Ht Hlt] Hclock IH]; intros rounds time Htime Hrounds.
  - destruct rounds as [|rounds]; [cbn in Hrounds; lia|].
    cbn [polls flat_map app DistanceSensor.PollEcho].
    rewrite Bool.eqb_reflx.
    destruct (Z.ltb_spec time endTime); [|lia]. cbn [andb].
    unfold bind at 1. rewrite GetEchoPinState_reads.
    unfold bind at 1. rewrite (micros_reads tEdge _ _ Hedge).
    destruct rounds; cbn [DistanceSensor.PollEcho];
      destruct waitFor; reflexivity.
  - destruct rounds as [|rounds]; [cbn in Hrounds; lia|].
    cbn [polls flat_map app DistanceSensor.PollEcho].
    rewrite Bool.eqb_reflx.
    destruct (Z.ltb_spec time endTime); [|lia]. cbn [andb].
    unfold bind at 1. rewrite GetEchoPinState_reads.
    unfold bind at 1. rewrite (micros_reads t _ _ Ht).
    apply IH; [exact Hlt | cbn in Hrounds; lia].
Qed.

(** The bound on the iterations is never what stops a polling loop: any
    bound at least the length of the feed gives the same run. *)
Lemma PollEcho_rounds (self : DistanceSensor.t) (waitFor : bool) (endTime : Z)
    (n : nat) :
  forall (m : nat) (echoPinState : bool) (time : Z) (b : Board),
    (List.length (feed b) <= n)%nat -> (List.length (feed b) <= m)%nat ->
    DistanceSensor.PollEcho n self waitFor echoPinState time endTime b
    = DistanceSensor.PollEcho m self waitFor echoPinState time endTime b.
Proof.
  induction n as [|n IH]; intros m echoPinState time b Hn Hm;
    destruct m as [|m]; cbn [DistanceSensor.PollEcho];
    destruct (Bool.eqb echoPinState waitFor && (time <? endTime));
    try reflexivity;
    unfold DistanceSensor.GetEchoPinState, digitalRead, micros, input, bind, ret,
      halt;
    destruct b as [[|x [|y inputs]] w]; cbn [feed wire List.length] in *;
    try reflexivity; try lia.
  apply IH; cbn [feed]; lia.
Qed.

Lemma polls_length (self : DistanceSensor.t) (active : bool) (clock : list Z) :
  List.length (polls self active clock) = (2 * List.length clock)%nat.
Proof.
  induction clock as [|t clock IH]; [reflexivity|].
  cbn [polls flat_map app List.length]. fold (polls self active clock).
  rewrite IH. lia.
Qed.

(** On a synthetic echo pulse seen within both deadlines, [ReadDistance]
    answers [RESULT_OK] with the distance [Time2Distance] gives for the
    pulse width it observed: the clock after the falling edge minus the
    clock right after the rising edge. *)
Lemma ReadDistance_on_echo_pulse (ambientTemperature : Z) (self : DistanceSensor.t)
    (distance t0 : Z) (lows : list Z) (tRise tStart tRef : Z) (highs : list Z)
    (tFall : Z) (rest : list Z) (w : list Event) :
  let maxWaitDurationUs :=
    DistanceSensor.Distance2Time ambientTemperature
      (DistanceSensor._maxDistanceMm self) in
  is_uint32 t0 -> t0 < wrap_uint32 (t0 + maxWaitDurationUs) ->
  before (wrap_uint32 (t0 + maxWaitDurationUs)) lows ->
  is_uint32 tRise -> is_uint32 tStart -> is_uint32 tRef ->
  tRise < wrap_uint32 (tRef + maxWaitDurationUs) ->
  before (wrap_uint32 (tRef + maxWaitDurationUs)) highs ->
  is_uint32 tFall ->
  DistanceSensor.ReadDistance ambientTemperature self distance
    (mkBoard (echo_pulse self t0 lows tRise tStart tRef highs tFall rest) w)
  = Done (RESULT_OK,
          DistanceSensor.Time2Distance ambientTemperature
            (wrap_uint32 (tFall - tStart)))
         (mkBoard rest w).
Proof.
  intros maxWait Ht0 Hopen Hlows HtRise HtStart HtRef Hopen2 Hhighs HtFall.
  unfold DistanceSensor.ReadDistance, echo_pulse. fold maxWait.
  unfold bind at 1. rewrite (micros_reads t0 _ _ Ht0).
  unfold bind at 1. cbn [feed].
  rewrite (PollEcho_until_edge self false _ tRise _ w lows Hlows HtRise);
    [ | exact Hopen
      | rewrite length_app, polls_length; cbn [List.length app]; lia ].
  cbn [negb app].
  unfold bind at 1. rewrite (micros_reads tStart _ _ HtStart).
  unfold bind at 1. rewrite (micros_reads tRef _ _ HtRef).
  unfold bind at 1. cbn [feed].
  rewrite (PollEcho_until_edge self true _ tFall rest w highs Hhighs HtFall);
    [ | exact Hopen2
      | rewrite length_app, polls_length; cbn [List.length app]; lia ].
  reflexivity.
Qed.

(** *** The answers of the driver

    The driver answers nothing but [RESULT_NOT_READY], [RESULT_TIMEOUT] and
    [RESULT_OK], and it ends a run only by exhausting the feed. *)

Lemma answers_ret {A} (a : A) (P : A -> Prop) : P a -> answers (ret a) P.
Proof. intros Ha b. exact Ha. Qed.

Lemma answers_bind {A B} (c : M A) (k : A -> M B) (P : A -> Prop) (Q : B -> Prop) :
  answers c P -> (forall a, P a -> answers (k a) Q) -> answers (bind c k) Q.
Proof.
  intros Hc Hk b. unfold bind. specialize (Hc b).
  destruct (c b) as [a b'|why b']; [apply (Hk a Hc) | exact Hc].
Qed.

Lemma answers_emit (e : Event) : answers (emit e) (fun _ => True).
Proof. intros b. exact I. Qed.

Lemma answers_input : answers input (fun _ => True).
Proof. intros b. unfold input. destruct (feed b); [reflexivity | exact I]. Qed.

Lemma answers_micros : answers micros (fun _ => True).
Proof.
  unfold micros. apply (answers_bind _ _ _ _ answers_input).
  intros x _. apply answers_ret. exact I.
Qed.

Lemma answers_GetEchoPinState (self : DistanceSensor.t) :
  answers (DistanceSensor.GetEchoPinState self) (fun _ => True).
Proof.
  unfold DistanceSensor.GetEchoPinState, digitalRead.
  apply (answers_bind _ _ (fun _ => True)).
  - apply (answers_bind _ _ _ _ answers_input).
    intros x _. apply answers_ret. exact I.
  - intros level _. apply answers_ret. exact I.
Qed.

Lemma answers_PollEcho (self : DistanceSensor.t) (waitFor : bool) (endTime : Z)
    (rounds : nat) :
  forall (echoPinState : bool) (time : Z),
    answers (DistanceSensor.PollEcho rounds self waitFor echoPinState time endTime)
            (fun _ => True).
Proof.
  induction rounds as [|rounds IH]; intros echoPinState time;
    cbn [DistanceSensor.PollEcho];
    destruct (Bool.eqb echoPinState waitFor && (time <? endTime));
    try (apply answers_ret; exact I).
  - intros b. reflexivity.
  - apply (answers_bind _ _ _ _ (answers_GetEchoPinState self)). intros e _.
    apply (answers_bind _ _ _ _ answers_micros). intros now _.
    apply IH.
Qed.

Lemma answers_ReadDistance (ambientTemperature : Z) (self : DistanceSensor.t)
    (distance : Z) :
  answers (DistanceSensor.ReadDistance ambientTemperature self distance)
          (fun x => fst x = RESULT_TIMEOUT \/ fst x = RESULT_OK).
Proof.
  unfold DistanceSensor.ReadDistance.
  apply (answers_bind _ _ _ _ answers_micros). intros startTime _.
  apply (answers_bind _ _ (fun _ => True)).
  { intros b. apply answers_PollEcho. }
  intros [echoPinState time] _.
  destruct (negb echoPinState); [apply answers_ret; left; reflexivity|].
  apply (answers_bind _ _ _ _ answers_micros). intros echoPulseStartTimeUs _.
  apply (answers_bind _ _ _ _ answers_micros). intros now _.
  apply (answers_bind _ _ (fun _ => True)).
  { intros b. apply answers_PollEcho. }
  intros [echoPinState2 time2] _.
  destruct echoPinState2; apply answers_ret; [left | right]; reflexivity.
Qed.

Lemma answers_MeasureDistanceAt (ambientTemperature : Z) (self : DistanceSensor.t)
    (distance : Z) :
  answers (DistanceSensor.MeasureDistanceAt ambientTemperature self distance)
          (fun x => fst (fst x) = RESULT_NOT_READY
                    \/ fst (fst x) = RESULT_TIMEOUT
                    \/ fst (fst x) = RESULT_OK).
Proof.
  unfold DistanceSensor.MeasureDistanceAt.
  destruct (negb (DistanceSensor.IsInitialized self));
    [apply answers_ret; left; reflexivity|].
  apply (answers_bind _ _ (fun _ => True)).
  { unfold DistanceSensor.TriggerMeasurement, DistanceSensor.SetTriggerPintState,
      digitalWrite, delayMicroseconds.
    repeat (apply (answers_bind _ _ _ _ (answers_emit _)); intros _ _).
    apply answers_emit. }
  intros _ _.
  apply (answers_bind _ _ _ _ (answers_ReadDistance ambientTemperature self 0)).
  intros [result d] Hresult. apply answers_ret. right. exact Hresult.
Qed.

(** The whole measurement on a synthetic echo pulse: the trigger pulse goes
    out on the wire, the feed is consumed up to the falling edge, and the
    answer is the distance of the observed pulse width at the given
    temperature. *)
Lemma MeasureDistanceAt_on_echo_pulse (ambientTemperature : Z)
    (self : DistanceSensor.t) (distance t0 : Z) (lows : list Z)
    (tRise tStart tRef : Z) (highs : list Z) (tFall : Z) (rest : list Z)
    (w : list Event) :
  let maxWaitDurationUs :=
    DistanceSensor.Distance2Time ambientTemperature
      (DistanceSensor._maxDistanceMm self) in
  DistanceSensor.IsInitialized self = true ->
  is_uint32 t0 -> t0 < wrap_uint32 (t0 + maxWaitDurationUs) ->
  before (wrap_uint32 (t0 + maxWaitDurationUs)) lows ->
  is_uint32 tRise -> is_uint32 tStart -> is_uint32 tRef ->
  tRise < wrap_uint32 (tRef + maxWaitDurationUs) ->
  before (wrap_uint32 (tRef + maxWaitDurationUs)) highs ->
  is_uint32 tFall ->
  DistanceSensor.MeasureDistanceAt ambientTemperature self distance
    (mkBoard (echo_pulse self t0 lows tRise tStart tRef highs tFall rest) w)
  = Done (RESULT_OK,
          DistanceSensor.Time2Distance ambientTemperature
            (wrap_uint32 (tFall - tStart)),
          self)
         (mkBoard rest (w ++ trigger_pulse self)).
Proof.
  intros maxWait Hinit Ht0 Hopen Hlows HtRise HtStart HtRef Hopen2 Hhighs HtFall.
  unfold DistanceSensor.MeasureDistanceAt. rewrite Hinit. cbn [negb].
  unfold bind at 1.
  assert (Htrigger : forall b,
    DistanceSensor.TriggerMeasurement self b
    = Done tt (mkBoard (feed b) (wire b ++ trigger_pulse self))).
  { intros b. unfold DistanceSensor.TriggerMeasurement,
      DistanceSensor.SetTriggerPintState, digitalWrite, delayMicroseconds,
      emit, bind, trigger_pulse.
    cbn [feed wire]. repeat rewrite <- app_assoc. cbn [app].
    destruct (DistanceSensor._triggerPolarity self); reflexivity. }
  rewrite Htrigger. cbn [feed wire].
  unfold bind at 1.
  rewrite (ReadDistance_on_echo_pulse ambientTemperature self 0 t0 lows tRise
             tStart tRef highs tFall rest _
             Ht0 Hopen Hlows HtRise HtStart HtRef Hopen2 Hhighs HtFall).
  reflexivity.
Qed.

(** With the ranging driver of this repository as its sensor, the state
    machine never takes the reset path: an update in [Error] ends at a
    failed assertion, unless the synthetic feed runs out first. *)
Lemma Fault_with_ranging_driver {L : Type} `{ITrafficLight L}
    (self : StateMachine.t DistanceSensor.t L) (b : Board) :
  StateMachine._state self = StateMachine.Error ->
  StateMachine._distanceSensor self <> None ->
  match StateMachine.Update self b with
  | Done _ _ => False
  | Halted why _ => why = Stalled \/ exists expr, why = AssertFailed expr
  end.
Proof.
  intros Hstate Hsensor.
  destruct (StateMachine._initDone self) eqn:Hinit.
  - destruct (StateMachine._distanceSensor self) as [s|] eqn:Hs; [|congruence].
    pose proof (answers_MeasureDistanceAt (20 * 10) s 0 b) as Hanswer.
    destruct (DistanceSensor.MeasureDistanceAt (20 * 10) s 0 b)
      as [[[result d] s'] b1|why b1] eqn:Hrun.
    + pose proof (MeasureDistance_answer self s b result d s' b1 Hs Hrun) as Hm.
      cbn [fst] in Hanswer.
      destruct Hanswer as [-> | [-> | ->]].
      * rewrite (Update_measure_halts self b _ b1 Hinit Hm).
        right. eexists. reflexivity.
      * destruct (feed b1) as [|time [|now rest]] eqn:Hfeed.
        -- unfold StateMachine.Update. rewrite Hinit.
           unfold assert, bind at 1, ret at 1. unfold bind at 1. rewrite Hm.
           unfold bind at 1, StateMachine.HandleResult, ret at 1.
           unfold ret at 1. unfold millis, input, bind. rewrite Hfeed.
           left. reflexivity.
        -- unfold StateMachine.Update. rewrite Hinit.
           unfold assert, bind at 1, ret at 1. unfold bind at 1. rewrite Hm.
           unfold bind at 1, StateMachine.HandleResult, ret at 1.
           unfold ret at 1. unfold millis, input, bind. rewrite Hfeed.
           cbn [feed wire]. left. reflexivity.
        -- rewrite (Update_fault_assertion self b Hstate _ _ _ _ _ _ Hinit Hm Hfeed).
           right. eexists. reflexivity.
      * destruct (feed b1) as [|time [|now rest]] eqn:Hfeed.
        -- unfold StateMachine.Update. rewrite Hinit.
           unfold assert, bind at 1, ret at 1. unfold bind at 1. rewrite Hm.
           unfold bind at 1, StateMachine.HandleResult, ret at 1.
           unfold ret at 1. unfold millis, input, bind. rewrite Hfeed.
           left. reflexivity.
        -- unfold StateMachine.Update. rewrite Hinit.
           unfold assert, bind at 1, ret at 1. unfold bind at 1. rewrite Hm.
           unfold bind at 1, StateMachine.HandleResult, ret at 1.
           unfold ret at 1. unfold millis, input, bind. rewrite Hfeed.
           cbn [feed wire]. left. reflexivity.
        -- rewrite (Update_fault_assertion self b Hstate _ _ _ _ _ _ Hinit Hm Hfeed).
           right. eexists. reflexivity.
    + assert (Hm : StateMachine.MeasureDistance self b = Halted why b1).
      { unfold StateMachine.MeasureDistance. rewrite Hs.
        unfold bind at 1. cbn [sensor_MeasureDistance DistanceSensor_IDistanceSensor].
        unfold DistanceSensor.MeasureDistance. rewrite Hrun. reflexivity. }
      rewrite (Update_measure_halts self b _ b1 Hinit Hm).
      left. exact Hanswer.
  - unfold StateMachine.Update. rewrite Hinit.
    right. eexists. reflexivity.
Qed.

(** ** The ambient temperature of the state machine's samples *)

(** C10.  The state machine pulls its sample through the one-argument
    [MeasureDistance], which the driver forwards to the two-argument
    overload with the constant 200 (20.0 degrees Celsius); so the sample it
    gets for an echo pulse is [Time2Distance 200] of the pulse width, and
    nothing in the state machine varies that temperature. *)
Theorem C10_fixed_ambient_temperature {L : Type}
    (self : StateMachine.t DistanceSensor.t L) (sensor : DistanceSensor.t) :
  StateMachine._distanceSensor self = Some sensor ->
  (forall distance b,
     DistanceSensor.MeasureDistance sensor distance b
     = DistanceSensor.MeasureDistanceAt 200 sensor distance b)
  /\ (forall b,
        StateMachine.MeasureDistance self b
        = ('(result, distance, sensor') <-
             DistanceSensor.MeasureDistanceAt 200 sensor 0 ;;
           distance <- StateMachine.HandleResult result distance ;;
           ret (distance, StateMachine.set_distanceSensor self sensor')) b)
  /\ (DistanceSensor.IsInitialized sensor = true ->
      forall t0 lows tRise tStart tRef highs tFall rest w,
        let maxWaitDurationUs :=
          DistanceSensor.Distance2Time 200 (DistanceSensor._maxDistanceMm sensor) in
        is_uint32 t0 -> t0 < wrap_uint32 (t0 + maxWaitDurationUs) ->
        before (wrap_uint32 (t0 + maxWaitDurationUs)) lows ->
        is_uint32 tRise -> is_uint32 tStart -> is_uint32 tRef ->
        tRise < wrap_uint32 (tRef + maxWaitDurationUs) ->
        before (wrap_uint32 (tRef + maxWaitDurationUs)) highs ->
        is_uint32 tFall ->
        StateMachine.MeasureDistance self
          (mkBoard (echo_pulse sensor t0 lows tRise tStart tRef highs tFall rest) w)
        = Done (DistanceSensor.Time2Distance 200 (wrap_uint32 (tFall - tStart)),
                StateMachine.set_distanceSensor self sensor)
               (mkBoard rest (w ++ trigger_pulse sensor))).
Proof.
  intros Hsensor.
  assert (Hvia : forall b,
    StateMachine.MeasureDistance self b
    = ('(result, distance, sensor') <-
         DistanceSensor.MeasureDistanceAt 200 sensor 0 ;;
       distance <- StateMachine.HandleResult result distance ;;
       ret (distance, StateMachine.set_distanceSensor self sensor')) b).
  { intros b. unfold StateMachine.MeasureDistance. rewrite Hsensor. reflexivity. }
  split; [reflexivity|]. split; [exact Hvia|].
  intros Hinit t0 lows tRise tStart tRef highs tFall rest w maxWait
    Ht0 Hopen Hlows HtRise HtStart HtRef Hopen2 Hhighs HtFall.
  rewrite Hvia. unfold bind at 1.
  rewrite (MeasureDistanceAt_on_echo_pulse 200 sensor 0 t0 lows tRise tStart tRef
             highs tFall rest w
             Hinit Ht0 Hopen Hlows HtRise HtStart HtRef Hopen2 Hhighs HtFall).
  reflexivity.
Qed.

Lemma C10_witness :
  StateMachine.MeasureDistance
    (Fixture.machine Fixture.sensor StateMachine.Idle UINT32_MAX 0)
    (Fixture.board
       (echo_pulse Fixture.sensor 100 [110; 120] 130 131 132 [1000; 2000] 5961 [7; 8]))
  = Done (1001, Fixture.machine Fixture.sensor StateMachine.Idle UINT32_MAX 0)
         (mkBoard [7; 8] (trigger_pulse Fixture.sensor)).
Proof.
  destruct (C10_fixed_ambient_temperature
              (Fixture.machine Fixture.sensor StateMachine.Idle UINT32_MAX 0)
              Fixture.sensor eq_refl) as (_ & _ & Hpulse).
  assert (Hbudget :
    DistanceSensor.Distance2Time 200 (DistanceSensor._maxDistanceMm Fixture.sensor)
    = 23296) by (vm_compute; reflexivity).
  unfold Fixture.board.
  rewrite (Hpulse eq_refl 100 [110; 120] 130 131 132 [1000; 2000] 5961 [7; 8] []);
    rewrite ?Hbudget;
    try (unfold before; repeat constructor);
    try (vm_compute; reflexivity);
    try (vm_compute; intros Habs; discriminate Habs).
Defined.

(** ** Time, distance, and the round trip *)

(** The literals are the single-precision numbers nearest to the decimals
    written in the source. *)
Lemma Float32_literals :
  Float32.lit_331_4 = Float32.div (Float32.of_uint32 3314) (Float32.of_uint32 10)
  /\ Float32.lit_0_6 = Float32.div (Float32.of_uint32 6) (Float32.of_uint32 10)
  /\ Float32.lit_10 = Float32.of_uint32 10
  /\ Float32.lit_1000 = Float32.of_uint32 1000
  /\ Float32.lit_2 = Float32.of_uint32 2.
Proof. repeat split; vm_compute; reflexivity. Qed.

Lemma halfSpeed200_eq :
  Float32.div (DistanceSensor.SpeedOfSound 200) Float32.lit_2 = Sweep.halfSpeed200.
Proof. vm_compute. reflexivity. Qed.

Lemma Time2Distance_200 (timeUs : Z) :
  DistanceSensor.Time2Distance 200 timeUs
  = Sweep.Time2DistanceAt Sweep.halfSpeed200 timeUs.
Proof.
  unfold DistanceSensor.Time2Distance, Sweep.Time2DistanceAt.
  rewrite halfSpeed200_eq. reflexivity.
Qed.

Lemma Distance2Time_200 (distanceMm : Z) :
  DistanceSensor.Distance2Time 200 distanceMm
  = Sweep.Distance2TimeAt Sweep.halfSpeed200 distanceMm.
Proof.
  unfold DistanceSensor.Distance2Time, Sweep.Distance2TimeAt.
  rewrite halfSpeed200_eq. reflexivity.
Qed.

(** A sweep that succeeds has checked every width it passed. *)
Lemma sweep_sound (n : nat) :
  forall W dPrev WPrev,
    WPrev = Sweep.Distance2TimeAt Sweep.halfSpeed200 dPrev ->
    Sweep.sweep n W dPrev WPrev = true ->
    forall i, 0 <= i < Z.of_nat n ->
      Sweep.holds (W + i)
        (Sweep.Time2DistanceAt Sweep.halfSpeed200 (W + i))
        (Sweep.Distance2TimeAt Sweep.halfSpeed200
           (Sweep.Time2DistanceAt Sweep.halfSpeed200 (W + i))) = true.
Proof.
  induction n as [|n IH]; intros W dPrev WPrev Hprev Hsweep i Hi; [lia|].
  cbn [Sweep.sweep] in Hsweep.
  apply andb_prop in Hsweep. destruct Hsweep as [Hhere Hnext].
  assert (Hback :
    (if Sweep.Time2DistanceAt Sweep.halfSpeed200 W =? dPrev
     then WPrev
     else Sweep.Distance2TimeAt Sweep.halfSpeed200
            (Sweep.Time2DistanceAt Sweep.halfSpeed200 W))
    = Sweep.Distance2TimeAt Sweep.halfSpeed200
        (Sweep.Time2DistanceAt Sweep.halfSpeed200 W)).
  { destruct (Z.eqb_spec (Sweep.Time2DistanceAt Sweep.halfSpeed200 W) dPrev)
      as [->|_]; [exact Hprev | reflexivity]. }
  rewrite Hback in Hhere, Hnext.
  destruct (Z.eq_dec i 0) as [->|Hpos].
  - rewrite Z.add_0_r. exact Hhere.
  - replace (W + i) with ((W + 1) + (i - 1)) by lia.
    apply (IH (W + 1) _ _ eq_refl Hnext). lia.
Qed.

(** Every pulse width within the echo budget of the HC-SR04 at 20.0
    degrees Celsius, 0 to 23296 microseconds. *)
Lemma sweep_echo_budget :
  Sweep.sweep (Z.to_nat 23297) 0
    (Sweep.Time2DistanceAt Sweep.halfSpeed200 0)
    (Sweep.Distance2TimeAt Sweep.halfSpeed200
       (Sweep.Time2DistanceAt Sweep.halfSpeed200 0)) = true.
Proof. vm_cast_no_check (eq_refl true). Qed.

(** *** Rounding of one operation

    [binary_round_aux] rounds the rational it is given to nearest, so a
    result with a full significand is within [2^-24] of it in relative
    terms; multiplication, division, addition and the conversion of an
    integer are instances. *)

Lemma inloc_bounds (N D m : Z) (l : location) :
  0 < D -> inloc N D m l -> m * D <= N < (m + 1) * D.
Proof.
  intros HD. destruct l as [|[| |]]; cbn [inloc]; nia.
Qed.

Lemma shr_record_of_loc_m (m : Z) (l : location) :
  shr_m (shr_record_of_loc m l) = m
  /\ loc_of_shr_record (shr_record_of_loc m l) = l.
Proof. destruct l as [|[| |]]; split; reflexivity. Qed.

Lemma shr_1_inloc (N D : Z) (rs : shr_record) :
  0 < D -> 0 <= shr_m rs ->
  inloc N D (shr_m rs) (loc_of_shr_record rs) ->
  inloc N (2 * D) (shr_m (shr_1 rs)) (loc_of_shr_record (shr_1 rs))
  /\ 0 <= shr_m (shr_1 rs).
Proof.
  intros HD Hm. destruct rs as [m r s]. cbn [shr_m] in *.
  destruct m as [|p|p]; [| |lia].
  - destruct r, s; cbn [shr_1 loc_of_shr_record inloc shr_m orb]; intros Hloc;
      split; lia.
  - destruct p as [p|p|];
      destruct r, s; cbn [shr_1 loc_of_shr_record inloc shr_m orb];
      try rewrite Pos2Z.inj_xI; try rewrite Pos2Z.inj_xO;
      intros Hloc; split; nia.
Qed.

Lemma iter_shr_1_inloc (p : positive) :
  forall (N D : Z) (rs : shr_record),
    0 < D -> 0 <= shr_m rs ->
    inloc N D (shr_m rs) (loc_of_shr_record rs) ->
    inloc N (2 ^ Zpos p * D) (shr_m (iter_pos shr_1 p rs))
      (loc_of_shr_record (iter_pos shr_1 p rs))
    /\ 0 <= shr_m (iter_pos shr_1 p rs).
Proof.
  induction p as [p IH|p IH|]; intros N D rs HD Hm Hloc; cbn [iter_pos].
  - destruct (shr_1_inloc N D rs HD Hm Hloc) as [H1 Hm1].
    destruct (IH N (2 * D) _ ltac:(lia) Hm1 H1) as [H2 Hm2].
    assert (Hpow : 0 < 2 ^ Zpos p) by (apply Z.pow_pos_nonneg; lia).
    destruct (IH N (2 ^ Zpos p * (2 * D)) _ ltac:(nia) Hm2 H2) as [H3 Hm3].
    split; [|exact Hm3].
    replace (2 ^ Zpos p~1 * D) with (2 ^ Zpos p * (2 ^ Zpos p * (2 * D)));
      [exact H3|].
    replace (Zpos p~1) with (Zpos p + Zpos p + 1) by lia.
    rewrite !Z.pow_add_r by lia. change (2 ^ 1) with 2. ring.
  - destruct (IH N D rs HD Hm Hloc) as [H2 Hm2].
    assert (Hpow : 0 < 2 ^ Zpos p) by (apply Z.pow_pos_nonneg; lia).
    destruct (IH N (2 ^ Zpos p * D) _ ltac:(nia) Hm2 H2) as [H3 Hm3].
    split; [|exact Hm3].
    replace (2 ^ Zpos p~0 * D) with (2 ^ Zpos p * (2 ^ Zpos p * D));
      [exact H3|].
    replace (Zpos p~0) with (Zpos p + Zpos p) by lia.
    rewrite !Z.pow_add_r by lia. ring.
  - change (2 ^ 1) with 2. apply shr_1_inloc; assumption.
Qed.

Lemma round_nearest_even_spec (N D m : Z) (l : location) :
  0 < D -> inloc N D m l ->
  2 * Z.abs (round_nearest_even m l * D - N) <= D
  /\ m <= round_nearest_even m l <= m + 1.
Proof.
  intros HD. destruct l as [|[| |]]; cbn [inloc round_nearest_even];
    try destruct (Z.even m); intros Hloc; split; nia.
Qed.

Lemma digits2_pos_spec (p : positive) :
  2 ^ (Zpos (digits2_pos p) - 1) <= Zpos p < 2 ^ Zpos (digits2_pos p).
Proof.
  induction p as [p IH|p IH|]; cbn [digits2_pos].
  - rewrite Pos2Z.inj_succ.
    replace (Z.succ (Zpos (digits2_pos p)) - 1) with (Zpos (digits2_pos p)) by lia.
    rewrite Z.pow_succ_r by lia.
    assert (Hhalf : 2 ^ Zpos (digits2_pos p) = 2 * 2 ^ (Zpos (digits2_pos p) - 1)).
    { rewrite <- Z.pow_succ_r by lia. f_equal. lia. }
    revert IH Hhalf.
    generalize (2 ^ (Zpos (digits2_pos p) - 1)) (2 ^ Zpos (digits2_pos p)).
    intros A B IH Hhalf. rewrite Pos2Z.inj_xI. lia.
  - rewrite Pos2Z.inj_succ.
    replace (Z.succ (Zpos (digits2_pos p)) - 1) with (Zpos (digits2_pos p)) by lia.
    rewrite Z.pow_succ_r by lia.
    assert (Hhalf : 2 ^ Zpos (digits2_pos p) = 2 * 2 ^ (Zpos (digits2_pos p) - 1)).
    { rewrite <- Z.pow_succ_r by lia. f_equal. lia. }
    revert IH Hhalf.
    generalize (2 ^ (Zpos (digits2_pos p) - 1)) (2 ^ Zpos (digits2_pos p)).
    intros A B IH Hhalf. rewrite Pos2Z.inj_xO. lia.
  - cbn. lia.
Qed.

(** The number of digits of a mantissa known between two powers of two. *)
Lemma digits2_between (p : positive) (a b : Z) :
  0 <= a -> 2 ^ a <= Zpos p < 2 ^ b -> a < Zpos (digits2_pos p) <= b.
Proof.
  intros Ha [Hlo Hhi]. pose proof (digits2_pos_spec p) as [Hd1 Hd2].
  split.
  - apply (Z.pow_lt_mono_r_iff 2); lia.
  - assert (Hlt : Zpos (digits2_pos p) - 1 < b).
    { apply (Z.pow_lt_mono_r_iff 2); [lia | | lia].
      destruct (Z_lt_le_dec b 0) as [Hneg|]; [|lia].
      rewrite (Z.pow_neg_r 2 b) in Hhi by lia. lia. }
    lia.
Qed.

Lemma fexp_normal (e : Z) : -125 <= e -> fexp 24 128 e = e - 24.
Proof. intros He. unfold fexp, emin. lia. Qed.

(** Rounding a mantissa of at least 24 digits, with its location, to
    single precision: the result is a normal number within half a unit in
    the last place, that is within a relative [2^-24]. *)
Lemma binary_round_aux_spec (p : positive) (ex : Z) (lx : location) (N D : Z) :
  0 < D -> inloc N D (Zpos p) lx ->
  2 ^ 23 <= Zpos p -> -149 <= ex -> ex + Zpos (digits2_pos p) <= 127 ->
  exists (m : positive) (k : Z),
    binary_round_aux 24 128 false (Zpos p) ex lx = S754_finite false m (ex + k)
    /\ 2 ^ 23 <= Zpos m < 2 ^ 24
    /\ Zpos (digits2_pos p) - 24 <= k <= Zpos (digits2_pos p) - 23
    /\ 0 <= k
    /\ 2 ^ 24 * Z.abs (Zpos m * 2 ^ k * D - N) <= N.
Proof.
  intros HD Hloc Hbig Hex Hover.
  set (d := Zpos (digits2_pos p)) in *.
  pose proof (digits2_pos_spec p) as [Hd1 Hd2]. fold d in Hd1, Hd2.
  assert (Hd : 23 < d).
  { apply (Z.pow_lt_mono_r_iff 2); lia. }
  pose proof (inloc_bounds _ _ _ _ HD Hloc) as [HN1 HN2].
  set (n := d - 24).
  assert (HP : 0 < 2 ^ n) by (apply Z.pow_pos_nonneg; lia).
  assert (Hpd1 : 2 ^ (d - 1) = 2 ^ 23 * 2 ^ n).
  { rewrite <- Z.pow_add_r by lia. f_equal. lia. }
  assert (Hpd : 2 ^ d = 2 ^ 24 * 2 ^ n).
  { rewrite <- Z.pow_add_r by lia. f_equal. lia. }
  (* the first shift *)
  assert (Hshift : exists rs,
    shr_fexp 24 128 (Zpos p) ex lx = (rs, ex + n)
    /\ inloc N (2 ^ n * D) (shr_m rs) (loc_of_shr_record rs)
    /\ 0 <= shr_m rs).
  { unfold shr_fexp. cbn [Zdigits2]. fold d.
    rewrite fexp_normal by lia.
    replace (d + ex - 24 - ex) with n by lia.
    destruct (shr_record_of_loc_m (Zpos p) lx) as [Hm0 Hl0].
    destruct n as [|pn|pn] eqn:Hn; [| |lia].
    - eexists. split; [cbn [shr]; rewrite Z.add_0_r; reflexivity|].
      rewrite Hm0, Hl0. change (2 ^ 0) with 1. rewrite Z.mul_1_l.
      split; [exact Hloc | lia].
    - eexists. split; [cbn [shr]; reflexivity|].
      apply iter_shr_1_inloc; [exact HD | rewrite Hm0; lia |].
      rewrite Hm0, Hl0. exact Hloc. }
  destruct Hshift as (rs & Hrs & Hloc1 & Hm1).
  assert (HPD : 0 < 2 ^ n * D) by nia.
  pose proof (inloc_bounds _ _ _ _ HPD Hloc1) as [HM1 HM2].
  assert (Hm' : 2 ^ 23 <= shr_m rs < 2 ^ 24) by nia.
  destruct (round_nearest_even_spec _ _ _ _ HPD Hloc1) as [Herr Hm1'].
  set (m1 := round_nearest_even (shr_m rs) (loc_of_shr_record rs)) in *.
  unfold binary_round_aux. rewrite Hrs. fold m1.
  assert (Hfinal : 2 ^ 24 * Z.abs (m1 * 2 ^ n * D - N) <= N).
  { replace (m1 * 2 ^ n * D) with (m1 * (2 ^ n * D)) by ring.
    change (2 ^ 24) with (2 * 2 ^ 23). nia. }
  destruct (Z.eq_dec m1 (2 ^ 24)) as [Hcarry|Hnocarry].
  - (* the rounding carried into a 25th digit *)
    rewrite Hcarry. change (2 ^ 24) with 16777216.
    unfold shr_fexp. cbn [Zdigits2 digits2_pos Pos.succ].
    rewrite fexp_normal by lia.
    replace (25 + (ex + n) - 24 - (ex + n)) with 1 by lia.
    cbn [shr shr_record_of_loc iter_pos shr_1 shr_m].
    destruct (Z.leb_spec (ex + n + 1) (128 - 24)); [|lia].
    exists 8388608%positive, (n + 1).
    split; [f_equal; lia|]. split; [cbn; lia|].
    split; [lia|]. split; [lia|].
    rewrite Z.pow_add_r by lia. change (2 ^ 1) with 2.
    replace (Zpos 8388608 * (2 ^ n * 2) * D) with (2 ^ 24 * 2 ^ n * D)
      by (change (2 ^ 24) with 16777216; ring).
    rewrite <- Hcarry. exact Hfinal.
  - assert (Hm1r : 2 ^ 23 <= m1 < 2 ^ 24) by lia.
    destruct m1 as [|q|q] eqn:Hq; [cbn in Hm1r; lia | | cbn in Hm1r; lia].
    assert (Hdq : Zpos (digits2_pos q) = 24).
    { pose proof (digits2_between q 23 24 ltac:(lia) Hm1r). lia. }
    unfold shr_fexp. cbn [Zdigits2]. rewrite Hdq.
    rewrite fexp_normal by lia.
    replace (24 + (ex + n) - 24 - (ex + n)) with 0 by lia.
    cbn [shr shr_record_of_loc shr_m].
    destruct (Z.leb_spec (ex + n) (128 - 24)); [|lia].
    exists q, n.
    split; [reflexivity|]. split; [exact Hm1r|].
    split; [lia|]. split; [lia|]. exact Hfinal.
Qed.

(** *** Single-precision numbers as rationals *)

Lemma Qpower2_pos (e : Z) : (0 < Qpower 2 e)%Q.
Proof. apply Qpower_0_lt. reflexivity. Qed.

Lemma Qpower2_shift (m ex k : Z) :
  0 <= k ->
  (inject_Z m * Qpower 2 (ex + k) == inject_Z (m * 2 ^ k) * Qpower 2 ex)%Q.
Proof.
  intros Hk. rewrite Qpower_plus by discriminate.
  rewrite inject_Z_mult. rewrite (Zpower_Qpower 2 k Hk).
  change (inject_Z 2) with 2%Q. ring.
Qed.

(** From the integer form of the relative error to the rational one. *)
Lemma rel_of_int (M N D ex : Z) :
  0 < D -> 0 < N ->
  2 ^ 24 * Z.abs (M * D - N) <= N ->
  let v := (inject_Z N / inject_Z D * Qpower 2 ex)%Q in
  (v * (1 - u24) <= inject_Z M * Qpower 2 ex <= v * (1 + u24))%Q.
Proof.
  intros HD HN Herr v. subst v.
  pose proof (Qpower2_pos ex) as HP.
  assert (H1 : 2 ^ 24 * (M * D - N) <= N) by lia.
  assert (H2 : 2 ^ 24 * (N - M * D) <= N) by lia.
  rewrite Zle_Qle in H1, H2. rewrite Zlt_Qlt in HD.
  rewrite !inject_Z_mult in H1, H2.
  unfold Z.sub in H1, H2. rewrite !inject_Z_plus, !inject_Z_opp in H1, H2.
  rewrite !inject_Z_mult in H1, H2.
  change (inject_Z (2 ^ 24)) with 16777216%Q in H1, H2.
  change (inject_Z 0) with 0%Q in HD.
  set (d := inject_Z D) in *. set (n := inject_Z N) in *.
  set (m := inject_Z M) in *. set (P := Qpower 2 ex) in *.
  assert (Hq : (n / d * d == n)%Q) by (field; lra).
  set (q := (n / d)%Q) in *. unfold u24.
  assert (Hlo : (q * (1 - (1 # 16777216)) <= m)%Q).
  { apply Qmult_le_r with d; [exact HD|]. nra. }
  assert (Hhi : (m <= q * (1 + (1 # 16777216)))%Q).
  { apply Qmult_le_r with d; [exact HD|]. nra. }
  split; nra.
Qed.

Lemma SFmul_spec (m1 : positive) (e1 : Z) (m2 : positive) (e2 : Z) :
  2 ^ 23 <= Zpos m1 < 2 ^ 24 -> 2 ^ 23 <= Zpos m2 < 2 ^ 24 ->
  -149 <= e1 + e2 -> e1 + e2 <= 79 ->
  exists m e,
    SFmul 24 128 (S754_finite false m1 e1) (S754_finite false m2 e2)
    = S754_finite false m e
    /\ 2 ^ 23 <= Zpos m < 2 ^ 24
    /\ e1 + e2 + 23 <= e <= e1 + e2 + 25
    /\ let v := (F2Q (S754_finite false m1 e1) * F2Q (S754_finite false m2 e2))%Q in
       (v * (1 - u24) <= F2Q (S754_finite false m e) <= v * (1 + u24))%Q.
Proof.
  intros Hm1 Hm2 Hlo Hhi. cbn [SFmul xorb].
  assert (Hprod : 2 ^ 46 <= Zpos (m1 * m2) < 2 ^ 48).
  { rewrite Pos2Z.inj_mul.
    change (2 ^ 46) with (2 ^ 23 * 2 ^ 23). change (2 ^ 48) with (2 ^ 24 * 2 ^ 24).
    nia. }
  pose proof (digits2_between (m1 * m2) 46 48 ltac:(lia) Hprod) as Hd.
  destruct (binary_round_aux_spec (m1 * m2) (e1 + e2) loc_Exact
              (Zpos (m1 * m2)) 1 ltac:(lia) ltac:(cbn [inloc]; lia)
              ltac:(change (2 ^ 23) with 8388608 in *;
                    change (2 ^ 46) with 70368744177664 in *; lia)
              Hlo ltac:(lia))
    as (m & k & Hrun & Hm & Hk & Hk0 & Herr).
  exists m, (e1 + e2 + k). split; [exact Hrun|]. split; [exact Hm|].
  split; [lia|].
  cbn [F2Q]. cbv zeta.
  pose proof (rel_of_int (Zpos m * 2 ^ k) (Zpos (m1 * m2)) 1 (e1 + e2)
                ltac:(lia) ltac:(lia) Herr) as Hrel.
  cbv zeta in Hrel.
  rewrite (Qpower2_shift (Zpos m) (e1 + e2) k Hk0).
  assert (Hv : (inject_Z (Zpos (m1 * m2)) / inject_Z 1 * Qpower 2 (e1 + e2)
                == inject_Z (Zpos m1) * Qpower 2 e1
                   * (inject_Z (Zpos m2) * Qpower 2 e2))%Q).
  { rewrite Pos2Z.inj_mul, inject_Z_mult. rewrite Qpower_plus by discriminate.
    change (inject_Z 1) with 1%Q. field. }
  rewrite <- Hv. exact Hrel.
Qed.

Lemma inject_Z_pos (z : Z) : 0 < z -> (0 < inject_Z z)%Q.
Proof. intros Hz. change 0%Q with (inject_Z 0). rewrite <- Zlt_Qlt. exact Hz. Qed.

Lemma digits2_canonical (m : positive) :
  2 ^ 23 <= Zpos m < 2 ^ 24 -> Zpos (digits2_pos m) = 24.
Proof.
  intros Hm. pose proof (digits2_between m 23 24 ltac:(lia) Hm). lia.
Qed.

Lemma new_location_inloc (N D : Z) :
  0 < D -> 0 <= N -> inloc N D (N / D) (new_location D (N mod D)).
Proof.
  intros HD HN.
  pose proof (Z.div_mod N D ltac:(lia)) as Hdm.
  pose proof (Z.mod_pos_bound N D HD) as Hr.
  set (q := N / D) in *. set (r := N mod D) in *.
  unfold new_location.
  destruct (Z.even D) eqn:Heven.
  - unfold new_location_even.
    destruct (Z.eqb_spec r 0) as [Hr0|Hr0]; [cbn [inloc]; nia|].
    destruct (Z.compare_spec (2 * r) D); cbn [inloc]; nia.
  - unfold new_location_odd.
    assert (Hodd : exists k, D = 2 * k + 1).
    { apply Z.odd_spec. rewrite <- Z.negb_even, Heven. reflexivity. }
    destruct Hodd as [k Hk].
    destruct (Z.eqb_spec r 0) as [Hr0|Hr0]; [cbn [inloc]; nia|].
    destruct (Z.compare_spec (2 * r + 1) D); cbn [inloc]; nia.
Qed.

Lemma SFdiv_spec (m1 : positive) (e1 : Z) (m2 : positive) (e2 : Z) :
  2 ^ 23 <= Zpos m1 < 2 ^ 24 -> 2 ^ 23 <= Zpos m2 < 2 ^ 24 ->
  -125 <= e1 - e2 -> e1 - e2 <= 126 ->
  exists m e,
    SFdiv 24 128 (S754_finite false m1 e1) (S754_finite false m2 e2)
    = S754_finite false m e
    /\ 2 ^ 23 <= Zpos m < 2 ^ 24
    /\ e1 - e2 - 24 <= e <= e1 - e2 - 22
    /\ let v := (F2Q (S754_finite false m1 e1) / F2Q (S754_finite false m2 e2))%Q in
       (v * (1 - u24) <= F2Q (S754_finite false m e) <= v * (1 + u24))%Q.
Proof.
  intros Hm1 Hm2 Hlo Hhi.
  set (N := Zpos m1 * 2 ^ 24). set (D := Zpos m2).
  assert (Hcore : SFdiv_core_binary 24 128 (Zpos m1) e1 (Zpos m2) e2
                  = (N / D, e1 - e2 - 24, new_location D (N mod D))).
  { unfold SFdiv_core_binary. cbn [Zdigits2].
    rewrite (digits2_canonical m1 Hm1), (digits2_canonical m2 Hm2).
    rewrite fexp_normal by lia.
    replace (24 + e1 - (24 + e2) - 24) with (e1 - e2 - 24) by lia.
    rewrite Z.min_l by lia.
    replace (e1 - e2 - (e1 - e2 - 24)) with 24 by lia.
    rewrite Z.shiftl_mul_pow2 by lia. fold N D.
    unfold Z.div, Z.modulo. destruct (Z.div_eucl N D). reflexivity. }
  cbn [SFdiv xorb]. rewrite Hcore.
  assert (HD : 0 < D) by (unfold D; lia).
  assert (HN : 2 ^ 47 <= N < 2 ^ 48).
  { unfold N. change (2 ^ 47) with (2 ^ 23 * 2 ^ 24).
    change (2 ^ 48) with (2 ^ 24 * 2 ^ 24). lia. }
  pose proof (new_location_inloc N D HD ltac:(lia)) as Hloc.
  pose proof (Z.div_mod N D ltac:(lia)) as Hdm.
  pose proof (Z.mod_pos_bound N D HD) as Hr.
  assert (Hq : 2 ^ 23 <= N / D < 2 ^ 25).
  { change (2 ^ 47) with (2 ^ 23 * 2 ^ 24) in HN.
    change (2 ^ 48) with (2 ^ 25 * 2 ^ 23) in HN.
    unfold D in *. split; nia. }
  destruct (N / D) as [|q|q] eqn:Hqe; [cbn in Hq; lia | | cbn in Hq; lia].
  pose proof (digits2_between q 23 25 ltac:(lia) Hq) as Hd.
  destruct (binary_round_aux_spec q (e1 - e2 - 24) _ N D HD Hloc
              ltac:(lia) ltac:(lia) ltac:(lia))
    as (m & k & Hrun & Hm & Hk & Hk0 & Herr).
  exists m, (e1 - e2 - 24 + k). split; [exact Hrun|]. split; [exact Hm|].
  split; [lia|].
  cbn [F2Q]. cbv zeta.
  pose proof (rel_of_int (Zpos m * 2 ^ k) N D (e1 - e2 - 24)
                HD ltac:(lia) Herr) as Hrel.
  cbv zeta in Hrel.
  rewrite (Qpower2_shift (Zpos m) (e1 - e2 - 24) k Hk0).
  assert (Hv : (inject_Z N / inject_Z D * Qpower 2 (e1 - e2 - 24)
                == inject_Z (Zpos m1) * Qpower 2 e1
                   / (inject_Z (Zpos m2) * Qpower 2 e2))%Q).
  { unfold N, D. rewrite inject_Z_mult.
    change (inject_Z (2 ^ 24)) with (Qpower 2 24).
    replace (e1 - e2 - 24) with (e1 - (e2 + 24)) by lia.
    rewrite Qpower_minus by discriminate.
    rewrite Qpower_plus by discriminate.
    pose proof (Qpower2_pos e2). pose proof (Qpower2_pos 24).
    assert (0 < inject_Z (Zpos m2))%Q by (apply inject_Z_pos; lia).
    field. repeat split; lra. }
  rewrite <- Hv. exact Hrel.
Qed.

Lemma Pos_iter_xO (m d : positive) :
  Zpos (Pos.iter xO m d) = Zpos m * 2 ^ Zpos d.
Proof.
  induction d as [|d IH] using Pos.peano_ind.
  - cbn. lia.
  - rewrite Pos.iter_succ. rewrite Pos2Z.inj_xO, IH.
    rewrite Pos2Z.inj_succ, Z.pow_succ_r by lia. ring.
Qed.

Lemma shl_align_spec (m : positive) (e e' : Z) :
  e' <= e ->
  exists m', shl_align m e e' = (m', e')
             /\ Zpos m' = Zpos m * 2 ^ (e - e').
Proof.
  intros Hle. unfold shl_align.
  destruct (e' - e) as [|d|d] eqn:Hd; [| lia |].
  - assert (e' = e) by lia. subst e'. exists m. split; [reflexivity|].
    rewrite Z.sub_diag. cbn. lia.
  - exists (Pos.iter xO m d). split; [reflexivity|].
    rewrite Pos_iter_xO. f_equal. f_equal. lia.
Qed.

Lemma shl_align_none (m : positive) (e e' : Z) :
  e <= e' -> shl_align m e e' = (m, e).
Proof.
  intros Hle. unfold shl_align.
  destruct (e' - e) as [|d|d] eqn:Hd; [reflexivity | reflexivity | lia].
Qed.

Lemma SFadd_spec (m1 : positive) (e1 : Z) (m2 : positive) (e2 : Z) :
  2 ^ 23 <= Zpos m1 < 2 ^ 24 -> 2 ^ 23 <= Zpos m2 < 2 ^ 24 ->
  -149 <= e1 -> -149 <= e2 -> Z.max e1 e2 <= 100 ->
  exists m e,
    SFadd 24 128 (S754_finite false m1 e1) (S754_finite false m2 e2)
    = S754_finite false m e
    /\ 2 ^ 23 <= Zpos m < 2 ^ 24
    /\ Z.max e1 e2 <= e <= Z.max e1 e2 + 2
    /\ let v := (F2Q (S754_finite false m1 e1) + F2Q (S754_finite false m2 e2))%Q in
       (v * (1 - u24) <= F2Q (S754_finite false m e) <= v * (1 + u24))%Q.
Proof.
  intros Hm1 Hm2 He1 He2 Hmax. cbn [SFadd cond_Zopp].
  set (ez := Z.min e1 e2).
  destruct (shl_align_spec m1 e1 ez ltac:(unfold ez; lia)) as (a1 & Ha1 & Hv1).
  destruct (shl_align_spec m2 e2 ez ltac:(unfold ez; lia)) as (a2 & Ha2 & Hv2).
  rewrite Ha1, Ha2. cbn [fst].
  change (Zpos a1 + Zpos a2) with (Zpos (a1 + a2)).
  cbn [binary_normalize]. unfold binary_round.
  set (g := Z.max e1 e2 - ez).
  assert (Hg : 0 <= g) by (unfold g, ez; lia).
  assert (HPg : 0 < 2 ^ g) by (apply Z.pow_pos_nonneg; lia).
  assert (Hsum : 2 ^ (23 + g) <= Zpos (a1 + a2) < 2 ^ (25 + g)).
  { rewrite Pos2Z.inj_add, Hv1, Hv2.
    rewrite !Z.pow_add_r by lia.
    change (2 ^ 25) with (2 * 2 ^ 24).
    assert (H1 : 0 < 2 ^ (e1 - ez)) by (apply Z.pow_pos_nonneg; unfold ez; lia).
    assert (H2 : 0 < 2 ^ (e2 - ez)) by (apply Z.pow_pos_nonneg; unfold ez; lia).
    destruct (Z_le_gt_dec e1 e2) as [Hle|Hgt].
    - assert (Hez : ez = e1) by (unfold ez; lia).
      assert (Hge : g = e2 - ez) by (unfold g; lia).
      rewrite Hge. rewrite Hez in *. rewrite Z.sub_diag in *.
      change (2 ^ 0) with 1 in *.
      assert (1 <= 2 ^ (e2 - e1)) by lia. nia.
    - assert (Hez : ez = e2) by (unfold ez; lia).
      assert (Hge : g = e1 - ez) by (unfold g; lia).
      rewrite Hge. rewrite Hez in *. rewrite Z.sub_diag in *.
      change (2 ^ 0) with 1 in *.
      assert (1 <= 2 ^ (e1 - e2)) by lia. nia. }
  pose proof (digits2_between (a1 + a2) (23 + g) (25 + g) ltac:(lia) Hsum) as Hd.
  rewrite fexp_normal by (unfold ez in *; lia).
  rewrite shl_align_none by lia.
  assert (Hbig : 2 ^ 23 <= Zpos (a1 + a2)).
  { assert (2 ^ 23 * 1 <= 2 ^ 23 * 2 ^ g) by nia.
    rewrite Z.pow_add_r in Hsum by lia. lia. }
  destruct (binary_round_aux_spec (a1 + a2) ez loc_Exact
              (Zpos (a1 + a2)) 1 ltac:(lia) ltac:(cbn [inloc]; lia)
              Hbig ltac:(unfold ez; lia) ltac:(unfold g in *; lia))
    as (m & k & Hrun & Hm & Hk & Hk0 & Herr).
  exists m, (ez + k). split; [exact Hrun|]. split; [exact Hm|].
  split; [unfold g in *; lia|].
  cbn [F2Q]. cbv zeta.
  pose proof (rel_of_int (Zpos m * 2 ^ k) (Zpos (a1 + a2)) 1 ez
                ltac:(lia) ltac:(lia) Herr) as Hrel.
  cbv zeta in Hrel.
  rewrite (Qpower2_shift (Zpos m) ez k Hk0).
  assert (Hv : (inject_Z (Zpos (a1 + a2)) / inject_Z 1 * Qpower 2 ez
                == inject_Z (Zpos m1) * Qpower 2 e1
                   + inject_Z (Zpos m2) * Qpower 2 e2)%Q).
  { rewrite Pos2Z.inj_add, inject_Z_plus, Hv1, Hv2, !inject_Z_mult.
    rewrite (Zpower_Qpower 2 (e1 - ez)) by (unfold ez; lia).
    rewrite (Zpower_Qpower 2 (e2 - ez)) by (unfold ez; lia).
    change (inject_Z 2) with 2%Q. change (inject_Z 1) with 1%Q.
    rewrite !Qpower_minus by discriminate.
    pose proof (Qpower2_pos ez).
    field. lra. }
  rewrite <- Hv. exact Hrel.
Qed.

(** Conversion of an integer below [2^24]. *)
Lemma of_Z_spec (n : Z) :
  0 < n < 2 ^ 24 ->
  exists m e,
    binary_normalize 24 128 n 0 false = S754_finite false m e
    /\ 2 ^ 23 <= Zpos m < 2 ^ 24
    /\ -23 <= e <= 1
    /\ (inject_Z n * (1 - u24) <= F2Q (S754_finite false m e)
        <= inject_Z n * (1 + u24))%Q.
Proof.
  intros Hn. destruct n as [|p|p]; [lia | | lia].
  cbn [binary_normalize]. unfold binary_round.
  pose proof (digits2_pos_spec p) as [Hd1 Hd2].
  set (d := Zpos (digits2_pos p)) in *.
  assert (Hd : 1 <= d <= 24).
  { split; [unfold d; lia|].
    assert (d - 1 < 24); [|lia].
    apply (Z.pow_lt_mono_r_iff 2); lia. }
  rewrite Z.add_0_r. rewrite fexp_normal by lia.
  destruct (shl_align_spec p 0 (d - 24) ltac:(lia)) as (a & Ha & Hv).
  rewrite Ha.
  replace (0 - (d - 24)) with (24 - d) in Hv by lia.
  assert (HP : 0 < 2 ^ (24 - d)) by (apply Z.pow_pos_nonneg; lia).
  assert (Ha24 : 2 ^ 23 <= Zpos a < 2 ^ 24).
  { rewrite Hv.
    assert (H23 : 2 ^ 23 = 2 ^ (d - 1) * 2 ^ (24 - d)).
    { rewrite <- Z.pow_add_r by lia. f_equal. lia. }
    assert (H24 : 2 ^ 24 = 2 ^ d * 2 ^ (24 - d)).
    { rewrite <- Z.pow_add_r by lia. f_equal. lia. }
    rewrite H23, H24. nia. }
  pose proof (digits2_canonical a Ha24) as Hda.
  destruct (binary_round_aux_spec a (d - 24) loc_Exact (Zpos a) 1
              ltac:(lia) ltac:(cbn [inloc]; lia) ltac:(lia) ltac:(lia)
              ltac:(lia))
    as (m & k & Hrun & Hm & Hk & Hk0 & Herr).
  exists m, (d - 24 + k). split; [exact Hrun|]. split; [exact Hm|].
  split; [lia|].
  cbn [F2Q].
  pose proof (rel_of_int (Zpos m * 2 ^ k) (Zpos a) 1 (d - 24)
                ltac:(lia) ltac:(lia) Herr) as Hrel.
  cbv zeta in Hrel.
  rewrite (Qpower2_shift (Zpos m) (d - 24) k Hk0).
  assert (Hval : (inject_Z (Zpos a) / inject_Z 1 * Qpower 2 (d - 24)
                  == inject_Z (Zpos p))%Q).
  { rewrite Hv, inject_Z_mult.
    rewrite (Zpower_Qpower 2 (24 - d)) by lia.
    change (inject_Z 2) with 2%Q. change (inject_Z 1) with 1%Q.
    replace (d - 24) with (- (24 - d)) by lia. rewrite Qpower_opp.
    pose proof (Qpower2_pos (24 - d)). field. lra. }
  rewrite <- Hval. exact Hrel.
Qed.

(** *** Relative error along an expression *)

Lemma approx_ext (x : spec_float) (v v' eps : Q) (lo hi : Z) :
  (v == v')%Q -> approx x v eps lo hi -> approx x v' eps lo hi.
Proof.
  intros Hv [Hn Hb]. split; [exact Hn|]. rewrite <- Hv. exact Hb.
Qed.

Lemma approx_mul (x y : spec_float) (vx vy ex ey e' : Q) (lx hx ly hy : Z) :
  approx x vx ex lx hx -> approx y vy ey ly hy ->
  (0 < vx)%Q -> (0 < vy)%Q ->
  (0 <= ex)%Q -> (ex <= 1 # 2)%Q -> (0 <= ey)%Q -> (ey <= 1 # 2)%Q ->
  -149 <= lx + ly -> hx + hy <= 79 ->
  ((1 + ex) * (1 + ey) * (1 + u24) <= 1 + e')%Q ->
  (1 - e' <= (1 - ex) * (1 - ey) * (1 - u24))%Q ->
  approx (SFmul 24 128 x y) (vx * vy) e' (lx + ly + 23) (hx + hy + 25).
Proof.
  intros [(m1 & e1 & -> & Hm1 & He1) Hx] [(m2 & e2 & -> & Hm2 & He2) Hy]
    Hvx Hvy Hex0 Hex1 Hey0 Hey1 Hlo Hhi Hup Hdown.
  destruct (SFmul_spec m1 e1 m2 e2 Hm1 Hm2 ltac:(lia) ltac:(lia))
    as (m & e & Hrun & Hm & He & Hrel).
  cbv zeta in Hrel. rewrite Hrun.
  split; [exists m, e; split; [reflexivity|]; split; [exact Hm | lia]|].
  set (X := F2Q (S754_finite false m1 e1)) in *.
  set (Y := F2Q (S754_finite false m2 e2)) in *.
  set (Z := F2Q (S754_finite false m e)) in *.
  unfold u24 in *.
  assert (HX0 : (0 < X)%Q) by nra.
  assert (HY0 : (0 < Y)%Q) by nra.
  assert (Hxy1 : (X * Y <= vx * (1 + ex) * (vy * (1 + ey)))%Q).
  { apply Qmult_le_compat_nonneg; split; lra. }
  assert (Hxy2 : (vx * (1 - ex) * (vy * (1 - ey)) <= X * Y)%Q).
  { apply Qmult_le_compat_nonneg; split; try lra; nra. }
  assert (Hvv : (0 < vx * vy)%Q) by nra.
  split.
  - apply Qle_trans with (vx * vy * ((1 - ex) * (1 - ey) * (1 - (1 # 16777216))))%Q.
    + apply Qmult_le_l; [exact Hvv | exact Hdown].
    + apply Qle_trans with (X * Y * (1 - (1 # 16777216)))%Q; [|lra].
      setoid_replace (vx * vy * ((1 - ex) * (1 - ey) * (1 - (1 # 16777216))))%Q
        with (vx * (1 - ex) * (vy * (1 - ey)) * (1 - (1 # 16777216)))%Q by ring.
      apply Qmult_le_compat_r; [exact Hxy2 | lra].
  - apply Qle_trans with (vx * vy * ((1 + ex) * (1 + ey) * (1 + (1 # 16777216))))%Q.
    + apply Qle_trans with (X * Y * (1 + (1 # 16777216)))%Q; [lra|].
      setoid_replace (vx * vy * ((1 + ex) * (1 + ey) * (1 + (1 # 16777216))))%Q
        with (vx * (1 + ex) * (vy * (1 + ey)) * (1 + (1 # 16777216)))%Q by ring.
      apply Qmult_le_compat_r; [exact Hxy1 | lra].
    + apply Qmult_le_l; [exact Hvv | exact Hup].
Qed.

Lemma approx_div (x y : spec_float) (vx vy ex ey e' : Q) (lx hx ly hy : Z) :
  approx x vx ex lx hx -> approx y vy ey ly hy ->
  (0 < vx)%Q -> (0 < vy)%Q ->
  (0 <= ex)%Q -> (ex <= 1 # 2)%Q -> (0 <= ey)%Q -> (ey <= 1 # 2)%Q ->
  -125 <= lx - hy -> hx - ly <= 126 ->
  ((1 + ex) * (1 + u24) <= (1 + e') * (1 - ey))%Q ->
  ((1 - e') * (1 + ey) <= (1 - ex) * (1 - u24))%Q ->
  approx (SFdiv 24 128 x y) (vx / vy) e' (lx - hy - 24) (hx - ly - 22).
Proof.
  intros [(m1 & e1 & -> & Hm1 & He1) Hx] [(m2 & e2 & -> & Hm2 & He2) Hy]
    Hvx Hvy Hex0 Hex1 Hey0 Hey1 Hlo Hhi Hup Hdown.
  destruct (SFdiv_spec m1 e1 m2 e2 Hm1 Hm2 ltac:(lia) ltac:(lia))
    as (m & e & Hrun & Hm & He & Hrel).
  cbv zeta in Hrel. rewrite Hrun.
  split; [exists m, e; split; [reflexivity|]; split; [exact Hm | lia]|].
  set (X := F2Q (S754_finite false m1 e1)) in *.
  set (Y := F2Q (S754_finite false m2 e2)) in *.
  set (Z := F2Q (S754_finite false m e)) in *.
  unfold u24 in *.
  assert (HX0 : (0 < X)%Q) by nra.
  assert (HY0 : (0 < Y)%Q) by nra.
  assert (Hq : (X / Y * Y == X)%Q) by (field; lra).
  assert (Hw : (vx / vy * vy == vx)%Q) by (field; lra).
  set (q := (X / Y)%Q) in *. set (w := (vx / vy)%Q) in *.
  assert (Hq0 : (0 < q)%Q).
  { apply Qmult_lt_r with Y; [exact HY0|]. lra. }
  assert (Hw0 : (0 < w)%Q).
  { apply Qmult_lt_r with vy; [exact Hvy|]. lra. }
  (* q (1 - ey) <= w (1 + ex) and w (1 - ex) <= q (1 + ey) *)
  assert (Hq1 : (q * (1 - ey) <= w * (1 + ex))%Q).
  { apply Qmult_le_r with vy; [exact Hvy|]. nra. }
  assert (Hq2 : (w * (1 - ex) <= q * (1 + ey))%Q).
  { apply Qmult_le_r with vy; [exact Hvy|]. nra. }
  split.
  - apply Qmult_le_r with (1 + ey)%Q; [lra|].
    apply Qle_trans with (w * ((1 - ex) * (1 - (1 # 16777216))))%Q; [nra|].
    apply Qle_trans with (q * (1 + ey) * (1 - (1 # 16777216)))%Q; [nra|nra].
  - apply Qmult_le_r with (1 - ey)%Q; [lra|].
    apply Qle_trans with (q * (1 - ey) * (1 + (1 # 16777216)))%Q; [nra|].
    apply Qle_trans with (w * ((1 + ex) * (1 + (1 # 16777216))))%Q; [nra|nra].
Qed.

Lemma approx_add (x y : spec_float) (vx vy ex ey e' : Q) (lx hx ly hy : Z) :
  approx x vx ex lx hx -> approx y vy ey ly hy ->
  (0 < vx)%Q -> (0 < vy)%Q ->
  (0 <= ex)%Q -> (ex <= 1 # 2)%Q -> (0 <= ey)%Q -> (ey <= 1 # 2)%Q ->
  -149 <= lx -> -149 <= ly -> Z.max hx hy <= 100 ->
  ((1 + ex) * (1 + u24) <= 1 + e')%Q -> ((1 + ey) * (1 + u24) <= 1 + e')%Q ->
  (1 - e' <= (1 - ex) * (1 - u24))%Q -> (1 - e' <= (1 - ey) * (1 - u24))%Q ->
  approx (SFadd 24 128 x y) (vx + vy) e' (Z.max lx ly) (Z.max hx hy + 2).
Proof.
  intros [(m1 & e1 & -> & Hm1 & He1) Hx] [(m2 & e2 & -> & Hm2 & He2) Hy]
    Hvx Hvy Hex0 Hex1 Hey0 Hey1 Hlx Hly Hhi Hup1 Hup2 Hdown1 Hdown2.
  destruct (SFadd_spec m1 e1 m2 e2 Hm1 Hm2 ltac:(lia) ltac:(lia) ltac:(lia))
    as (m & e & Hrun & Hm & He & Hrel).
  cbv zeta in Hrel. rewrite Hrun.
  split; [exists m, e; split; [reflexivity|]; split; [exact Hm | lia]|].
  set (X := F2Q (S754_finite false m1 e1)) in *.
  set (Y := F2Q (S754_finite false m2 e2)) in *.
  set (Z := F2Q (S754_finite false m e)) in *.
  unfold u24 in *.
  assert (HX0 : (0 < X)%Q) by nra.
  assert (HY0 : (0 < Y)%Q) by nra.
  assert (Hx1 : (vx * (1 - e') <= X * (1 - (1 # 16777216)))%Q).
  { apply Qle_trans with (vx * ((1 - ex) * (1 - (1 # 16777216))))%Q.
    - apply Qmult_le_l; [exact Hvx | exact Hdown1].
    - nra. }
  assert (Hy1 : (vy * (1 - e') <= Y * (1 - (1 # 16777216)))%Q).
  { apply Qle_trans with (vy * ((1 - ey) * (1 - (1 # 16777216))))%Q.
    - apply Qmult_le_l; [exact Hvy | exact Hdown2].
    - nra. }
  assert (Hx2 : (X * (1 + (1 # 16777216)) <= vx * (1 + e'))%Q).
  { apply Qle_trans with (vx * ((1 + ex) * (1 + (1 # 16777216))))%Q.
    - nra.
    - apply Qmult_le_l; [exact Hvx | exact Hup1]. }
  assert (Hy2 : (Y * (1 + (1 # 16777216)) <= vy * (1 + e'))%Q).
  { apply Qle_trans with (vy * ((1 + ey) * (1 + (1 # 16777216))))%Q.
    - nra.
    - apply Qmult_le_l; [exact Hvy | exact Hup2]. }
  split; lra.
Qed.

Lemma approx_of_uint32 (n : Z) :
  0 < n < 2 ^ 24 ->
  approx (Float32.of_uint32 n) (inject_Z n) u24 (-23) 1.
Proof.
  intros Hn. destruct (of_Z_spec n Hn) as (m & e & Hrun & Hm & He & Hrel).
  unfold Float32.of_uint32, Float32.prec, Float32.emax. rewrite Hrun.
  split; [exists m, e; split; [reflexivity|]; split; [exact Hm | lia]|].
  exact Hrel.
Qed.

(** The integer part of a positive number. *)
Lemma truncate_spec (m : positive) (e : Z) :
  Float32.truncate (S754_finite false m e)
  = Qfloor (F2Q (S754_finite false m e)).
Proof.
  cbn [Float32.truncate F2Q]. destruct e as [|pe|pe].
  - rewrite <- (Qfloor_Z (Zpos m)) at 1. apply Qfloor_comp.
    change (Qpower 2 0) with 1%Q. ring.
  - rewrite Z.shiftl_mul_pow2 by lia.
    rewrite <- (Qfloor_Z (Zpos m * 2 ^ Zpos pe)). apply Qfloor_comp.
    rewrite inject_Z_mult, (Zpower_Qpower 2 (Zpos pe)) by lia. reflexivity.
  - rewrite Z.shiftr_div_pow2 by lia. rewrite Zdiv_Qdiv. apply Qfloor_comp.
    rewrite (Zpower_Qpower 2 (Zpos pe)) by lia.
    change (Zneg pe) with (- Zpos pe). rewrite Qpower_opp. reflexivity.
Qed.

Lemma approx_weaken (x : spec_float) (v eps eps' : Q) (lo hi lo' hi' : Z) :
  approx x v eps lo hi -> (0 <= v)%Q -> (eps <= eps')%Q ->
  lo' <= lo -> hi <= hi' -> approx x v eps' lo' hi'.
Proof.
  intros [(m & e & -> & Hm & He) Hb] Hv Heps Hlo Hhi.
  split; [exists m, e; split; [reflexivity|]; split; [exact Hm | lia]|].
  split; nra.
Qed.

(** Decides a comparison of two closed rationals. *)
Ltac qdecide :=
  lazymatch goal with
  | |- (_ <= _)%Q => unfold Qle; vm_compute; intros Hcmp; discriminate Hcmp
  | |- (_ < _)%Q => unfold Qlt; vm_compute; reflexivity
  end.

Lemma Qdiv_pos (a b : Q) : (0 < a)%Q -> (0 < b)%Q -> (0 < a / b)%Q.
Proof.
  intros Ha Hb. unfold Qdiv. apply Qmult_lt_0_compat; [exact Ha|].
  apply Qinv_lt_0_compat. exact Hb.
Qed.

Lemma Qadd_pos (a b : Q) : (0 < a)%Q -> (0 < b)%Q -> (0 < a + b)%Q.
Proof. intros Ha Hb. lra. Qed.

(** Positivity of a term built from positive atoms. *)
Ltac qpos :=
  repeat first [ assumption | apply Qdiv_pos | apply Qmult_lt_0_compat
               | apply Qadd_pos | qdecide ].

Lemma approx_lit_1000 : approx Float32.lit_1000 1000 0 (-14) (-14).
Proof.
  split; [exists 16384000%positive, (-14); repeat split; cbn; lia|].
  split; qdecide.
Qed.

Lemma approx_lit_10 : approx Float32.lit_10 10 0 (-20) (-20).
Proof.
  split; [exists 10485760%positive, (-20); repeat split; cbn; lia|].
  split; qdecide.
Qed.

Lemma approx_lit_2 : approx Float32.lit_2 2 0 (-22) (-22).
Proof.
  split; [exists 8388608%positive, (-22); repeat split; cbn; lia|].
  split; qdecide.
Qed.

Lemma approx_lit_331_4 : approx Float32.lit_331_4 (3314 # 10) (rel_err 1) (-15) (-15).
Proof.
  split; [exists 10859315%positive, (-15); repeat split; cbn; lia|].
  split; qdecide.
Qed.

Lemma approx_lit_0_6 : approx Float32.lit_0_6 (6 # 10) (rel_err 1) (-24) (-24).
Proof.
  split; [exists 10066330%positive, (-24); repeat split; cbn; lia|].
  split; qdecide.
Qed.

Lemma approx_of_uint32_eps (n : Z) :
  0 < n < 2 ^ 24 -> approx (Float32.of_uint32 n) (inject_Z n) (rel_err 1) (-23) 1.
Proof.
  intros Hn.
  apply (approx_weaken _ _ u24 _ (-23) 1); try lia.
  - apply approx_of_uint32. exact Hn.
  - change 0%Q with (inject_Z 0). rewrite <- Zle_Qle. lia.
  - qdecide.
Qed.

Lemma half_speed_alt (T : Z) :
  (half_speed T == inject_Z (33140 + 6 * T) / 200)%Q.
Proof.
  unfold half_speed. rewrite inject_Z_plus, inject_Z_mult.
  change (inject_Z 33140) with 33140%Q. change (inject_Z 6) with 6%Q.
  field.
Qed.

(** [SpeedOfSound(T) / 2] in single precision, within 6 units. *)
Lemma half_speed_approx (T : Z) :
  0 <= T < 2 ^ 24 ->
  approx (Float32.div (DistanceSensor.SpeedOfSound T) Float32.lit_2)
    (half_speed T) (rel_err 6) (-17) 2.
Proof.
  intros HT. unfold half_speed.
  destruct (Z.eq_dec T 0) as [->|Hpos].
  - (* 0.6f * 0 is zero and the sum is 331.4f *)
    change (DistanceSensor.SpeedOfSound 0) with Float32.lit_331_4.
    apply (approx_ext _ ((3314 # 10) / 2)%Q); [reflexivity|].
    apply (approx_weaken _ _ (rel_err 2) _ (-17) (-15)); try lia; try qdecide.
    apply (approx_div _ _ _ _ (rel_err 1) 0 (rel_err 2) (-15) (-15) (-22) (-22)
             approx_lit_331_4 approx_lit_2); try lia; qdecide.
  - assert (Ht0 : (0 < inject_Z T)%Q).
    { change 0%Q with (inject_Z 0). rewrite <- Zlt_Qlt. lia. }
    unfold DistanceSensor.SpeedOfSound, Float32.add, Float32.mul, Float32.div,
      Float32.prec, Float32.emax.
    pose proof (approx_of_uint32_eps T ltac:(lia)) as H1.
    pose proof (approx_mul _ _ _ _ (rel_err 1) (rel_err 1) (rel_err 3) _ _ _ _
                  approx_lit_0_6 H1) as H2.
    specialize (H2 ltac:(qdecide) ltac:(qpos) ltac:(qdecide) ltac:(qdecide)
                   ltac:(qdecide) ltac:(qdecide) ltac:(lia) ltac:(lia)
                   ltac:(qdecide) ltac:(qdecide)).
    pose proof (approx_div _ _ _ _ (rel_err 3) 0 (rel_err 4) _ _ _ _
                  H2 approx_lit_10) as H3.
    specialize (H3 ltac:(qpos) ltac:(qdecide) ltac:(qdecide) ltac:(qdecide)
                   ltac:(qdecide) ltac:(qdecide) ltac:(lia) ltac:(lia)
                   ltac:(qdecide) ltac:(qdecide)).
    pose proof (approx_add _ _ _ _ (rel_err 1) (rel_err 4) (rel_err 5) _ _ _ _
                  approx_lit_331_4 H3) as H4.
    specialize (H4 ltac:(qdecide) ltac:(qpos) ltac:(qdecide) ltac:(qdecide)
                   ltac:(qdecide) ltac:(qdecide) ltac:(lia) ltac:(lia)
                   ltac:(lia) ltac:(qdecide) ltac:(qdecide)
                   ltac:(qdecide) ltac:(qdecide)).
    pose proof (approx_div _ _ _ _ (rel_err 5) 0 (rel_err 6) _ _ _ _
                  H4 approx_lit_2) as H5.
    specialize (H5 ltac:(qpos) ltac:(qdecide) ltac:(qdecide) ltac:(qdecide)
                   ltac:(qdecide) ltac:(qdecide) ltac:(lia) ltac:(lia)
                   ltac:(qdecide) ltac:(qdecide)).
    apply (approx_weaken _ _ _ _ _ _ _ _ H5); try lia.
    + apply Qlt_le_weak. qpos.
    + apply Qle_refl.
Qed.

Lemma half_speed_pos (T : Z) : 0 <= T -> (0 < half_speed T)%Q.
Proof.
  intros HT. unfold half_speed.
  assert (Ht : (0 <= inject_Z T)%Q).
  { change 0%Q with (inject_Z 0). rewrite <- Zle_Qle. exact HT. }
  apply Qdiv_pos; [|qdecide].
  assert (Hs : (0 <= (6 # 10) * inject_Z T / 10)%Q).
  { unfold Qdiv. apply Qmult_le_0_compat; [|qdecide].
    apply Qmult_le_0_compat; [qdecide | exact Ht]. }
  lra.
Qed.

(** The product of [Time2Distance] before the conversion to an integer. *)
Lemma Time2Distance_approx (T W : Z) :
  0 <= T < 2 ^ 24 -> 0 < W < 2 ^ 24 ->
  approx
    (Float32.mul
       (Float32.mul
          (Float32.div
             (Float32.div (Float32.of_uint32 W) Float32.lit_1000)
             Float32.lit_1000)
          (Float32.div (DistanceSensor.SpeedOfSound T) Float32.lit_2))
       Float32.lit_1000)
    (inject_Z W / 1000 / 1000 * half_speed T * 1000) (rel_err 11) (-28) 23.
Proof.
  intros HT HW.
  pose proof (half_speed_approx T HT) as Hh.
  pose proof (half_speed_pos T ltac:(lia)) as Hhpos.
  assert (Hw0 : (0 < inject_Z W)%Q).
  { change 0%Q with (inject_Z 0). rewrite <- Zlt_Qlt. lia. }
  pose proof (approx_of_uint32_eps W HW) as K1.
  unfold Float32.mul, Float32.div, Float32.prec, Float32.emax in *.
  pose proof (approx_div _ _ _ _ (rel_err 1) 0 (rel_err 2) _ _ _ _
                K1 approx_lit_1000) as K2.
  specialize (K2 ltac:(qpos) ltac:(qdecide) ltac:(qdecide) ltac:(qdecide)
                 ltac:(qdecide) ltac:(qdecide) ltac:(lia) ltac:(lia)
                 ltac:(qdecide) ltac:(qdecide)).
  pose proof (approx_div _ _ _ _ (rel_err 2) 0 (rel_err 3) _ _ _ _
                K2 approx_lit_1000) as K3.
  specialize (K3 ltac:(qpos) ltac:(qdecide) ltac:(qdecide) ltac:(qdecide)
                 ltac:(qdecide) ltac:(qdecide) ltac:(lia) ltac:(lia)
                 ltac:(qdecide) ltac:(qdecide)).
  pose proof (approx_mul _ _ _ _ (rel_err 3) (rel_err 6) (rel_err 10) _ _ _ _
                K3 Hh) as K4.
  specialize (K4 ltac:(qpos) ltac:(qpos) ltac:(qdecide) ltac:(qdecide)
                 ltac:(qdecide) ltac:(qdecide) ltac:(lia) ltac:(lia)
                 ltac:(qdecide) ltac:(qdecide)).
  pose proof (approx_mul _ _ _ _ (rel_err 10) 0 (rel_err 11) _ _ _ _
                K4 approx_lit_1000) as K5.
  specialize (K5 ltac:(qpos) ltac:(qdecide) ltac:(qdecide) ltac:(qdecide)
                 ltac:(qdecide) ltac:(qdecide) ltac:(lia) ltac:(lia)
                 ltac:(qdecide) ltac:(qdecide)).
  apply (approx_weaken _ _ _ _ _ _ _ _ K5); try lia.
  - apply Qlt_le_weak. qpos.
  - apply Qle_refl.
Qed.

(** The product of [Distance2Time] before the conversion to an integer. *)
Lemma Distance2Time_approx (T d : Z) :
  0 <= T < 2 ^ 24 -> 0 < d < 2 ^ 24 ->
  approx
    (Float32.mul
       (Float32.mul
          (Float32.div
             (Float32.div (Float32.of_uint32 d) Float32.lit_1000)
             (Float32.div (DistanceSensor.SpeedOfSound T) Float32.lit_2))
          Float32.lit_1000)
       Float32.lit_1000)
    (inject_Z d / 1000 / half_speed T * 1000 * 1000) (rel_err 11) (-41) 10.
Proof.
  intros HT Hd.
  pose proof (half_speed_approx T HT) as Hh.
  pose proof (half_speed_pos T ltac:(lia)) as Hhpos.
  assert (Hd0 : (0 < inject_Z d)%Q).
  { change 0%Q with (inject_Z 0). rewrite <- Zlt_Qlt. lia. }
  pose proof (approx_of_uint32_eps d Hd) as J1.
  unfold Float32.mul, Float32.div, Float32.prec, Float32.emax in *.
  pose proof (approx_div _ _ _ _ (rel_err 1) 0 (rel_err 2) _ _ _ _
                J1 approx_lit_1000) as J2.
  specialize (J2 ltac:(qpos) ltac:(qdecide) ltac:(qdecide) ltac:(qdecide)
                 ltac:(qdecide) ltac:(qdecide) ltac:(lia) ltac:(lia)
                 ltac:(qdecide) ltac:(qdecide)).
  pose proof (approx_div _ _ _ _ (rel_err 2) (rel_err 6) (rel_err 9) _ _ _ _
                J2 Hh) as J3.
  specialize (J3 ltac:(qpos) ltac:(qpos) ltac:(qdecide) ltac:(qdecide)
                 ltac:(qdecide) ltac:(qdecide) ltac:(lia) ltac:(lia)
                 ltac:(qdecide) ltac:(qdecide)).
  pose proof (approx_mul _ _ _ _ (rel_err 9) 0 (rel_err 10) _ _ _ _
                J3 approx_lit_1000) as J4.
  specialize (J4 ltac:(qpos) ltac:(qdecide) ltac:(qdecide) ltac:(qdecide)
                 ltac:(qdecide) ltac:(qdecide) ltac:(lia) ltac:(lia)
                 ltac:(qdecide) ltac:(qdecide)).
  pose proof (approx_mul _ _ _ _ (rel_err 10) 0 (rel_err 11) _ _ _ _
                J4 approx_lit_1000) as J5.
  specialize (J5 ltac:(qpos) ltac:(qdecide) ltac:(qdecide) ltac:(qdecide)
                 ltac:(qdecide) ltac:(qdecide) ltac:(lia) ltac:(lia)
                 ltac:(qdecide) ltac:(qdecide)).
  apply (approx_weaken _ _ _ _ _ _ _ _ J5); try lia.
  - apply Qlt_le_weak. qpos.
  - apply Qle_refl.
Qed.

(** Conversion of a positive float below [2 ^ 32] to [uint32_t]. *)
Lemma to_uint32_approx (x : spec_float) (v e : Q) (lo hi : Z) :
  approx x v e lo hi -> (0 <= v * (1 - e))%Q -> (v * (1 + e) < 4294967296)%Q ->
  Float32.to_uint32 x = Qfloor (F2Q x).
Proof.
  intros [(m & ex & -> & _) [Hlow Hup]] H0 Hmax.
  unfold Float32.to_uint32. rewrite truncate_spec.
  apply wrap_uint32_small. unfold is_uint32, UINT32_MAX.
  set (a := F2Q (S754_finite false m ex)) in *.
  pose proof (Qfloor_le a) as Hfl. pose proof (Qlt_floor a) as Hfu.
  split.
  - assert (Hq : (inject_Z 0 < inject_Z (Qfloor a + 1))%Q).
    { change (inject_Z 0) with 0%Q. lra. }
    rewrite <- Zlt_Qlt in Hq. lia.
  - assert (Hq : (inject_Z (Qfloor a) < inject_Z 4294967296)%Q).
    { change (inject_Z 4294967296) with 4294967296%Q. lra. }
    rewrite <- Zlt_Qlt in Hq. lia.
Qed.

Lemma Time2Distance_0 (T : Z) :
  0 <= T < 2 ^ 24 -> DistanceSensor.Time2Distance T 0 = 0.
Proof.
  intros HT.
  destruct (half_speed_approx T HT) as [(m & e & Hh & _) _].
  unfold DistanceSensor.Time2Distance. rewrite Hh. reflexivity.
Qed.

Lemma Distance2Time_0 (T : Z) :
  0 <= T < 2 ^ 24 -> DistanceSensor.Distance2Time T 0 = 0.
Proof.
  intros HT.
  destruct (half_speed_approx T HT) as [(m & e & Hh & _) _].
  unfold DistanceSensor.Distance2Time. rewrite Hh. reflexivity.
Qed.

Lemma inject_Z_lt_floor (a : Q) (n : Z) : (a < inject_Z n)%Q -> Qfloor a < n.
Proof.
  intros Ha. pose proof (Qfloor_le a) as Hfl.
  assert (Hq : (inject_Z (Qfloor a) < inject_Z n)%Q) by lra.
  rewrite <- Zlt_Qlt in Hq. exact Hq.
Qed.

Lemma inject_Z_le_floor (a : Q) (n : Z) : (inject_Z n <= a)%Q -> n <= Qfloor a.
Proof.
  intros Ha. pose proof (Qlt_floor a) as Hfu.
  assert (Hq : (inject_Z n < inject_Z (Qfloor a + 1))%Q) by lra.
  rewrite <- Zlt_Qlt in Hq. lia.
Qed.

(** [Time2Distance] is the integer part of a number within 11 units of the
    exact product [e = W * (33140 + 6 * T) / 200000]. *)
Lemma Time2Distance_floor (T W : Z) :
  0 <= T < 2 ^ 24 -> 0 < W < 2 ^ 24 ->
  W * (33140 + 6 * T) <= 200000000000 ->
  exists a e : Q,
    DistanceSensor.Time2Distance T W = Qfloor a
    /\ (e * 200000 == inject_Z W * inject_Z (33140 + 6 * T))%Q
    /\ closed_form_mm T W = Qfloor e
    /\ (e * (1 - rel_err 11) <= a <= e * (1 + rel_err 11))%Q.
Proof.
  intros HT HW HP.
  pose proof (Time2Distance_approx T W HT HW) as Ha.
  set (e := (inject_Z (W * (33140 + 6 * T)) / inject_Z 200000)%Q).
  assert (He : (e * 200000 == inject_Z W * inject_Z (33140 + 6 * T))%Q).
  { unfold e. rewrite inject_Z_mult.
    change (inject_Z 200000) with 200000%Q. field. }
  assert (Hp : (0 < inject_Z W * inject_Z (33140 + 6 * T) <= 200000000000)%Q).
  { rewrite <- inject_Z_mult. split.
    - change 0%Q with (inject_Z 0). rewrite <- Zlt_Qlt. nia.
    - change 200000000000%Q with (inject_Z 200000000000).
      rewrite <- Zle_Qle. exact HP. }
  apply (approx_ext _ _ e) in Ha.
  2: { rewrite half_speed_alt. unfold e. rewrite inject_Z_mult.
       change (inject_Z 200000) with 200000%Q. field. }
  exists (F2Q (Float32.mul
       (Float32.mul
          (Float32.div
             (Float32.div (Float32.of_uint32 W) Float32.lit_1000)
             Float32.lit_1000)
          (Float32.div (DistanceSensor.SpeedOfSound T) Float32.lit_2))
       Float32.lit_1000)), e.
  split; [|split; [exact He|split]].
  - unfold DistanceSensor.Time2Distance.
    apply (to_uint32_approx _ _ _ _ _ Ha); unfold rel_err; lra.
  - unfold closed_form_mm, e. apply Zdiv_Qdiv.
  - exact (proj2 Ha).
Qed.

Lemma Distance2Time_floor (T d : Z) :
  0 <= T < 2 ^ 24 -> 0 < d < 2 ^ 24 ->
  exists b g : Q,
    DistanceSensor.Distance2Time T d = Qfloor b
    /\ (g * inject_Z (33140 + 6 * T) == 200000 * inject_Z d)%Q
    /\ (g * (1 - rel_err 11) <= b <= g * (1 + rel_err 11))%Q.
Proof.
  intros HT Hd.
  pose proof (Distance2Time_approx T d HT Hd) as Hb.
  assert (Hc : (33140 <= inject_Z (33140 + 6 * T))%Q).
  { change 33140%Q with (inject_Z 33140). rewrite <- Zle_Qle. lia. }
  assert (Hd0 : (0 < inject_Z d < 16777216)%Q).
  { split.
    - change 0%Q with (inject_Z 0). rewrite <- Zlt_Qlt. lia.
    - change 16777216%Q with (inject_Z (2 ^ 24)). rewrite <- Zlt_Qlt. lia. }
  set (g := (200000 * inject_Z d / inject_Z (33140 + 6 * T))%Q).
  assert (Hg : (g * inject_Z (33140 + 6 * T) == 200000 * inject_Z d)%Q).
  { unfold g. field. lra. }
  apply (approx_ext _ _ g) in Hb.
  2: { rewrite half_speed_alt. unfold g. field. lra. }
  assert (Hg0 : (0 < g <= 200000 * 16777216)%Q).
  { split; nra. }
  exists (F2Q (Float32.mul
       (Float32.mul
          (Float32.div
             (Float32.div (Float32.of_uint32 d) Float32.lit_1000)
             (Float32.div (DistanceSensor.SpeedOfSound T) Float32.lit_2))
          Float32.lit_1000)
       Float32.lit_1000)), g.
  split; [|split; [exact Hg | exact (proj2 Hb)]].
  unfold DistanceSensor.Distance2Time.
  apply (to_uint32_approx _ _ _ _ _ Hb); unfold rel_err.
  - lra.
  - nra.
Qed.

(** Both conversions against exact arithmetic, for every temperature and
    every pulse width of the given ranges. *)
Lemma conversions_within_bounds (T W : Z) :
  0 <= T < 2 ^ 24 -> 0 <= W <= 700000 ->
  W * (33140 + 6 * T) <= 200000000000 ->
  within_integer_rounding (DistanceSensor.Time2Distance T W) (closed_form_mm T W)
  /\ W - 7 <= DistanceSensor.Distance2Time T (DistanceSensor.Time2Distance T W) <= W.
Proof.
  intros HT HW HP.
  destruct (Z.eq_dec W 0) as [->|HW0].
  - rewrite Time2Distance_0, Distance2Time_0 by exact HT.
    unfold within_integer_rounding, closed_form_mm. cbn. lia.
  - destruct (Time2Distance_floor T W HT ltac:(lia) HP)
      as (a & e & Hd & He & Hclosed & Ha).
    assert (Hw : (1 <= inject_Z W <= 700000)%Q).
    { split.
      - change 1%Q with (inject_Z 1). rewrite <- Zle_Qle. lia.
      - change 700000%Q with (inject_Z 700000). rewrite <- Zle_Qle. lia. }
    assert (Hc : (33140 <= inject_Z (33140 + 6 * T))%Q).
    { change 33140%Q with (inject_Z 33140). rewrite <- Zle_Qle. lia. }
    assert (Hp : (inject_Z W * inject_Z (33140 + 6 * T) <= 200000000000)%Q).
    { rewrite <- inject_Z_mult.
      change 200000000000%Q with (inject_Z 200000000000).
      rewrite <- Zle_Qle. exact HP. }
    assert (He0 : (0 < e <= 1000000)%Q) by (split; nra).
    unfold rel_err in Ha.
    pose proof (Qfloor_le a) as Hal. pose proof (Qlt_floor a) as Hau.
    pose proof (Qfloor_le e) as Hel. pose proof (Qlt_floor e) as Heu.
    rewrite inject_Z_plus in Hau, Heu.
    change (inject_Z 1) with 1%Q in Hau, Heu.
    rewrite Hd, Hclosed. split.
    + unfold within_integer_rounding.
      assert (H1 : Qfloor a < Qfloor e + 2).
      { apply inject_Z_lt_floor. rewrite inject_Z_plus.
        change (inject_Z 2) with 2%Q. lra. }
      assert (H2 : Qfloor e < Qfloor a + 2).
      { apply inject_Z_lt_floor. rewrite inject_Z_plus.
        change (inject_Z 2) with 2%Q. lra. }
      lia.
    + assert (Hd0 : 0 <= Qfloor a).
      { apply inject_Z_le_floor. change (inject_Z 0) with 0%Q. lra. }
      destruct (Z.eq_dec (Qfloor a) 0) as [Hz|Hnz].
      * rewrite Hz in *. rewrite Distance2Time_0 by exact HT.
        change (inject_Z 0) with 0%Q in Hau.
        assert (Hw7 : (inject_Z W < inject_Z 7)%Q).
        { change (inject_Z 7) with 7%Q. nra. }
        rewrite <- Zlt_Qlt in Hw7. lia.
      * assert (Hd24 : Qfloor a < 2 ^ 24).
        { apply inject_Z_lt_floor.
          change (inject_Z (2 ^ 24)) with 16777216%Q. lra. }
        destruct (Distance2Time_floor T (Qfloor a) HT ltac:(lia))
          as (b & g & Hb & Hg & Hbb).
        rewrite Hb. unfold rel_err in Hbb.
        assert (Hd1 : (1 <= inject_Z (Qfloor a))%Q).
        { change 1%Q with (inject_Z 1). rewrite <- Zle_Qle. lia. }
        assert (Hup : (g * inject_Z (33140 + 6 * T)
                       <= inject_Z W * (1 + (11 # 16000000))
                          * inject_Z (33140 + 6 * T))%Q) by nra.
        assert (Hdown : ((inject_Z W * (1 - (11 # 16000000)) - (60351 # 10000))
                           * inject_Z (33140 + 6 * T)
                         < g * inject_Z (33140 + 6 * T))%Q) by nra.
        apply Qmult_le_r in Hup; [|lra].
        apply Qmult_lt_r in Hdown; [|lra].
        split.
        -- apply inject_Z_le_floor.
           unfold Z.sub. rewrite inject_Z_plus, inject_Z_opp.
           change (inject_Z 7) with 7%Q. lra.
        -- assert (Hlt : Qfloor b < W + 1).
           { apply inject_Z_lt_floor. rewrite inject_Z_plus.
             change (inject_Z 1) with 1%Q. lra. }
           lia.
Qed.

(** C3 (amended).  For an echo pulse observed with width [W] the driver
    answers [Time2Distance T W], the single-precision evaluation of
    [W/1000/1000 * (SpeedOfSound(T)/2) * 1000] with
    [SpeedOfSound(T) = 331.4 + 0.6*T/10], cut to an integer.  For every
    temperature [T] from 0 to 10000 deci-degrees and every width [W] up to
    500000 microseconds, this distance is within one millimetre of the
    exact closed form rounded down, and converting it back gives a time
    between [W - 7] and [W]: the round trip loses up to the flight time of
    one millimetre, about 6 microseconds, not just a rounding unit.  Each
    of the three bounds is attained.  At [T = 200] and for widths up to the
    echo budget of 23296 microseconds the distance is never above the
    closed form and the round trip loses at most 6 microseconds. *)
Theorem C3_time_distance_roundtrip :
  (forall ambientTemperature self distance t0 lows tRise tStart tRef highs tFall rest w,
     let maxWaitDurationUs :=
       DistanceSensor.Distance2Time ambientTemperature
         (DistanceSensor._maxDistanceMm self) in
     DistanceSensor.IsInitialized self = true ->
     is_uint32 t0 -> t0 < wrap_uint32 (t0 + maxWaitDurationUs) ->
     before (wrap_uint32 (t0 + maxWaitDurationUs)) lows ->
     is_uint32 tRise -> is_uint32 tStart -> is_uint32 tRef ->
     tRise < wrap_uint32 (tRef + maxWaitDurationUs) ->
     before (wrap_uint32 (tRef + maxWaitDurationUs)) highs ->
     is_uint32 tFall ->
     DistanceSensor.MeasureDistanceAt ambientTemperature self distance
       (mkBoard (echo_pulse self t0 lows tRise tStart tRef highs tFall rest) w)
     = Done (RESULT_OK,
             DistanceSensor.Time2Distance ambientTemperature
               (wrap_uint32 (tFall - tStart)),
             self)
            (mkBoard rest (w ++ trigger_pulse self)))
  /\ (forall T W, 0 <= T <= 10000 -> 0 <= W <= 500000 ->
        let d := DistanceSensor.Time2Distance T W in
        let W' := DistanceSensor.Distance2Time T d in
        within_integer_rounding d (closed_form_mm T W)
        /\ W - 7 <= W' <= W)
  /\ (DistanceSensor.Time2Distance 100 22377 = closed_form_mm 100 22377 + 1
      /\ DistanceSensor.Time2Distance 200 10000 = closed_form_mm 200 10000 - 1
      /\ DistanceSensor.Distance2Time 0 (DistanceSensor.Time2Distance 0 175)
         = 175 - 7)
  /\ (forall W, 0 <= W <= 23296 ->
        let d := DistanceSensor.Time2Distance 200 W in
        let W' := DistanceSensor.Distance2Time 200 d in
        closed_form_mm 200 W - 1 <= d <= closed_form_mm 200 W
        /\ W - 6 <= W' <= W).
Proof.
  split; [|split; [|split]].
  - intros. apply MeasureDistanceAt_on_echo_pulse; assumption.
  - intros T W HT HW d W'. subst d W'.
    apply conversions_within_bounds; [lia | lia | nia].
  - repeat split; vm_compute; reflexivity.
  - intros W HW d W'. subst d W'.
    rewrite (Time2Distance_200 W), Distance2Time_200.
    pose proof (sweep_sound _ 0 _ _ eq_refl sweep_echo_budget W
                  ltac:(rewrite Z2Nat.id; lia)) as Hholds.
    rewrite Z.add_0_l in Hholds. unfold Sweep.holds in Hholds.
    repeat (apply andb_prop in Hholds; destruct Hholds as [Hholds ?]).
    repeat match goal with
           | Hle : (_ <=? _) = true |- _ => apply Z.leb_le in Hle
           end.
    lia.
Qed.

(** Where the single-precision result falls below the exact closed form:
    10000 microseconds are exactly 1717 mm, and the driver answers 1716. *)
Lemma Time2Distance_below_closed_form :
  DistanceSensor.Time2Distance 200 10000 = 1716
  /\ closed_form_mm 200 10000 = 1717.
Proof. split; vm_compute; reflexivity. Qed.

(** C3, as stated, at a pulse of 10 microseconds and 20.0 degrees Celsius:
    1 mm, which converts back to 5 microseconds. *)
Lemma C3_counterexample :
  ~ within_integer_rounding
      (DistanceSensor.Distance2Time 200 (DistanceSensor.Time2Distance 200 10)) 10.
Proof.
  unfold within_integer_rounding. vm_compute. intros Hle. apply Hle. reflexivity.
Qed.

Lemma C3_witness :
  within_integer_rounding
    (DistanceSensor.Time2Distance 0 175) (closed_form_mm 0 175)
  /\ 175 - 7
     <= DistanceSensor.Distance2Time 0 (DistanceSensor.Time2Distance 0 175)
     <= 175.
Proof.
  exact (proj1 (proj2 C3_time_distance_roundtrip) 0 175
           ltac:(lia) ltac:(lia)).
Defined.

(** ** The ranging driver: configuration, timeouts, outputs *)

Lemma TriggerMeasurement_run (self : DistanceSensor.t) (b : Board) :
  DistanceSensor.TriggerMeasurement self b
  = Done tt (mkBoard (feed b) (wire b ++ trigger_pulse self)).
Proof.
  unfold DistanceSensor.TriggerMeasurement, DistanceSensor.SetTriggerPintState,
    digitalWrite, delayMicroseconds, emit, bind, trigger_pulse.
  cbn [feed wire]. repeat rewrite <- app_assoc. cbn [app].
  destruct (DistanceSensor._triggerPolarity self); reflexivity.
Qed.

(** A driver built with a pulse of 100000 microseconds: the board receives
    the pulse time modulo 65536. *)
Lemma trigger_pulse_16_bit :
  trigger_pulse
    (DistanceSensor.mk true "slow" 7 8 100000 20 4000 ActiveHigh ActiveHigh)
  = [DigitalWriteEv 7 LOW; DelayMicrosecondsEv 20000;
     DigitalWriteEv 7 HIGH; DelayMicrosecondsEv 34464;
     DigitalWriteEv 7 LOW; DelayMicrosecondsEv 20000].
Proof. reflexivity. Qed.

(** X1.  Configuring the driver: [Init] on an unconfigured driver with a
    name takes the pins of the configuration and sets the trigger pin to
    output and the echo pin to input; a second [Init] is refused with
    [RESULT_BUSY] and changes nothing; after [Deinit], which returns the
    old pins to inputs (echo first), [Init] with new pins succeeds. *)
Theorem X1_driver_reconfiguration (self : DistanceSensor.t)
    (c1 : DistanceSensor.Config) (n1 : string) (b : Board) :
  DistanceSensor.IsInitialized self = false ->
  DistanceSensor.name c1 = Some n1 ->
  exists s1 b1,
    DistanceSensor.Init c1 self b = Done (RESULT_OK, s1) b1
    /\ DistanceSensor.IsInitialized s1 = true
    /\ DistanceSensor._triggerPin s1 = DistanceSensor.triggerPin c1
    /\ DistanceSensor._echoPin s1 = DistanceSensor.echoPin c1
    /\ feed b1 = feed b
    /\ wire b1 = wire b ++ [PinModeEv (DistanceSensor.triggerPin c1) OUTPUT;
                            PinModeEv (DistanceSensor.echoPin c1) INPUT]
    /\ (forall c2, DistanceSensor.Init c2 s1 b1 = Done (RESULT_BUSY, s1) b1)
    /\ (forall c2 n2,
          DistanceSensor.name c2 = Some n2 ->
          exists s2 b2,
            (s <- DistanceSensor.Deinit s1 ;; DistanceSensor.Init c2 s) b1
              = Done (RESULT_OK, s2) b2
            /\ DistanceSensor.IsInitialized s2 = true
            /\ DistanceSensor._triggerPin s2 = DistanceSensor.triggerPin c2
            /\ DistanceSensor._echoPin s2 = DistanceSensor.echoPin c2
            /\ wire b2 = wire b1
                 ++ [PinModeEv (DistanceSensor.echoPin c1) INPUT;
                     PinModeEv (DistanceSensor.triggerPin c1) INPUT;
                     PinModeEv (DistanceSensor.triggerPin c2) OUTPUT;
                     PinModeEv (DistanceSensor.echoPin c2) INPUT]).
Proof.
  intros Hinit Hname.
  unfold DistanceSensor.Init at 1. rewrite Hinit, Hname.
  unfold pinMode, emit, bind, ret. cbn [feed wire].
  eexists. eexists. split; [reflexivity|].
  split; [reflexivity|]. split; [reflexivity|]. split; [reflexivity|].
  split; [reflexivity|].
  split; [rewrite <- app_assoc; reflexivity|].
  split.
  - intros c2. reflexivity.
  - intros c2 n2 Hname2.
    unfold DistanceSensor.Deinit, DistanceSensor.Init, pinMode, emit, bind, ret.
    cbn [DistanceSensor.IsInitialized DistanceSensor._initDone feed wire
         DistanceSensor._triggerPin DistanceSensor._echoPin].
    rewrite Hname2.
    eexists. eexists. split; [reflexivity|].
    split; [reflexivity|]. split; [reflexivity|]. split; [reflexivity|].
    cbn [wire DistanceSensor._triggerPin DistanceSensor._echoPin].
    repeat rewrite <- app_assoc. reflexivity.
Qed.

Lemma X1_witness :
  exists s1 b1,
    DistanceSensor.Init (DistanceSensor.mkConfig (Some "HC-SR04"%string) 7 8)
      HCSR04.new (Fixture.board []) = Done (RESULT_OK, s1) b1
    /\ forall c2, DistanceSensor.Init c2 s1 b1 = Done (RESULT_BUSY, s1) b1.
Proof.
  destruct (X1_driver_reconfiguration HCSR04.new
              (DistanceSensor.mkConfig (Some "HC-SR04"%string) 7 8)
              "HC-SR04"%string (Fixture.board []) eq_refl eq_refl)
    as (s1 & b1 & Hrun & _ & _ & _ & _ & _ & Hbusy & _).
  exists s1, b1. split; assumption.
Defined.

(** A polling loop that meets its deadline: the pin keeps reading
    [waitFor] and the clock reaches the deadline. *)
Lemma PollEcho_until_deadline (self : DistanceSensor.t) (waitFor : bool)
    (endTime tLate : Z) (rest : list Z) (w : list Event) (clock : list Z) :
  before endTime clock -> is_uint32 tLate -> endTime <= tLate ->
  forall (rounds : nat) (time : Z),
    time < endTime -> (List.length clock < rounds)%nat ->
    DistanceSensor.PollEcho rounds self waitFor waitFor time endTime
      (mkBoard (polls self waitFor clock
                ++ [echo_level self waitFor; tLate] ++ rest) w)
    = Done (waitFor, tLate) (mkBoard rest w).
Proof.
  intros Hclock Hlate Hpast.
  induction Hclock as [|t clock [Ht Hlt] Hclock IH]; intros rounds time Htime Hrounds.
  - destruct rounds as [|rounds]; [cbn in Hrounds; lia|].
    cbn [polls flat_map app DistanceSensor.PollEcho].
    rewrite Bool.eqb_reflx.
    destruct (Z.ltb_spec time endTime); [|lia]. cbn [andb].
    unfold bind at 1. rewrite GetEchoPinState_reads.
    unfold bind at 1. rewrite (micros_reads tLate _ _ Hlate).
    destruct rounds; cbn [DistanceSensor.PollEcho];
      rewrite Bool.eqb_reflx;
      (destruct (Z.ltb_spec tLate endTime); [lia|]); reflexivity.
  - destruct rounds as [|rounds]; [cbn in Hrounds; lia|].
    cbn [polls flat_map app DistanceSensor.PollEcho].
    rewrite Bool.eqb_reflx.
    destruct (Z.ltb_spec time endTime); [|lia]. cbn [andb].
    unfold bind at 1. rewrite GetEchoPinState_reads.
    unfold bind at 1. rewrite (micros_reads t _ _ Ht).
    apply IH; [exact Hlt | cbn in Hrounds; lia].
Qed.

(** X2.  No echo: when the echo pin stays inactive until the clock reaches
    the deadline [start + Distance2Time(T, maxDistance)], the measurement
    answers [RESULT_TIMEOUT] with the distance 0, whatever distance was
    passed in; the trigger pulse has gone out, the feed is consumed up to
    the late clock reading, and the driver is unchanged. *)
Theorem X2_no_echo_times_out (ambientTemperature : Z) (self : DistanceSensor.t)
    (distance t0 : Z) (lows : list Z) (tLate : Z) (rest : list Z)
    (w : list Event) :
  let maxWaitDurationUs :=
    DistanceSensor.Distance2Time ambientTemperature
      (DistanceSensor._maxDistanceMm self) in
  DistanceSensor.IsInitialized self = true ->
  is_uint32 t0 -> t0 < wrap_uint32 (t0 + maxWaitDurationUs) ->
  before (wrap_uint32 (t0 + maxWaitDurationUs)) lows ->
  is_uint32 tLate -> wrap_uint32 (t0 + maxWaitDurationUs) <= tLate ->
  DistanceSensor.MeasureDistanceAt ambientTemperature self distance
    (mkBoard (echo_absent self t0 lows tLate rest) w)
  = Done (RESULT_TIMEOUT, 0, self) (mkBoard rest (w ++ trigger_pulse self)).
Proof.
  intros maxWait Hinit Ht0 Hopen Hlows Hlate Hpast.
  unfold DistanceSensor.MeasureDistanceAt. rewrite Hinit. cbn [negb].
  unfold bind at 1. rewrite TriggerMeasurement_run. cbn [feed wire].
  unfold bind at 1.
  unfold DistanceSensor.ReadDistance, echo_absent. fold maxWait.
  unfold bind at 1. rewrite (micros_reads t0 _ _ Ht0).
  unfold bind at 1. cbn [feed].
  rewrite (PollEcho_until_deadline self false _ tLate rest _ lows Hlows Hlate Hpast);
    [ | exact Hopen
      | rewrite length_app, polls_length; cbn [List.length app]; lia ].
  reflexivity.
Qed.

Lemma X2_witness :
  DistanceSensor.MeasureDistanceAt 200 Fixture.sensor 77
    (Fixture.board (echo_absent Fixture.sensor 1000 [1100; 9000] 30000 [5]))
  = Done (RESULT_TIMEOUT, 0, Fixture.sensor)
         (mkBoard [5] ([] ++ trigger_pulse Fixture.sensor)).
Proof.
  apply (X2_no_echo_times_out 200 Fixture.sensor 77 1000 [1100; 9000] 30000 [5] []).
  - reflexivity.
  - unfold is_uint32, UINT32_MAX. lia.
  - vm_compute. reflexivity.
  - repeat constructor; unfold is_uint32, UINT32_MAX; try lia;
      vm_compute; reflexivity.
  - unfold is_uint32, UINT32_MAX. lia.
  - vm_compute. discriminate.
Defined.

(** X3.  Echo stuck: when the echo rises in time but stays active until the
    clock reaches the second deadline, counted from the clock reading
    [tRef] taken after the rising edge, the measurement answers
    [RESULT_TIMEOUT] with the distance 0. *)
Theorem X3_stuck_echo_times_out (ambientTemperature : Z) (self : DistanceSensor.t)
    (distance t0 : Z) (lows : list Z) (tRise tStart tRef : Z) (highs : list Z)
    (tLate : Z) (rest : list Z) (w : list Event) :
  let maxWaitDurationUs :=
    DistanceSensor.Distance2Time ambientTemperature
      (DistanceSensor._maxDistanceMm self) in
  DistanceSensor.IsInitialized self = true ->
  is_uint32 t0 -> t0 < wrap_uint32 (t0 + maxWaitDurationUs) ->
  before (wrap_uint32 (t0 + maxWaitDurationUs)) lows ->
  is_uint32 tRise -> is_uint32 tStart -> is_uint32 tRef ->
  tRise < wrap_uint32 (tRef + maxWaitDurationUs) ->
  before (wrap_uint32 (tRef + maxWaitDurationUs)) highs ->
  is_uint32 tLate -> wrap_uint32 (tRef + maxWaitDurationUs) <= tLate ->
  DistanceSensor.MeasureDistanceAt ambientTemperature self distance
    (mkBoard (echo_stuck self t0 lows tRise tStart tRef highs tLate rest) w)
  = Done (RESULT_TIMEOUT, 0, self) (mkBoard rest (w ++ trigger_pulse self)).
Proof.
  intros maxWait Hinit Ht0 Hopen Hlows HtRise HtStart HtRef Hopen2 Hhighs
    Hlate Hpast.
  unfold DistanceSensor.MeasureDistanceAt. rewrite Hinit. cbn [negb].
  unfold bind at 1. rewrite TriggerMeasurement_run. cbn [feed wire].
  unfold bind at 1.
  unfold DistanceSensor.ReadDistance, echo_stuck. fold maxWait.
  unfold bind at 1. rewrite (micros_reads t0 _ _ Ht0).
  unfold bind at 1. cbn [feed].
  rewrite (PollEcho_until_edge self false _ tRise _ _ lows Hlows HtRise);
    [ | exact Hopen
      | rewrite length_app, polls_length; cbn [List.length app]; lia ].
  cbn [negb app].
  unfold bind at 1. rewrite (micros_reads tStart _ _ HtStart).
  unfold bind at 1. rewrite (micros_reads tRef _ _ HtRef).
  unfold bind at 1. cbn [feed].
  rewrite (PollEcho_until_deadline self true _ tLate rest _ highs Hhighs Hlate Hpast);
    [ | exact Hopen2
      | rewrite length_app, polls_length; cbn [List.length app]; lia ].
  reflexivity.
Qed.

Lemma X3_witness :
  DistanceSensor.MeasureDistanceAt 200 Fixture.sensor 77
    (Fixture.board
       (echo_stuck Fixture.sensor 1000 [1100] 1200 1204 1208 [5000] 30000 [5]))
  = Done (RESULT_TIMEOUT, 0, Fixture.sensor)
         (mkBoard [5] ([] ++ trigger_pulse Fixture.sensor)).
Proof.
  apply (X3_stuck_echo_times_out 200 Fixture.sensor 77 1000 [1100] 1200 1204 1208
           [5000] 30000 [5] []);
    try reflexivity;
    try (unfold is_uint32, UINT32_MAX; lia);
    try (repeat constructor; unfold is_uint32, UINT32_MAX; try lia;
         vm_compute; reflexivity).
  vm_compute. discriminate.
Defined.

(** X4.  Near the wrap of the microsecond clock: when the start time plus
    the maximal wait passes [UINT32_MAX], the deadline wraps to a value
    below the start time, the first polling loop is not entered, and the
    measurement answers [RESULT_TIMEOUT] with the distance 0 after one
    clock reading, without looking at the echo pin. *)
Theorem X4_deadline_wraps (ambientTemperature : Z) (self : DistanceSensor.t)
    (distance t0 : Z) (rest : list Z) (w : list Event) :
  let maxWaitDurationUs :=
    DistanceSensor.Distance2Time ambientTemperature
      (DistanceSensor._maxDistanceMm self) in
  DistanceSensor.IsInitialized self = true ->
  is_uint32 t0 -> UINT32_MAX < t0 + maxWaitDurationUs ->
  DistanceSensor.MeasureDistanceAt ambientTemperature self distance
    (mkBoard (t0 :: rest) w)
  = Done (RESULT_TIMEOUT, 0, self) (mkBoard rest (w ++ trigger_pulse self)).
Proof.
  intros maxWait Hinit Ht0 Hwrap.
  assert (HmaxWait : is_uint32 maxWait).
  { unfold maxWait, DistanceSensor.Distance2Time, Float32.to_uint32.
    apply wrap_uint32_range. }
  assert (Hend : wrap_uint32 (t0 + maxWait) <= t0).
  { unfold wrap_uint32. unfold is_uint32, UINT32_MAX in *.
    replace (t0 + maxWait) with ((t0 + maxWait - 4294967296) + 1 * 4294967296)
      by lia.
    rewrite Z.mod_add by lia. rewrite Z.mod_small by lia. lia. }
  unfold DistanceSensor.MeasureDistanceAt. rewrite Hinit. cbn [negb].
  unfold bind at 1. rewrite TriggerMeasurement_run. cbn [feed wire].
  unfold bind at 1.
  unfold DistanceSensor.ReadDistance. fold maxWait.
  unfold bind at 1. rewrite (micros_reads t0 _ _ Ht0).
  unfold bind at 1. cbn [feed].
  destruct (List.length rest); cbn [DistanceSensor.PollEcho Bool.eqb andb];
    (destruct (Z.ltb_spec t0 (wrap_uint32 (t0 + maxWait))); [lia|]);
    reflexivity.
Qed.

Lemma X4_witness :
  DistanceSensor.MeasureDistanceAt 200 Fixture.sensor 77
    (Fixture.board
       (4294960000 :: [1; 4294960100; 4294960104; 4294960108; 0; 4294961000]))
  = Done (RESULT_TIMEOUT, 0, Fixture.sensor)
         (mkBoard [1; 4294960100; 4294960104; 4294960108; 0; 4294961000]
                  ([] ++ trigger_pulse Fixture.sensor)).
Proof.
  apply (X4_deadline_wraps 200 Fixture.sensor 77 4294960000 _ []).
  - reflexivity.
  - unfold is_uint32, UINT32_MAX. lia.
  - vm_compute. reflexivity.
Defined.

(** ** What the driver writes and what it answers *)

Lemma silent_ret {A} (a : A) : silent (ret a).
Proof. intros b. reflexivity. Qed.

Lemma silent_halt {A} (why : Stop) : silent (@halt A why).
Proof. intros b. reflexivity. Qed.

Lemma silent_bind {A B} (c : M A) (k : A -> M B) :
  silent c -> (forall a, silent (k a)) -> silent (bind c k).
Proof.
  intros Hc Hk b. unfold bind. specialize (Hc b).
  destruct (c b) as [a b'|why b']; cbn [board_of] in *.
  - rewrite (Hk a b'). exact Hc.
  - exact Hc.
Qed.

Lemma silent_input : silent input.
Proof. intros b. unfold input. destruct (feed b); reflexivity. Qed.

Lemma silent_micros : silent micros.
Proof.
  unfold micros. apply silent_bind; [apply silent_input|].
  intros x. apply silent_ret.
Qed.

Lemma silent_GetEchoPinState (self : DistanceSensor.t) :
  silent (DistanceSensor.GetEchoPinState self).
Proof.
  unfold DistanceSensor.GetEchoPinState, digitalRead.
  apply silent_bind.
  - apply silent_bind; [apply silent_input|]. intros x. apply silent_ret.
  - intros level. apply silent_ret.
Qed.

Lemma silent_PollEcho (self : DistanceSensor.t) (waitFor : bool) (endTime : Z)
    (rounds : nat) :
  forall (echoPinState : bool) (time : Z),
    silent (DistanceSensor.PollEcho rounds self waitFor echoPinState time endTime).
Proof.
  induction rounds as [|rounds IH]; intros echoPinState time;
    cbn [DistanceSensor.PollEcho];
    destruct (Bool.eqb echoPinState waitFor && (time <? endTime));
    try apply silent_ret.
  - apply silent_halt.
  - apply silent_bind; [apply silent_GetEchoPinState|]. intros e.
    apply silent_bind; [apply silent_micros|]. intros now.
    apply IH.
Qed.

Lemma silent_ReadDistance (ambientTemperature : Z) (self : DistanceSensor.t)
    (distance : Z) :
  silent (DistanceSensor.ReadDistance ambientTemperature self distance).
Proof.
  unfold DistanceSensor.ReadDistance.
  apply silent_bind; [apply silent_micros|]. intros startTime.
  apply silent_bind; [intros b; apply silent_PollEcho|].
  intros [echoPinState time].
  destruct (negb echoPinState); [apply silent_ret|].
  apply silent_bind; [apply silent_micros|]. intros echoPulseStartTimeUs.
  apply silent_bind; [apply silent_micros|]. intros now.
  apply silent_bind; [intros b; apply silent_PollEcho|].
  intros [echoPinState2 time2].
  destruct echoPinState2; apply silent_ret.
Qed.

(** X5.  What a measurement writes: on a configured driver exactly the
    trigger pulse -- trigger pin inactive, a fifth of the pulse time,
    active for the pulse time, inactive, a fifth again -- and nothing
    after it, whether the measurement succeeds, times out, or the run
    stops while polling; on a driver that is not configured, nothing, and
    the feed is not read either. *)
Theorem X5_measurement_outputs (ambientTemperature : Z) (self : DistanceSensor.t)
    (distance : Z) (b : Board) :
  (DistanceSensor.IsInitialized self = true ->
   wire (board_of (DistanceSensor.MeasureDistanceAt ambientTemperature self
                     distance b))
   = wire b ++ trigger_pulse self)
  /\ (DistanceSensor.IsInitialized self = false ->
      board_of (DistanceSensor.MeasureDistanceAt ambientTemperature self
                  distance b) = b).
Proof.
  unfold DistanceSensor.MeasureDistanceAt. split; intros Hinit; rewrite Hinit;
    cbn [negb]; [|reflexivity].
  unfold bind at 1. rewrite TriggerMeasurement_run.
  pose proof (silent_ReadDistance ambientTemperature self 0
                (mkBoard (feed b) (wire b ++ trigger_pulse self))) as Hquiet.
  unfold bind.
  destruct (DistanceSensor.ReadDistance ambientTemperature self 0 _)
    as [[result d] b'|why b']; cbn [board_of wire] in *; exact Hquiet.
Qed.

Lemma X5_witness :
  wire (board_of (DistanceSensor.MeasureDistanceAt 200 Fixture.sensor 0
                    (Fixture.board [1000; 0; 1100])))
  = [] ++ trigger_pulse Fixture.sensor.
Proof.
  destruct (X5_measurement_outputs 200 Fixture.sensor 0
              (Fixture.board [1000; 0; 1100])) as [Hon _].
  exact (Hon eq_refl).
Defined.

Lemma answers_ReadDistance_timeout (ambientTemperature : Z)
    (self : DistanceSensor.t) (distance : Z) :
  answers (DistanceSensor.ReadDistance ambientTemperature self distance)
          (fun x => (fst x = RESULT_TIMEOUT /\ snd x = distance)
                    \/ fst x = RESULT_OK).
Proof.
  unfold DistanceSensor.ReadDistance.
  apply (answers_bind _ _ _ _ answers_micros). intros startTime _.
  apply (answers_bind _ _ (fun _ => True)).
  { intros b. apply answers_PollEcho. }
  intros [echoPinState time] _.
  destruct (negb echoPinState); [apply answers_ret; left; split; reflexivity|].
  apply (answers_bind _ _ _ _ answers_micros). intros echoPulseStartTimeUs _.
  apply (answers_bind _ _ _ _ answers_micros). intros now _.
  apply (answers_bind _ _ (fun _ => True)).
  { intros b. apply answers_PollEcho. }
  intros [echoPinState2 time2] _.
  destruct echoPinState2; apply answers_ret;
    [left; split; reflexivity | right; reflexivity].
Qed.

(** X6.  What a measurement answers, on any feed: a run that completes
    returns the driver object unchanged, and its result is
    [RESULT_NOT_READY] exactly when the driver is not configured (the
    distance is then left as passed in), otherwise [RESULT_TIMEOUT] with
    the distance 0, or [RESULT_OK]; [RESULT_DEV_ERR] is never returned.
    A run that does not complete has exhausted the feed. *)
Theorem X6_measurement_answers (ambientTemperature : Z) (self : DistanceSensor.t)
    (distance : Z) (b : Board) :
  match DistanceSensor.MeasureDistanceAt ambientTemperature self distance b with
  | Done (result, d, self') _ =>
      self' = self
      /\ ((DistanceSensor.IsInitialized self = false
           /\ result = RESULT_NOT_READY /\ d = distance)
          \/ (DistanceSensor.IsInitialized self = true
              /\ ((result = RESULT_TIMEOUT /\ d = 0) \/ result = RESULT_OK)))
  | Halted why _ => why = Stalled
  end.
Proof.
  assert (Hgen : answers
    (DistanceSensor.MeasureDistanceAt ambientTemperature self distance)
    (fun x => snd x = self
              /\ ((DistanceSensor.IsInitialized self = false
                   /\ fst (fst x) = RESULT_NOT_READY /\ snd (fst x) = distance)
                  \/ (DistanceSensor.IsInitialized self = true
                      /\ ((fst (fst x) = RESULT_TIMEOUT /\ snd (fst x) = 0)
                          \/ fst (fst x) = RESULT_OK))))).
  { unfold DistanceSensor.MeasureDistanceAt.
    destruct (DistanceSensor.IsInitialized self) eqn:Hinit; cbn [negb].
    - apply (answers_bind _ _ (fun _ => True)).
      { unfold DistanceSensor.TriggerMeasurement,
          DistanceSensor.SetTriggerPintState, digitalWrite, delayMicroseconds.
        repeat (apply (answers_bind _ _ _ _ (answers_emit _)); intros _ _).
        apply answers_emit. }
      intros _ _.
      apply (answers_bind _ _ _ _
               (answers_ReadDistance_timeout ambientTemperature self 0)).
      intros [result d] Hresult. apply answers_ret. cbn [fst snd] in *.
      split; [reflexivity|]. right. split; [reflexivity|]. exact Hresult.
    - apply answers_ret. cbn [fst snd]. split; [reflexivity|].
      left. repeat split. }
  specialize (Hgen b).
  destruct (DistanceSensor.MeasureDistanceAt ambientTemperature self distance b)
    as [[[result d] self'] b'|why b']; exact Hgen.
Qed.

(** ** From distance to time and back *)

(** A sweep that succeeds has checked every distance it passed, and the
    converted times grow along it. *)
Lemma sweep_back_sound (n : nat) :
  forall d WPrev,
    SweepBack.sweep n d WPrev = true ->
    forall i, 0 <= i < Z.of_nat n ->
      SweepBack.holds (d + i)
        (Sweep.Time2DistanceAt Sweep.halfSpeed200
           (Sweep.Distance2TimeAt Sweep.halfSpeed200 (d + i))) = true
      /\ (0 < i ->
          Sweep.Distance2TimeAt Sweep.halfSpeed200 (d + i - 1)
          < Sweep.Distance2TimeAt Sweep.halfSpeed200 (d + i)).
Proof.
  induction n as [|n IH]; intros d WPrev Hsweep i Hi; [lia|].
  cbn [SweepBack.sweep] in Hsweep.
  apply andb_prop in Hsweep. destruct Hsweep as [Hhere Hnext].
  apply andb_prop in Hhere. destruct Hhere as [Hhere _].
  destruct (Z.eq_dec i 0) as [->|Hpos].
  - rewrite Z.add_0_r. split; [exact Hhere | lia].
  - destruct (IH (d + 1) _ Hnext (i - 1) ltac:(lia)) as [Hholds Hmono].
    replace (d + 1 + (i - 1)) with (d + i) in * by lia.
    split; [exact Hholds|]. intros _.
    destruct (Z.eq_dec i 1) as [->|Hmore].
    + destruct n as [|n]; [lia|].
      cbn [SweepBack.sweep] in Hnext.
      apply andb_prop in Hnext. destruct Hnext as [Hnext _].
      apply andb_prop in Hnext. destruct Hnext as [_ Hlt].
      apply Z.ltb_lt in Hlt.
      replace (d + 1 - 1) with d by lia. exact Hlt.
    + replace (d + 1 + (i - 1) - 1) with (d + i - 1) in Hmono by lia.
      apply Hmono. lia.
Qed.

(** Every distance of the HC-SR04 range at 20.0 degrees Celsius, 0 to
    4000 mm. *)
Lemma sweep_back_range : SweepBack.sweep (Z.to_nat 4001) 0 (-1) = true.
Proof. vm_cast_no_check (eq_refl true). Qed.

Lemma Distance2Time_200_step (d : Z) :
  0 <= d < 4000 ->
  DistanceSensor.Distance2Time 200 d < DistanceSensor.Distance2Time 200 (d + 1).
Proof.
  intros Hd. rewrite !Distance2Time_200.
  destruct (sweep_back_sound _ 0 _ sweep_back_range (d + 1)
              ltac:(rewrite Z2Nat.id; lia)) as [_ Hmono].
  replace (0 + (d + 1) - 1) with d in Hmono by lia.
  rewrite Z.add_0_l in Hmono. apply Hmono. lia.
Qed.

(** X7.  From distance to time and back at 20.0 degrees Celsius, over the
    range of the HC-SR04: for every distance [d] from 0 to 4000 mm,
    [Time2Distance (Distance2Time d)] is [d] or [d - 1], so the round trip
    loses at most one millimetre and never gains; and [Distance2Time] is
    strictly increasing on the range, so different distances have
    different flight times and the maximal wait is that of 4000 mm. *)
Theorem X7_distance_time_roundtrip :
  (forall d, 0 <= d <= 4000 ->
     d - 1
     <= DistanceSensor.Time2Distance 200 (DistanceSensor.Distance2Time 200 d)
     <= d)
  /\ (forall d1 d2, 0 <= d1 -> d1 < d2 -> d2 <= 4000 ->
        DistanceSensor.Distance2Time 200 d1 < DistanceSensor.Distance2Time 200 d2).
Proof.
  split.
  - intros d Hd. rewrite Distance2Time_200, Time2Distance_200.
    destruct (sweep_back_sound _ 0 _ sweep_back_range d
                ltac:(rewrite Z2Nat.id; lia)) as [Hholds _].
    rewrite Z.add_0_l in Hholds. unfold SweepBack.holds in Hholds.
    apply andb_prop in Hholds. destruct Hholds as [Hlo Hhi].
    apply Z.leb_le in Hlo. apply Z.leb_le in Hhi. lia.
  - intros d1 d2 Hd1 Hlt Hd2.
    replace d2 with (d1 + 1 + (d2 - d1 - 1)) by lia.
    assert (Hk : 0 <= d2 - d1 - 1) by lia.
    assert (Hbound : d1 + 1 + (d2 - d1 - 1) <= 4000) by lia.
    revert Hbound. generalize (d2 - d1 - 1) Hk. clear d2 Hlt Hd2 Hk.
    apply (natlike_ind
             (fun k => d1 + 1 + k <= 4000 ->
                       DistanceSensor.Distance2Time 200 d1
                       < DistanceSensor.Distance2Time 200 (d1 + 1 + k))).
    + intros Hbound. rewrite Z.add_0_r. apply Distance2Time_200_step. lia.
    + intros k Hk IH Hbound.
      apply Z.lt_trans with (DistanceSensor.Distance2Time 200 (d1 + 1 + k)).
      * apply IH. lia.
      * replace (d1 + 1 + Z.succ k) with (d1 + 1 + k + 1) by lia.
        apply Distance2Time_200_step. lia.
Qed.

Lemma X7_witness :
  1000 - 1
  <= DistanceSensor.Time2Distance 200 (DistanceSensor.Distance2Time 200 1000)
  <= 1000.
Proof.
  apply (proj1 X7_distance_time_roundtrip 1000). lia.
Defined.

(** ** The indicators *)

(** X8.  A single light cannot be switched off: [TurnOff], and [SetState]
    with [Off], are refused by both indicators for every light --
    [RESULT_BAD_PARAM] once initialised, [RESULT_NOT_READY] before -- and
    change neither the indicator nor the board.  Lights go off only
    through [SetAllLightsOff] or by turning another light on. *)
Theorem X8_turn_off_refused (whichLight : LightSelector) (b : Board) :
  (forall self : MockTrafficLight.t,
     MockTrafficLight.TurnOff whichLight self b
     = Done (if MockTrafficLight.IsInitialized self
             then RESULT_BAD_PARAM else RESULT_NOT_READY, self) b
     /\ MockTrafficLight.SetState whichLight Off self b
        = MockTrafficLight.TurnOff whichLight self b)
  /\ (forall self : DiscreteLEDTrafficLight.t,
        DiscreteLEDTrafficLight.TurnOff whichLight self b
        = Done (if DiscreteLEDTrafficLight.IsInitialized self
                then RESULT_BAD_PARAM else RESULT_NOT_READY, self) b
        /\ DiscreteLEDTrafficLight.SetState whichLight Off self b
           = DiscreteLEDTrafficLight.TurnOff whichLight self b).
Proof.
  split; intros self; (split; [|reflexivity]).
  - unfold MockTrafficLight.TurnOff, MockTrafficLight.SetState.
    destruct (MockTrafficLight.IsInitialized self); reflexivity.
  - unfold DiscreteLEDTrafficLight.TurnOff, DiscreteLEDTrafficLight.SetState.
    destruct (DiscreteLEDTrafficLight.IsInitialized self); reflexivity.
Qed.

(** X9.  Before [Init], or after [Deinit], every operation of either
    indicator answers [RESULT_NOT_READY] and has no effect: the object and
    the board are unchanged, no pin is written or read, and [GetState]
    leaves the caller's variable as it was. *)
Theorem X9_indicator_not_ready (b : Board) :
  (forall self : MockTrafficLight.t,
     MockTrafficLight.IsInitialized self = false ->
     (forall l, MockTrafficLight.TurnOn l self b = Done (RESULT_NOT_READY, self) b)
     /\ MockTrafficLight.SetAllLightsOff self b = Done (RESULT_NOT_READY, self) b
     /\ MockTrafficLight.PerformLightsTest self b = Done (RESULT_NOT_READY, self) b
     /\ (forall l st,
           MockTrafficLight.GetState l st self b = Done (RESULT_NOT_READY, st) b))
  /\ (forall self : DiscreteLEDTrafficLight.t,
        DiscreteLEDTrafficLight.IsInitialized self = false ->
        (forall l,
           DiscreteLEDTrafficLight.TurnOn l self b = Done (RESULT_NOT_READY, self) b)
        /\ DiscreteLEDTrafficLight.SetAllLightsOff self b
           = Done (RESULT_NOT_READY, self) b
        /\ DiscreteLEDTrafficLight.PerformLightsTest self b
           = Done (RESULT_NOT_READY, self) b
        /\ (forall l st,
              DiscreteLEDTrafficLight.GetState l st self b
              = Done (RESULT_NOT_READY, st) b)).
Proof.
  split; intros self Hinit.
  - unfold MockTrafficLight.TurnOn, MockTrafficLight.SetState,
      MockTrafficLight.SetAllLightsOff, MockTrafficLight.PerformLightsTest,
      MockTrafficLight.GetState.
    rewrite Hinit. repeat split.
  - unfold DiscreteLEDTrafficLight.TurnOn, DiscreteLEDTrafficLight.SetState,
      DiscreteLEDTrafficLight.SetAllLightsOff,
      DiscreteLEDTrafficLight.PerformLightsTest,
      DiscreteLEDTrafficLight.GetState.
    rewrite Hinit. repeat split.
Qed.

Lemma X9_witness :
  MockTrafficLight.PerformLightsTest MockTrafficLight.new (Fixture.board [])
  = Done (RESULT_NOT_READY, MockTrafficLight.new) (Fixture.board []).
Proof.
  destruct (X9_indicator_not_ready (Fixture.board [])) as [Hmock _].
  destruct (Hmock MockTrafficLight.new eq_refl) as (_ & _ & Htest & _).
  exact Htest.
Defined.

(** X10.  Turning a light on and reading the lights back, on the mock
    indicator: after [TurnOn] of one light on an initialised indicator,
    [GetState] answers [On] for that light and [Off] for the other two,
    whatever was lit before; after [SetAllLightsOff] it answers [Off] for
    all three. *)
Theorem X10_mock_turn_on_read_back (self : MockTrafficLight.t)
    (whichLight : LightSelector) (b : Board) :
  MockTrafficLight.IsInitialized self = true ->
  exists self' self'',
    MockTrafficLight.TurnOn whichLight self b = Done (RESULT_OK, self') b
    /\ (forall l st,
          MockTrafficLight.GetState l st self' b
          = Done (RESULT_OK, if LightSelector_eqb whichLight l then On else Off) b)
    /\ MockTrafficLight.SetAllLightsOff self' b = Done (RESULT_OK, self'') b
    /\ (forall l st,
          MockTrafficLight.GetState l st self'' b = Done (RESULT_OK, Off) b).
Proof.
  intros Hinit. destruct self as [init name r y g].
  unfold MockTrafficLight.IsInitialized in Hinit.
  cbn [MockTrafficLight._initDone] in Hinit. subst init.
  destruct whichLight; eexists; eexists;
    (split; [reflexivity|]);
    (split; [intros [] st; reflexivity|]);
    (split; [reflexivity|]);
    intros [] st; reflexivity.
Qed.

Lemma X10_witness :
  exists self',
    MockTrafficLight.TurnOn YellowLight Fixture.light (Fixture.board [])
    = Done (RESULT_OK, self') (Fixture.board [])
    /\ MockTrafficLight.GetState RedLight On self' (Fixture.board [])
       = Done (RESULT_OK, Off) (Fixture.board []).
Proof.
  destruct (X10_mock_turn_on_read_back Fixture.light YellowLight
              (Fixture.board []) eq_refl) as (self' & _ & Hon & Hread & _).
  exists self'. split; [exact Hon | exact (Hread RedLight On)].
Defined.

(** One call keeps the invariant: at most one light on, and none while
    the indicator is not initialised. *)
Lemma MockCall_run_invariant (c : MockCall) (self : MockTrafficLight.t) (b : Board) :
  (lit_count self <= 1)%nat ->
  (MockTrafficLight.IsInitialized self = false -> lit_count self = 0%nat) ->
  exists self' b',
    MockCall_run c self b = Done self' b'
    /\ feed b' = feed b
    /\ (lit_count self' <= 1)%nat
    /\ (MockTrafficLight.IsInitialized self' = false -> lit_count self' = 0%nat).
Proof.
  intros Hone Hoff.
  destruct self as [init name r y g].
  unfold MockTrafficLight.IsInitialized in *. cbn [MockTrafficLight._initDone] in *.
  destruct init.
  - destruct c as [[n|]| |l|l|l []| |]; try destruct l;
      (eexists; eexists; split; [reflexivity|]);
      cbn; repeat split; try lia; try discriminate; try exact Hone.
  - specialize (Hoff eq_refl).
    destruct c as [[n|]| |l|l|l []| |]; try destruct l;
      (eexists; eexists; split; [reflexivity|]);
      cbn; repeat split; try lia; try discriminate; try exact Hone;
      try (intros _; exact Hoff).
Qed.

(** X11.  The mock indicator never shows two lights: after any sequence
    of calls -- [Init], [Deinit], [TurnOn], [TurnOff], [SetState],
    [SetAllLightsOff], [PerformLightsTest], in any order and with any
    arguments -- on a new indicator, every call has returned, at most one
    light is on, and none is on while the indicator is not initialised. *)
Theorem X11_mock_at_most_one_light (cs : list MockCall) (b : Board) :
  exists self' b',
    MockCalls_run cs MockTrafficLight.new b = Done self' b'
    /\ (lit_count self' <= 1)%nat
    /\ (MockTrafficLight.IsInitialized self' = false -> lit_count self' = 0%nat).
Proof.
  assert (Hgen : forall cs self b,
    (lit_count self <= 1)%nat ->
    (MockTrafficLight.IsInitialized self = false -> lit_count self = 0%nat) ->
    exists self' b',
      MockCalls_run cs self b = Done self' b'
      /\ (lit_count self' <= 1)%nat
      /\ (MockTrafficLight.IsInitialized self' = false -> lit_count self' = 0%nat)).
  { clear cs b. induction cs as [|c cs IH]; intros self b Hone Hoff.
    - exists self, b. repeat split; assumption.
    - destruct (MockCall_run_invariant c self b Hone Hoff)
        as (self1 & b1 & Hrun & _ & Hone1 & Hoff1).
      destruct (IH self1 b1 Hone1 Hoff1) as (self' & b' & Hrest & Hone' & Hoff').
      exists self', b'. split; [|split; assumption].
      cbn [MockCalls_run]. unfold bind at 1. rewrite Hrun. exact Hrest. }
  apply Hgen; [cbn; lia | reflexivity].
Qed.

(** ** The LED indicator on the wire *)

Lemma led_SetAllLightsOff_run (self : DiscreteLEDTrafficLight.t) (b : Board) :
  DiscreteLEDTrafficLight.IsInitialized self = true ->
  DiscreteLEDTrafficLight.SetAllLightsOff self b
  = Done (RESULT_OK, self) (mkBoard (feed b) (wire b ++ led_frame self None)).
Proof.
  intros Hinit. unfold DiscreteLEDTrafficLight.SetAllLightsOff. rewrite Hinit.
  unfold DiscreteLEDTrafficLight.SetPintState, digitalWrite, emit, bind, ret,
    led_frame, led_level, led_pin.
  cbn [feed wire negb]. repeat rewrite <- app_assoc. cbn [app].
  destruct (DiscreteLEDTrafficLight._pinsPolarity self); reflexivity.
Qed.

Lemma led_TurnOn_run (self : DiscreteLEDTrafficLight.t) (whichLight : LightSelector)
    (b : Board) :
  DiscreteLEDTrafficLight.IsInitialized self = true ->
  DiscreteLEDTrafficLight.TurnOn whichLight self b
  = Done (RESULT_OK, self)
         (mkBoard (feed b) (wire b ++ led_frame self (Some whichLight))).
Proof.
  intros Hinit.
  unfold DiscreteLEDTrafficLight.TurnOn, DiscreteLEDTrafficLight.SetState.
  rewrite Hinit.
  unfold DiscreteLEDTrafficLight.SetPintState, digitalWrite, emit, bind, ret,
    led_frame, led_level, led_pin.
  cbn [feed wire negb orb].
  destruct whichLight; cbn [feed wire LightSelector_eqb];
    repeat rewrite <- app_assoc; cbn [app];
    destruct (DiscreteLEDTrafficLight._pinsPolarity self); reflexivity.
Qed.

(** X12.  [Init] of the LED indicator configures the three pins as outputs
    and writes no level to any of them: the [SetAllLightsOff] it calls
    runs before the indicator counts as initialised, so it answers
    [RESULT_NOT_READY] and writes nothing, and [Init] does not look at
    that answer.  The lights are first driven by the next call: a
    [SetAllLightsOff] after [Init] writes the inactive level to the three
    pins. *)
Theorem X12_led_init_writes_no_level (self : DiscreteLEDTrafficLight.t)
    (configuration : DiscreteLEDTrafficLight.Config) (n : string) (b : Board) :
  DiscreteLEDTrafficLight.IsInitialized self = false ->
  DiscreteLEDTrafficLight.name configuration = Some n ->
  exists self1 b1,
    DiscreteLEDTrafficLight.Init configuration self b = Done (RESULT_OK, self1) b1
    /\ DiscreteLEDTrafficLight.IsInitialized self1 = true
    /\ led_pin self1 RedLight = DiscreteLEDTrafficLight.redLightPin configuration
    /\ led_pin self1 YellowLight
       = DiscreteLEDTrafficLight.yellowLightPin configuration
    /\ led_pin self1 GreenLight = DiscreteLEDTrafficLight.greenLightPin configuration
    /\ DiscreteLEDTrafficLight._pinsPolarity self1
       = DiscreteLEDTrafficLight.pinsPolarity configuration
    /\ wire b1 = wire b
         ++ [PinModeEv (DiscreteLEDTrafficLight.redLightPin configuration) OUTPUT;
             PinModeEv (DiscreteLEDTrafficLight.yellowLightPin configuration) OUTPUT;
             PinModeEv (DiscreteLEDTrafficLight.greenLightPin configuration) OUTPUT]
    /\ (forall pin, driven (wire b1) pin = driven (wire b) pin)
    /\ DiscreteLEDTrafficLight.SetAllLightsOff self1 b1
       = Done (RESULT_OK, self1)
              (mkBoard (feed b1) (wire b1 ++ led_frame self1 None)).
Proof.
  intros Hinit Hname.
  unfold DiscreteLEDTrafficLight.Init. rewrite Hinit, Hname.
  unfold DiscreteLEDTrafficLight.SetAllLightsOff at 1.
  unfold DiscreteLEDTrafficLight.IsInitialized in *.
  cbn [DiscreteLEDTrafficLight._initDone]. rewrite Hinit.
  unfold pinMode, emit, bind, ret. cbn [feed wire negb].
  eexists. eexists. split; [reflexivity|].
  split; [reflexivity|]. split; [reflexivity|]. split; [reflexivity|].
  split; [reflexivity|]. split; [reflexivity|].
  split; [repeat rewrite <- app_assoc; reflexivity|].
  split.
  - intros pin. cbn [wire]. repeat rewrite <- app_assoc. cbn [app].
    induction (wire b) as [|e w IH]; [reflexivity|].
    cbn [app driven]. rewrite IH. reflexivity.
  - apply led_SetAllLightsOff_run. reflexivity.
Qed.

Lemma X12_witness :
  exists self1,
    DiscreteLEDTrafficLight.Init
      (DiscreteLEDTrafficLight.mkConfig (Some "leds"%string) 2 3 4 ActiveLow)
      DiscreteLEDTrafficLight.new (Fixture.board [])
    = Done (RESULT_OK, self1)
           (mkBoard [] [PinModeEv 2 OUTPUT; PinModeEv 3 OUTPUT; PinModeEv 4 OUTPUT]).
Proof.
  destruct (X12_led_init_writes_no_level DiscreteLEDTrafficLight.new
              (DiscreteLEDTrafficLight.mkConfig (Some "leds"%string) 2 3 4 ActiveLow)
              "leds"%string (Fixture.board []) eq_refl eq_refl)
    as (self1 & b1 & Hrun & _ & _ & _ & _ & _ & Hwire & _).
  exists self1. rewrite Hrun. destruct b1 as [f w]. cbn [wire] in Hwire.
  rewrite Hwire.
  unfold DiscreteLEDTrafficLight.Init in Hrun. vm_compute in Hrun.
  injection Hrun as _ <- _. reflexivity.
Defined.

Lemma driven_app_frame (w : list Event) (p1 p2 p3 : Z) (l1 l2 l3 : PinLevel)
    (pin : Z) :
  driven (w ++ [DigitalWriteEv p1 l1; DigitalWriteEv p2 l2; DigitalWriteEv p3 l3]) pin
  = if p3 =? pin then Some l3
    else if p2 =? pin then Some l2
    else if p1 =? pin then Some l1
    else driven w pin.
Proof.
  induction w as [|e w IH].
  - cbn [app driven].
    destruct (p3 =? pin), (p2 =? pin), (p1 =? pin); reflexivity.
  - cbn [app driven]. rewrite IH.
    destruct (p3 =? pin); [reflexivity|].
    destruct (p2 =? pin); [reflexivity|].
    destruct (p1 =? pin); reflexivity.
Qed.

(** X13.  Turning a light on and reading the pins back, on the LED
    indicator with three different pins: [TurnOn] writes the three pins in
    the order red, yellow, green and leaves the pin of the chosen light at
    the active level of the polarity and the other two at the inactive
    level; and [GetState], reading a pin at the level it was left at,
    answers [On] for the chosen light and [Off] for the others, under
    either polarity. *)
Theorem X13_led_turn_on_read_back (self : DiscreteLEDTrafficLight.t)
    (whichLight : LightSelector) (b : Board) :
  DiscreteLEDTrafficLight.IsInitialized self = true ->
  led_pin self RedLight <> led_pin self YellowLight ->
  led_pin self RedLight <> led_pin self GreenLight ->
  led_pin self YellowLight <> led_pin self GreenLight ->
  exists b',
    DiscreteLEDTrafficLight.TurnOn whichLight self b = Done (RESULT_OK, self) b'
    /\ feed b' = feed b
    /\ wire b' = wire b ++ led_frame self (Some whichLight)
    /\ forall l,
         driven (wire b') (led_pin self l)
         = Some (led_level self (LightSelector_eqb whichLight l))
         /\ forall level st rest w,
              driven (wire b') (led_pin self l) = Some level ->
              DiscreteLEDTrafficLight.GetState l st self
                (mkBoard (level_value level :: rest) w)
              = Done (RESULT_OK, if LightSelector_eqb whichLight l then On else Off)
                     (mkBoard rest w).
Proof.
  intros Hinit Hry Hrg Hyg.
  rewrite (led_TurnOn_run self whichLight b Hinit).
  eexists. split; [reflexivity|]. split; [reflexivity|]. split; [reflexivity|].
  cbn [wire].
  assert (Hdriven : forall l,
    driven (wire b ++ led_frame self (Some whichLight)) (led_pin self l)
    = Some (led_level self (LightSelector_eqb whichLight l))).
  { intros l. unfold led_frame. rewrite driven_app_frame.
    destruct l;
      repeat match goal with
             | |- context [?p =? ?q] =>
                 destruct (Z.eqb_spec p q); try congruence
             end;
      try reflexivity. }
  intros l. split; [apply Hdriven|].
  intros level st rest w Hlevel. rewrite Hdriven in Hlevel.
  injection Hlevel as <-.
  unfold DiscreteLEDTrafficLight.GetState, DiscreteLEDTrafficLight.GetPintState,
    digitalRead, input, bind, ret, led_level, level_value.
  rewrite Hinit. cbn [negb feed wire].
  destruct (LightSelector_eqb whichLight l),
    (DiscreteLEDTrafficLight._pinsPolarity self); reflexivity.
Qed.

Lemma X13_witness :
  driven
    (wire (board_of
       (DiscreteLEDTrafficLight.TurnOn YellowLight
          (DiscreteLEDTrafficLight.mk true "leds" 2 3 4 ActiveLow)
          (Fixture.board []))))
    3 = Some LOW.
Proof.
  destruct (X13_led_turn_on_read_back
              (DiscreteLEDTrafficLight.mk true "leds" 2 3 4 ActiveLow)
              YellowLight (Fixture.board []) eq_refl
              ltac:(discriminate) ltac:(discriminate) ltac:(discriminate))
    as (b' & Hrun & _ & _ & Hread).
  rewrite Hrun. exact (proj1 (Hread YellowLight)).
Defined.

(** X14.  The lights test of the LED indicator, once initialised: red,
    yellow and green are shown in that order, each for 500 ms and each
    with the other two written inactive, and at the end all three are
    written inactive; the test answers [RESULT_OK] and reads nothing. *)
Theorem X14_led_lights_test (self : DiscreteLEDTrafficLight.t) (b : Board) :
  DiscreteLEDTrafficLight.IsInitialized self = true ->
  DiscreteLEDTrafficLight.PerformLightsTest self b
  = Done (RESULT_OK, self)
         (mkBoard (feed b)
            (wire b
             ++ led_frame self (Some RedLight) ++ [DelayEv 500]
             ++ led_frame self (Some YellowLight) ++ [DelayEv 500]
             ++ led_frame self (Some GreenLight) ++ [DelayEv 500]
             ++ led_frame self None)).
Proof.
  intros Hinit. unfold DiscreteLEDTrafficLight.PerformLightsTest.
  rewrite Hinit. cbn [negb].
  unfold bind at 1. rewrite (led_TurnOn_run self RedLight b Hinit).
  cbn [Result_eqb].
  unfold bind at 1. unfold bind at 1. unfold delay at 1, emit at 1.
  cbn [feed wire]. rewrite (led_TurnOn_run self YellowLight _ Hinit).
  cbn [Result_eqb feed wire].
  unfold bind at 1. unfold bind at 1. unfold delay at 1, emit at 1.
  cbn [feed wire]. rewrite (led_TurnOn_run self GreenLight _ Hinit).
  cbn [Result_eqb feed wire].
  unfold bind at 1. unfold delay at 1, emit at 1.
  cbn [feed wire]. rewrite (led_SetAllLightsOff_run self _ Hinit).
  cbn [feed wire]. repeat rewrite <- app_assoc. reflexivity.
Qed.

Lemma X14_witness :
  exists w,
    DiscreteLEDTrafficLight.PerformLightsTest
      (DiscreteLEDTrafficLight.mk true "leds" 2 3 4 ActiveHigh) (Fixture.board [])
    = Done (RESULT_OK, DiscreteLEDTrafficLight.mk true "leds" 2 3 4 ActiveHigh)
           (mkBoard [] w)
    /\ List.length w = 15%nat.
Proof.
  eexists. split.
  - apply (X14_led_lights_test
             (DiscreteLEDTrafficLight.mk true "leds" 2 3 4 ActiveHigh)
             (Fixture.board [])).
    reflexivity.
  - reflexivity.
Defined.

(** X15.  [Deinit] of the LED indicator: an initialised indicator writes
    the three pins inactive and then returns them to inputs; one that is
    not initialised writes no level and still sets its three pins --
    [NOT_A_PIN] on a new object -- to inputs.  Either way the indicator
    ends not initialised, keeps its pin numbers, and a following [Init]
    is accepted. *)
Theorem X15_led_deinit (self : DiscreteLEDTrafficLight.t) (b : Board) :
  exists self',
    DiscreteLEDTrafficLight.Deinit self b
    = Done self'
        (mkBoard (feed b)
           (wire b
            ++ (if DiscreteLEDTrafficLight.IsInitialized self
                then led_frame self None else [])
            ++ [PinModeEv (led_pin self RedLight) INPUT;
                PinModeEv (led_pin self YellowLight) INPUT;
                PinModeEv (led_pin self GreenLight) INPUT]))
    /\ DiscreteLEDTrafficLight.IsInitialized self' = false
    /\ (forall l, led_pin self' l = led_pin self l)
    /\ forall configuration n b1,
         DiscreteLEDTrafficLight.name configuration = Some n ->
         exists self'' b2,
           DiscreteLEDTrafficLight.Init configuration self' b1
           = Done (RESULT_OK, self'') b2.
Proof.
  unfold DiscreteLEDTrafficLight.Deinit.
  destruct (DiscreteLEDTrafficLight.IsInitialized self) eqn:Hinit.
  - unfold bind at 1. rewrite (led_SetAllLightsOff_run self b Hinit).
    unfold pinMode, emit, bind, ret. cbn [feed wire].
    eexists. split.
    { repeat rewrite <- app_assoc. reflexivity. }
    split; [reflexivity|]. split; [intros []; reflexivity|].
    intros configuration n b1 Hname.
    unfold DiscreteLEDTrafficLight.Init, DiscreteLEDTrafficLight.IsInitialized.
    cbn [DiscreteLEDTrafficLight._initDone]. rewrite Hname.
    unfold DiscreteLEDTrafficLight.SetAllLightsOff,
      DiscreteLEDTrafficLight.IsInitialized, pinMode, emit, bind, ret.
    cbn [DiscreteLEDTrafficLight._initDone negb].
    eexists. eexists. reflexivity.
  - unfold DiscreteLEDTrafficLight.SetAllLightsOff. rewrite Hinit.
    unfold pinMode, emit, bind, ret. cbn [feed wire negb app].
    eexists. split.
    { repeat rewrite <- app_assoc. reflexivity. }
    split; [reflexivity|]. split; [intros []; reflexivity|].
    intros configuration n b1 Hname.
    unfold DiscreteLEDTrafficLight.Init, DiscreteLEDTrafficLight.IsInitialized.
    cbn [DiscreteLEDTrafficLight._initDone]. rewrite Hname.
    unfold DiscreteLEDTrafficLight.SetAllLightsOff,
      DiscreteLEDTrafficLight.IsInitialized, pinMode, emit, bind, ret.
    cbn [DiscreteLEDTrafficLight._initDone negb].
    eexists. eexists. reflexivity.
Qed.

(** ** The mock sensor *)

(** X16.  The mock sensor, once initialised, always answers [RESULT_OK]:
    it takes one random number, answers a distance from the minimal
    distance up to but not including the maximal one (20 to 3999 mm with
    the constants of the class), and writes nothing but delays -- the
    three of the pretended trigger pulse and one for the flight time, in
    microseconds below 1000 and in whole milliseconds, rounded up by one,
    from there on. *)
Theorem X16_mock_sensor_answers (ambientTemperature : Z)
    (self : MockDistanceSensor.t) (distance x : Z) (rest : list Z)
    (w : list Event) :
  MockDistanceSensor.IsInitialized self = true ->
  0 <= MockDistanceSensor._minDistanceMm self ->
  MockDistanceSensor._minDistanceMm self < MockDistanceSensor._maxDistanceMm self ->
  MockDistanceSensor._maxDistanceMm self <= 2147483647 ->
  0 <= x ->
  exists d,
    MockDistanceSensor.MeasureDistanceAt ambientTemperature self distance
      (mkBoard (x :: rest) w)
    = Done (RESULT_OK, d, self)
        (mkBoard rest
           (w ++ [DelayMicrosecondsEv
                    (wrap_uint16
                       (MockDistanceSensor._minTriggerPulseDurationUs self / 5));
                  DelayMicrosecondsEv
                    (wrap_uint16
                       (MockDistanceSensor._minTriggerPulseDurationUs self));
                  DelayMicrosecondsEv
                    (wrap_uint16
                       (MockDistanceSensor._minTriggerPulseDurationUs self / 5));
                  let timeUs :=
                    MockDistanceSensor.Distance2Time ambientTemperature d in
                  if timeUs <? 1000 then DelayMicrosecondsEv timeUs
                  else DelayEv (timeUs / 1000 + 1)]))
    /\ MockDistanceSensor._minDistanceMm self <= d
    /\ d < MockDistanceSensor._maxDistanceMm self.
Proof.
  intros Hinit Hmin Hrange Hmax Hx.
  set (lo := MockDistanceSensor._minDistanceMm self) in *.
  set (hi := MockDistanceSensor._maxDistanceMm self) in *.
  pose proof (Z.mod_pos_bound x (hi - lo) ltac:(lia)) as Hmod.
  exists (x mod (hi - lo) + lo).
  split; [|lia].
  unfold MockDistanceSensor.MeasureDistanceAt. rewrite Hinit. cbn [negb].
  unfold MockDistanceSensor.TriggerMeasurement, MockDistanceSensor.ReadDistance,
    Random.random.
  fold lo hi.
  rewrite (cast_int32_small lo) by (unfold is_int32; lia).
  rewrite (cast_int32_small hi) by (unfold is_int32; lia).
  destruct (Z.geb_spec lo hi) as [Hge|_]; [lia|].
  unfold delayMicroseconds, delay, emit, input, bind, ret. cbn [feed wire].
  rewrite (wrap_uint32_small (x mod (hi - lo) + lo))
    by (unfold is_uint32, UINT32_MAX; lia).
  repeat rewrite <- app_assoc. cbn [app].
  set (timeUs := MockDistanceSensor.Distance2Time ambientTemperature _).
  assert (Htime : is_uint32 timeUs).
  { unfold timeUs, MockDistanceSensor.Distance2Time, Float32.to_uint32.
    apply wrap_uint32_range. }
  unfold is_uint32 in Htime.
  destruct (Z.ltb_spec timeUs 1000);
    cbn [feed wire]; repeat rewrite <- app_assoc; [|reflexivity].
  unfold wrap_uint16. rewrite (Z.mod_small timeUs 65536) by lia. reflexivity.
Qed.

Lemma X16_witness :
  exists d,
    (exists b',
       MockDistanceSensor.MeasureDistanceAt 200
         (MockDistanceSensor.mk true "mock" 10 20 4000) 0 (mkBoard [123456] [])
       = Done (RESULT_OK, d, MockDistanceSensor.mk true "mock" 10 20 4000) b')
    /\ 20 <= d < 4000.
Proof.
  destruct (X16_mock_sensor_answers 200
              (MockDistanceSensor.mk true "mock" 10 20 4000) 0 123456 [] []
              eq_refl ltac:(cbn; lia) ltac:(cbn; lia) ltac:(cbn; lia) ltac:(lia))
    as (d & Hrun & Hlo & Hhi).
  exists d. split; [|cbn in Hlo, Hhi; lia].
  eexists. exact Hrun.
Defined.

(** ** Names of states, directions and result codes *)

(** X17.  [ToString] of a direction never returns the last entry of its
    table, "Invalid": the range check admits [Stopped] and [Forward]
    only, and every other value -- [Backward] as well as anything out of
    range -- is sent to the entry after [Forward], which reads
    "Backward".  No value indexes outside the table. *)
Theorem X17_direction_names :
  (forall movingDirection,
     StateMachine.ToString_MovingDirection
       (StateMachine.MovingDirection_value movingDirection)
     = Some (match movingDirection with
             | StateMachine.Stopped => "Stopped"
             | StateMachine.Forward => "Forward"
             | StateMachine.Backward => "Backward"
             end)%string)
  /\ (forall v, v < 0 \/ 1 < v ->
        StateMachine.ToString_MovingDirection v = Some "Backward"%string)
  /\ (forall v,
        StateMachine.ToString_MovingDirection v <> None
        /\ StateMachine.ToString_MovingDirection v <> Some "Invalid"%string).
Proof.
  assert (Hout : forall v, v < 0 \/ 1 < v ->
    StateMachine.ToString_MovingDirection v = Some "Backward"%string).
  { intros v Hv. unfold StateMachine.ToString_MovingDirection.
    cbn [StateMachine.MovingDirection_value].
    destruct (Z.geb_spec v 0), (Z.leb_spec v 1); try lia; reflexivity. }
  split; [intros []; reflexivity|]. split; [exact Hout|].
  intros v.
  destruct (Z.eq_dec v 0) as [->|H0]; [split; discriminate|].
  destruct (Z.eq_dec v 1) as [->|H1]; [split; discriminate|].
  rewrite (Hout v) by lia. split; discriminate.
Qed.

Lemma X17_witness :
  StateMachine.ToString_MovingDirection 7 = Some "Backward"%string.
Proof.
  apply (proj1 (proj2 X17_direction_names) 7). lia.
Defined.

(** X18.  [ToString] of a state: each of the six states has a name of its
    own, [Invalid] (value -1) included, every value outside -1 .. 4 reads
    "Unknown", and no value indexes outside the table. *)
Theorem X18_state_names :
  (forall state,
     StateMachine.ToString_State (StateMachine.State_value state)
     = Some (match state with
             | StateMachine.Invalid => "Invalid"
             | StateMachine.Initializing => "Initializing"
             | StateMachine.Idle => "Idle"
             | StateMachine.Error => "Error"
             | StateMachine.SubjectApproaching => "SubjectApproaching"
             | StateMachine.SubjectRetreating => "SubjectRetreating"
             end)%string)
  /\ (forall s1 s2,
        StateMachine.ToString_State (StateMachine.State_value s1)
        = StateMachine.ToString_State (StateMachine.State_value s2) ->
        s1 = s2)
  /\ (forall v, v < -1 \/ 4 < v ->
        StateMachine.ToString_State v = Some "Unknown"%string)
  /\ (forall v, StateMachine.ToString_State v <> None).
Proof.
  assert (Hout : forall v, v < -1 \/ 4 < v ->
    StateMachine.ToString_State v = Some "Unknown"%string).
  { intros v Hv. unfold StateMachine.ToString_State.
    cbn [StateMachine.State_value].
    destruct (Z.geb_spec v (-1)), (Z.leb_spec v 4); try lia; reflexivity. }
  split; [intros []; reflexivity|].
  split; [intros [] []; cbn; intros Heq; try reflexivity; discriminate Heq|].
  split; [exact Hout|].
  intros v.
  destruct (Z_lt_le_dec v (-1)) as [Hlo|Hlo]; [rewrite Hout by lia; discriminate|].
  destruct (Z_lt_le_dec 4 v) as [Hhi|Hhi]; [rewrite Hout by lia; discriminate|].
  assert (Hv : v = -1 \/ v = 0 \/ v = 1 \/ v = 2 \/ v = 3 \/ v = 4) by lia.
  destruct Hv as [->|[->|[->|[->|[->| ->]]]]]; discriminate.
Qed.

Lemma X18_witness : StateMachine.ToString_State 5 = Some "Unknown"%string.
Proof.
  apply (proj1 (proj2 (proj2 X18_state_names)) 5). lia.
Defined.

Lemma resName_NoDup : NoDup resName.
Proof.
  unfold resName.
  repeat (constructor;
          [cbn [In]; intros Hin;
           repeat (destruct Hin as [Hin|Hin]; [discriminate Hin|]); exact Hin|]).
  constructor.
Qed.

(** X19.  [ResultToStr] with the bound [RESULT_MAX_VAL] no larger than the
    24 entries of its table: every value gets a string, without reading
    outside the table; a value below 0 or from the bound on reads
    "Unknown Error Code"; and two different values within the bound get
    two different names.  With a larger bound the value 24 would index
    past the table. *)
Theorem X19_result_names (RESULT_MAX_VAL : Z) :
  RESULT_MAX_VAL <= 24 ->
  (forall r, ResultToStr RESULT_MAX_VAL r <> None)
  /\ (forall r, r < 0 \/ RESULT_MAX_VAL <= r ->
        ResultToStr RESULT_MAX_VAL r = Some "Unknown Error Code"%string)
  /\ (forall r1 r2,
        0 <= r1 < RESULT_MAX_VAL -> 0 <= r2 < RESULT_MAX_VAL ->
        ResultToStr RESULT_MAX_VAL r1 = ResultToStr RESULT_MAX_VAL r2 ->
        r1 = r2)
  /\ ResultToStr 25 24 = None.
Proof.
  intros Hmax.
  assert (Hin : forall r, 0 <= r < RESULT_MAX_VAL ->
    ResultToStr RESULT_MAX_VAL r = nth_error resName (Z.to_nat r)).
  { intros r Hr. unfold ResultToStr.
    destruct (Z.ltb_spec r 0), (Z.geb_spec r RESULT_MAX_VAL); try lia.
    reflexivity. }
  assert (Hout : forall r, r < 0 \/ RESULT_MAX_VAL <= r ->
    ResultToStr RESULT_MAX_VAL r = Some "Unknown Error Code"%string).
  { intros r Hr. unfold ResultToStr.
    destruct (Z.ltb_spec r 0), (Z.geb_spec r RESULT_MAX_VAL); try lia;
      reflexivity. }
  split; [|split; [exact Hout|split; [|reflexivity]]].
  - intros r.
    destruct (Z_lt_le_dec r 0) as [Hlo|Hlo]; [rewrite Hout by lia; discriminate|].
    destruct (Z_lt_le_dec r RESULT_MAX_VAL) as [Hhi|Hhi];
      [|rewrite Hout by lia; discriminate].
    rewrite Hin by lia. apply nth_error_Some.
    change (List.length resName) with 24%nat. lia.
  - intros r1 r2 Hr1 Hr2 Heq. rewrite !Hin in Heq by lia.
    apply (proj1 (NoDup_nth_error resName) resName_NoDup) in Heq.
    + lia.
    + change (List.length resName) with 24%nat. lia.
Qed.

Lemma X19_witness : ResultToStr 24 24 = Some "Unknown Error Code"%string.
Proof.
  apply (proj1 (proj2 (X19_result_names 24 ltac:(lia))) 24). lia.
Defined.

(** ** Steps of the state machine *)

Section Steps.

Context {S L : Type} `{IDistanceSensor S} `{ITrafficLight L}.

Lemma TestLights_frame (self : StateMachine.t S L) (b : Board) (result : Result)
    (self' : StateMachine.t S L) (b' : Board) :
  StateMachine.TestLights self b = Done (result, self') b' ->
  exists light, self' = StateMachine.set_trafficLight self light.
Proof.
  unfold StateMachine.TestLights.
  destruct (StateMachine._trafficLight self) as [l|]; [|discriminate].
  unfold bind.
  destruct (light_PerformLightsTest l b) as [[r l'] b0|]; [|discriminate].
  unfold ret. intros Heq. injection Heq as _ <- _. exists l'. reflexivity.
Qed.

(** A completed [Update] has passed its assertion, has a sample, and has
    read the clock twice. *)
Lemma Update_done_inv (self : StateMachine.t S L) (b : Board)
    (self' : StateMachine.t S L) (b' : Board) :
  StateMachine.Update self b = Done self' b' ->
  StateMachine._initDone self = true
  /\ exists distance self1 b1 time now rest,
       StateMachine.MeasureDistance self b = Done (distance, self1) b1
       /\ feed b1 = time :: now :: rest
       /\ StateMachine.Advance distance (wrap_uint32 time) (wrap_uint32 now) self1
            (mkBoard rest (wire b1)) = Done self' b'.
Proof.
  intros Hrun.
  destruct (StateMachine._initDone self) eqn:Hinit;
    [|unfold StateMachine.Update in Hrun; rewrite Hinit in Hrun; discriminate].
  split; [reflexivity|].
  destruct (StateMachine.MeasureDistance self b) as [[distance self1] b1|why b1]
    eqn:Hmeasure;
    [|rewrite (Update_measure_halts self b _ _ Hinit Hmeasure) in Hrun;
      discriminate].
  destruct (feed b1) as [|time [|now rest]] eqn:Hfeed.
  - unfold StateMachine.Update in Hrun. rewrite Hinit in Hrun.
    unfold assert, bind at 1, ret at 1 in Hrun. unfold bind at 1 in Hrun.
    rewrite Hmeasure in Hrun. unfold millis, input, bind in Hrun.
    rewrite Hfeed in Hrun. discriminate.
  - unfold StateMachine.Update in Hrun. rewrite Hinit in Hrun.
    unfold assert, bind at 1, ret at 1 in Hrun. unfold bind at 1 in Hrun.
    rewrite Hmeasure in Hrun. unfold millis, input, bind in Hrun.
    rewrite Hfeed in Hrun. cbn [feed wire] in Hrun. discriminate.
  - exists distance, self1, b1, time, now, rest.
    split; [reflexivity|]. split; [exact Hfeed|].
    rewrite <- (Update_after_readings self b _ _ _ _ _ _ Hinit Hmeasure Hfeed).
    exact Hrun.
Qed.

(** What a completed [switch (_state)] can have changed: the indicator and
    the motion timer, nothing else; and where it can lead. *)
Lemma Transition_done (distance time deltaT : Z)
    (movingDirection : StateMachine.MovingDirection) (self : StateMachine.t S L)
    (b : Board) (nextState : StateMachine.State) (self' : StateMachine.t S L)
    (b' : Board) :
  StateMachine.Transition distance time deltaT movingDirection self b
    = Done (nextState, self') b' ->
  (exists light previousTime,
     self' = StateMachine.mk (StateMachine._initDone self)
               (StateMachine._state self) (StateMachine._previousState self)
               (StateMachine._distanceSensor self) light
               (StateMachine._previousDistance self) previousTime
               (StateMachine._maxDistanceThresholdMm self)
               (StateMachine._farThresholdMm self)
               (StateMachine._nearThresholdMm self)
               (StateMachine._movingDistanceDetectionThresholdMm self)
               (StateMachine._movingTimeThresholdMs self)
               (StateMachine._holdingTimeThresholdMs self))
  /\ match StateMachine._state self with
     | StateMachine.Initializing =>
         nextState = StateMachine.Idle \/ nextState = StateMachine.Error
     | StateMachine.Invalid => nextState = StateMachine.Error
     | StateMachine.Error => False
     | _ => operating nextState
     end.
Proof.
  unfold StateMachine.Transition, operating.
  destruct self as [init st pst ds tl pd pt m f n md mt ht].
  cbn [StateMachine._state StateMachine._initDone StateMachine._previousState
       StateMachine._distanceSensor StateMachine._previousDistance
       StateMachine._maxDistanceThresholdMm StateMachine._farThresholdMm
       StateMachine._nearThresholdMm
       StateMachine._movingDistanceDetectionThresholdMm
       StateMachine._movingTimeThresholdMs StateMachine._holdingTimeThresholdMs].
  destruct st.
  - (* Invalid *)
    unfold ret. intros Heq. injection Heq as <- <- _.
    split; [eexists; eexists; reflexivity | reflexivity].
  - (* Initializing *)
    unfold bind.
    destruct (StateMachine.TestLights _ b) as [[r self2] b2|] eqn:Htest;
      [|discriminate].
    destruct (TestLights_frame _ _ _ _ _ Htest) as [light ->].
    unfold ret. intros Heq. injection Heq as <- <- _.
    split; [eexists; eexists; reflexivity|].
    destruct (Result_eqb r RESULT_OK); [left | right]; reflexivity.
  - (* Idle *)
    destruct movingDirection.
    + unfold bind.
      destruct (StateMachine.SetAllLightsOff _ b) as [self2 b2|] eqn:Hoff;
        [|discriminate].
      destruct (SetAllLightsOff_frame _ _ _ _ Hoff) as [light ->].
      unfold ret. intros Heq. injection Heq as <- <- _.
      split; [eexists; eexists; reflexivity | left; reflexivity].
    + unfold ret. intros Heq. injection Heq as <- <- _.
      split; [eexists; eexists; reflexivity | right; left; reflexivity].
    + unfold ret. intros Heq. injection Heq as <- <- _.
      split; [eexists; eexists; reflexivity | right; right; reflexivity].
  - (* Error *)
    unfold assert, bind, halt. cbn [StateMachine.State_eqb negb]. discriminate.
  - (* SubjectApproaching *)
    unfold bind at 1.
    destruct (StateMachine.SetTrafficLights distance _ b) as [self2 b2|] eqn:Hlit;
      [|discriminate].
    destruct (SetTrafficLights_frame _ _ _ _ _ Hlit) as [light ->].
    cbn [StateMachine._holdingTimeThresholdMs StateMachine.set_trafficLight].
    destruct movingDirection.
    + destruct (deltaT >? ht).
      * unfold bind.
        destruct (StateMachine.SetAllLightsOff _ b2) as [self3 b3|] eqn:Hoff;
          [|discriminate].
        destruct (SetAllLightsOff_frame _ _ _ _ Hoff) as [light' ->].
        unfold ret. intros Heq. injection Heq as <- <- _.
        split; [eexists; eexists; reflexivity | left; reflexivity].
      * unfold ret. intros Heq. injection Heq as <- <- _.
        split; [eexists; eexists; reflexivity | right; left; reflexivity].
    + unfold ret. intros Heq. injection Heq as <- <- _.
      split; [eexists; eexists; reflexivity | right; left; reflexivity].
    + unfold ret. intros Heq. injection Heq as <- <- _.
      split; [eexists; eexists; reflexivity | right; right; reflexivity].
  - (* SubjectRetreating *)
    unfold bind at 1.
    destruct (StateMachine.SetTrafficLights distance _ b) as [self2 b2|] eqn:Hlit;
      [|discriminate].
    destruct (SetTrafficLights_frame _ _ _ _ _ Hlit) as [light ->].
    cbn [StateMachine._holdingTimeThresholdMs StateMachine.set_trafficLight].
    destruct movingDirection.
    + destruct (deltaT >? ht).
      * unfold bind.
        destruct (StateMachine.SetAllLightsOff _ b2) as [self3 b3|] eqn:Hoff;
          [|discriminate].
        destruct (SetAllLightsOff_frame _ _ _ _ Hoff) as [light' ->].
        unfold ret. intros Heq. injection Heq as <- <- _.
        split; [eexists; eexists; reflexivity | left; reflexivity].
      * unfold ret. intros Heq. injection Heq as <- <- _.
        split; [eexists; eexists; reflexivity | right; right; reflexivity].
    + unfold ret. intros Heq. injection Heq as <- <- _.
      split; [eexists; eexists; reflexivity | right; left; reflexivity].
    + unfold ret. intros Heq. injection Heq as <- <- _.
      split; [eexists; eexists; reflexivity | right; right; reflexivity].
Qed.

(** X20.  What a completed [Update] leaves behind: the machine is still
    initialised and its six thresholds are untouched; the previous state
    is the state the update started in, and the previous distance is the
    sample of this update.  The update did not start in [Error]; it ends
    in [Error] only when it started in [Initializing] or [Invalid]; and
    from [Idle], [SubjectApproaching] or [SubjectRetreating] it ends in
    one of these three. *)
Theorem X20_update_frame (self : StateMachine.t S L) (b : Board)
    (self' : StateMachine.t S L) (b' : Board) :
  StateMachine.Update self b = Done self' b' ->
  StateMachine._initDone self = true
  /\ StateMachine._initDone self' = true
  /\ same_thresholds self self'
  /\ StateMachine._previousState self' = StateMachine._state self
  /\ (exists self1 b1,
        StateMachine.MeasureDistance self b
        = Done (StateMachine._previousDistance self', self1) b1)
  /\ StateMachine._state self <> StateMachine.Error
  /\ (StateMachine._state self' = StateMachine.Error ->
      StateMachine._state self = StateMachine.Initializing
      \/ StateMachine._state self = StateMachine.Invalid)
  /\ (operating (StateMachine._state self) ->
      operating (StateMachine._state self')).
Proof.
  intros Hrun.
  destruct (Update_done_inv self b self' b' Hrun)
    as (Hinit & distance & self1 & b1 & time & now & rest & Hmeasure & Hfeed & Hadv).
  destruct (MeasureDistance_frame _ _ _ _ _ Hmeasure) as [s' Hself1].
  unfold StateMachine.Advance in Hadv. unfold bind in Hadv.
  match type of Hadv with
  | match ?c with _ => _ end = _ =>
      destruct c as [[nextState self2] b2|] eqn:Hstep; [|discriminate]
  end.
  unfold ret in Hadv. injection Hadv as <- <-.
  destruct (Transition_done _ _ _ _ _ _ _ _ _ Hstep)
    as [(light & previousTime & ->) Hnext].
  subst self1.
  cbn [StateMachine.set_state StateMachine.set_previousDistance
       StateMachine.set_distanceSensor
       StateMachine._state StateMachine._initDone StateMachine._previousState
       StateMachine._distanceSensor StateMachine._previousDistance
       StateMachine._maxDistanceThresholdMm StateMachine._farThresholdMm
       StateMachine._nearThresholdMm
       StateMachine._movingDistanceDetectionThresholdMm
       StateMachine._movingTimeThresholdMs StateMachine._holdingTimeThresholdMs]
    in *.
  split; [exact Hinit|]. split; [exact Hinit|].
  split; [unfold same_thresholds; cbn; repeat split|].
  split; [reflexivity|].
  split; [eexists; eexists; exact Hmeasure|].
  unfold operating in *.
  destruct (StateMachine._state self); try contradiction.
  - repeat split; try discriminate.
    + intros _. right. reflexivity.
    + intros [Hc|[Hc|Hc]]; discriminate Hc.
  - repeat split; try discriminate.
    + intros _. left. reflexivity.
    + intros [Hc|[Hc|Hc]]; discriminate Hc.
  - repeat split; try discriminate.
    + intros Herr. destruct Hnext as [Hn|[Hn|Hn]]; congruence.
    + intros _. exact Hnext.
  - repeat split; try discriminate.
    + intros Herr. destruct Hnext as [Hn|[Hn|Hn]]; congruence.
    + intros _. exact Hnext.
  - repeat split; try discriminate.
    + intros Herr. destruct Hnext as [Hn|[Hn|Hn]]; congruence.
    + intros _. exact Hnext.
Qed.

(** X21.  The first update after [Init], in [Initializing]: with a sample
    in hand the lights test runs, and the next state is [Idle] when the
    test answers [RESULT_OK] and [Error] on any other answer.  The
    direction of motion is not consulted; the sample and the first of the
    two clock readings are kept as previous distance and time. *)
Theorem X21_first_update (self : StateMachine.t S L) (b : Board)
    (distance : Z) (self1 : StateMachine.t S L) (b1 : Board)
    (time now : Z) (rest : list Z) (light : L)
    (result : Result) (light' : L) (b2 : Board) :
  StateMachine._initDone self = true ->
  StateMachine._state self = StateMachine.Initializing ->
  StateMachine.MeasureDistance self b = Done (distance, self1) b1 ->
  feed b1 = time :: now :: rest ->
  StateMachine._trafficLight self = Some light ->
  light_PerformLightsTest light (mkBoard rest (wire b1)) = Done (result, light') b2 ->
  exists self',
    StateMachine.Update self b = Done self' b2
    /\ StateMachine._state self'
       = (if Result_eqb result RESULT_OK
          then StateMachine.Idle else StateMachine.Error)
    /\ StateMachine._previousState self' = StateMachine.Initializing
    /\ StateMachine._previousDistance self' = distance
    /\ StateMachine._previousTime self' = wrap_uint32 time
    /\ StateMachine._trafficLight self' = Some light'.
Proof.
  intros Hinit Hstate Hmeasure Hfeed Hlight Htest.
  rewrite (Update_after_readings _ _ _ _ _ _ _ _ Hinit Hmeasure Hfeed).
  destruct (MeasureDistance_frame _ _ _ _ _ Hmeasure) as [s' ->].
  unfold StateMachine.Advance, StateMachine.Transition.
  cbn [StateMachine._state StateMachine.set_previousDistance
       StateMachine.set_distanceSensor].
  rewrite Hstate.
  unfold StateMachine.TestLights.
  cbn [StateMachine._trafficLight StateMachine.set_previousTime
       StateMachine.set_previousDistance StateMachine.set_distanceSensor].
  rewrite Hlight. unfold bind. rewrite Htest. unfold ret.
  eexists. split; [reflexivity|].
  destruct (Result_eqb result RESULT_OK); repeat split; exact Hstate.
Qed.

(** X22.  An update in [Idle], with a sample in hand: a [Forward]
    direction leads to [SubjectApproaching] and a [Backward] one to
    [SubjectRetreating], in both cases without any command to the
    indicator on this update; [Stopped] stays in [Idle] and turns the
    indicator off, whatever the indicator answers.  In every case the
    motion timer is set to the first clock reading of the update, so in
    [Idle] the time compared with the motion threshold runs from the
    update before. *)
Theorem X22_idle_step (self : StateMachine.t S L) (b : Board)
    (distance : Z) (self1 : StateMachine.t S L) (b1 : Board)
    (time now : Z) (rest : list Z) :
  StateMachine._initDone self = true ->
  StateMachine._state self = StateMachine.Idle ->
  StateMachine.MeasureDistance self b = Done (distance, self1) b1 ->
  feed b1 = time :: now :: rest ->
  let deltaT := wrap_uint32 (wrap_uint32 now - StateMachine._previousTime self) in
  let movingDirection :=
    StateMachine.GetMovingDirection self deltaT
      (StateMachine.DeltaD distance (StateMachine._previousDistance self)) in
  let armed :=
    StateMachine.set_previousTime
      (StateMachine.set_previousDistance self1 distance) (wrap_uint32 time) in
  let b2 := mkBoard rest (wire b1) in
  (movingDirection = StateMachine.Forward ->
   StateMachine.Update self b
   = Done (StateMachine.set_state armed StateMachine.SubjectApproaching) b2)
  /\ (movingDirection = StateMachine.Backward ->
      StateMachine.Update self b
      = Done (StateMachine.set_state armed StateMachine.SubjectRetreating) b2)
  /\ (movingDirection = StateMachine.Stopped ->
      StateMachine.Update self b
      = (self2 <- StateMachine.SetAllLightsOff armed ;;
         ret (StateMachine.set_state self2 StateMachine.Idle)) b2)
  /\ (forall self' b',
        StateMachine.Update self b = Done self' b' ->
        StateMachine._previousTime self' = wrap_uint32 time
        /\ StateMachine._previousDistance self' = distance
        /\ StateMachine._state self'
           = match movingDirection with
             | StateMachine.Stopped => StateMachine.Idle
             | StateMachine.Forward => StateMachine.SubjectApproaching
             | StateMachine.Backward => StateMachine.SubjectRetreating
             end).
Proof.
  intros Hinit Hstate Hmeasure Hfeed deltaT movingDirection armed b2.
  assert (Hupdate : StateMachine.Update self b =
    match movingDirection with
    | StateMachine.Stopped =>
        (self2 <- StateMachine.SetAllLightsOff armed ;;
         ret (StateMachine.set_state self2 StateMachine.Idle)) b2
    | StateMachine.Forward =>
        Done (StateMachine.set_state armed StateMachine.SubjectApproaching) b2
    | StateMachine.Backward =>
        Done (StateMachine.set_state armed StateMachine.SubjectRetreating) b2
    end).
  { rewrite (Update_after_readings _ _ _ _ _ _ _ _ Hinit Hmeasure Hfeed).
    subst armed movingDirection deltaT. fold b2.
    destruct (MeasureDistance_frame _ _ _ _ _ Hmeasure) as [s' ->].
    unfold StateMachine.Advance, StateMachine.Transition.
    cbn [StateMachine._state StateMachine.set_previousDistance
         StateMachine.set_distanceSensor StateMachine._previousTime
         StateMachine._previousDistance].
    rewrite Hstate.
    replace (StateMachine.GetMovingDirection
               (StateMachine.set_distanceSensor self s'))
      with (StateMachine.GetMovingDirection self) by reflexivity.
    destruct (StateMachine.GetMovingDirection self _ _);
      unfold bind, ret; try reflexivity.
    destruct (StateMachine.SetAllLightsOff _ b2); reflexivity. }
  split; [intros Hdir; rewrite Hupdate, Hdir; reflexivity|].
  split; [intros Hdir; rewrite Hupdate, Hdir; reflexivity|].
  split; [intros Hdir; rewrite Hupdate, Hdir; reflexivity|].
  intros self' b'. rewrite Hupdate.
  destruct movingDirection.
  - unfold bind.
    destruct (StateMachine.SetAllLightsOff armed b2) as [self2 b3|] eqn:Hoff;
      [|discriminate].
    destruct (SetAllLightsOff_frame _ _ _ _ Hoff) as [light ->].
    unfold ret. intros Heq. injection Heq as <- _. repeat split.
  - intros Heq. injection Heq as <- _. repeat split.
  - intros Heq. injection Heq as <- _. repeat split.
Qed.

(** X23.  An update in [SubjectApproaching] or [SubjectRetreating] whose
    direction is not [Stopped]: the tier of the current distance is
    driven first, the motion timer is set to the first clock reading of
    the update, and the next state follows the direction alone --
    [SubjectApproaching] for [Forward], [SubjectRetreating] for
    [Backward] -- whichever of the two states the update started in. *)
Theorem X23_tracking_step (self : StateMachine.t S L) (b : Board)
    (distance : Z) (self1 : StateMachine.t S L) (b1 : Board)
    (time now : Z) (rest : list Z) :
  StateMachine._initDone self = true ->
  StateMachine.MeasureDistance self b = Done (distance, self1) b1 ->
  feed b1 = time :: now :: rest ->
  StateMachine._state self = StateMachine.SubjectApproaching
  \/ StateMachine._state self = StateMachine.SubjectRetreating ->
  let deltaT := wrap_uint32 (wrap_uint32 now - StateMachine._previousTime self) in
  let movingDirection :=
    StateMachine.GetMovingDirection self deltaT
      (StateMachine.DeltaD distance (StateMachine._previousDistance self)) in
  movingDirection <> StateMachine.Stopped ->
  StateMachine.Update self b =
    (self2 <- StateMachine.SetTrafficLights distance
                (StateMachine.set_previousDistance self1 distance) ;;
     ret (StateMachine.set_state
            (StateMachine.set_previousTime self2 (wrap_uint32 time))
            (match movingDirection with
             | StateMachine.Backward => StateMachine.SubjectRetreating
             | _ => StateMachine.SubjectApproaching
             end)))
      (mkBoard rest (wire b1)).
Proof.
  intros Hinit Hmeasure Hfeed Hstate deltaT movingDirection Hmoving.
  rewrite (Update_after_readings _ _ _ _ _ _ _ _ Hinit Hmeasure Hfeed).
  subst movingDirection deltaT.
  destruct (MeasureDistance_frame _ _ _ _ _ Hmeasure) as [s' ->].
  unfold StateMachine.Advance, StateMachine.Transition.
  cbn [StateMachine._state StateMachine.set_previousDistance
       StateMachine.set_distanceSensor StateMachine._previousTime
       StateMachine._previousDistance].
  replace (StateMachine.GetMovingDirection
             (StateMachine.set_distanceSensor self s'))
    with (StateMachine.GetMovingDirection self) in * by reflexivity.
  destruct (StateMachine.GetMovingDirection self _ _); [congruence| |];
    destruct Hstate as [-> | ->]; unfold bind, ret;
    match goal with
    | |- context [StateMachine.SetTrafficLights ?d ?m ?bb] =>
        destruct (StateMachine.SetTrafficLights d m bb); reflexivity
    end.
Qed.

(** X24.  When the sensor does not deliver, [Update] stops before it
    touches the indicator or its own state, in whatever state it is: on
    [RESULT_DEV_ERR] it waits 1000 ms and resets the board; on
    [RESULT_NOT_READY] the assertion [result != RESULT_NOT_READY] fails; on
    any answer other than these two, [RESULT_OK] and [RESULT_TIMEOUT], the
    assertion [false] fails.  Nothing reads the clock. *)
Theorem X24_update_stops_on_sensor_failure (self : StateMachine.t S L)
    (s : S) (b : Board) (result : Result) (d : Z) (s' : S) (b1 : Board) :
  StateMachine._initDone self = true ->
  StateMachine._distanceSensor self = Some s ->
  sensor_MeasureDistance s 0 b = Done (result, d, s') b1 ->
  result <> RESULT_OK -> result <> RESULT_TIMEOUT ->
  StateMachine.Update self b =
    match result with
    | RESULT_DEV_ERR =>
        Halted BoardReset (mkBoard (feed b1) (wire b1 ++ [DelayEv 1000]))
    | RESULT_NOT_READY => Halted (AssertFailed "result != RESULT_NOT_READY") b1
    | _ => Halted (AssertFailed "false") b1
    end.
Proof.
  intros Hinit Hsensor Hrun Hok Htimeout.
  pose proof (MeasureDistance_answer self s b _ _ _ _ Hsensor Hrun) as Hm.
  destruct result; try congruence;
    apply (Update_measure_halts self b _ _ Hinit); rewrite Hm; reflexivity.
Qed.

End Steps.

Lemma X20_witness :
  same_thresholds
    (Fixture.machine [(RESULT_OK, 1000)] StateMachine.Idle 1200 250)
    (StateMachine.mk true StateMachine.SubjectApproaching StateMachine.Idle
       (Some []) (Some Fixture.light) 1000 900 2000 300 100 50 500 3000)
  /\ operating StateMachine.SubjectApproaching.
Proof.
  assert (Hrun :
    StateMachine.Update
      (Fixture.machine [(RESULT_OK, 1000)] StateMachine.Idle 1200 250)
      (Fixture.board [900; 900])
    = Done (StateMachine.mk true StateMachine.SubjectApproaching StateMachine.Idle
              (Some []) (Some Fixture.light) 1000 900 2000 300 100 50 500 3000)
           (Fixture.board [])) by (vm_compute; reflexivity).
  destruct (X20_update_frame _ _ _ _ Hrun)
    as (_ & _ & Hsame & _ & _ & _ & _ & Hclosed).
  split; [exact Hsame|].
  apply Hclosed. left. reflexivity.
Defined.

Lemma X21_witness :
  exists self',
    StateMachine.Update
      (Fixture.machine [(RESULT_OK, 1200)] StateMachine.Initializing UINT32_MAX 0)
      (Fixture.board [250; 250])
    = Done self' (mkBoard [] [DelayEv 500; DelayEv 500; DelayEv 500])
    /\ StateMachine._state self' = StateMachine.Idle.
Proof.
  assert (Hmeasure :
    StateMachine.MeasureDistance
      (Fixture.machine [(RESULT_OK, 1200)] StateMachine.Initializing UINT32_MAX 0)
      (Fixture.board [250; 250])
    = Done (1200, Fixture.machine [] StateMachine.Initializing UINT32_MAX 0)
           (Fixture.board [250; 250])) by reflexivity.
  pose proof (X21_first_update
                (Fixture.machine [(RESULT_OK, 1200)] StateMachine.Initializing
                   UINT32_MAX 0)
                (Fixture.board [250; 250]) 1200
                (Fixture.machine [] StateMachine.Initializing UINT32_MAX 0)
                (Fixture.board [250; 250]) 250 250 [] Fixture.light
                RESULT_OK Fixture.light
                (mkBoard [] [DelayEv 500; DelayEv 500; DelayEv 500])) as Hthm.
  destruct (Hthm eq_refl eq_refl Hmeasure eq_refl eq_refl eq_refl)
    as (self' & Hrun & Hstate & _).
  exists self'. split; [exact Hrun | exact Hstate].
Defined.

Lemma X22_witness :
  StateMachine.Update
    (Fixture.machine [(RESULT_OK, 1000)] StateMachine.Idle 1200 250)
    (Fixture.board [900; 900])
  = Done (StateMachine.mk true StateMachine.SubjectApproaching StateMachine.Idle
            (Some []) (Some Fixture.light) 1000 900 2000 300 100 50 500 3000)
         (Fixture.board []).
Proof.
  assert (Hmeasure :
    StateMachine.MeasureDistance
      (Fixture.machine [(RESULT_OK, 1000)] StateMachine.Idle 1200 250)
      (Fixture.board [900; 900])
    = Done (1000, Fixture.machine [] StateMachine.Idle 1200 250)
           (Fixture.board [900; 900])) by reflexivity.
  pose proof (X22_idle_step
                (Fixture.machine [(RESULT_OK, 1000)] StateMachine.Idle 1200 250)
                (Fixture.board [900; 900]) 1000
                (Fixture.machine [] StateMachine.Idle 1200 250)
                (Fixture.board [900; 900]) 900 900 []) as Hthm.
  destruct (Hthm eq_refl eq_refl Hmeasure eq_refl) as [Hforward _].
  rewrite (Hforward ltac:(vm_compute; reflexivity)). reflexivity.
Defined.

Lemma X23_witness :
  StateMachine.Update
    (Fixture.machine [(RESULT_OK, 1000)] StateMachine.SubjectRetreating 1200 250)
    (Fixture.board [900; 900])
  = Done (StateMachine.mk true StateMachine.SubjectApproaching
            StateMachine.SubjectRetreating
            (Some []) (Some (MockTrafficLight.mk true "lights" Off Off On))
            1000 900 2000 300 100 50 500 3000)
         (Fixture.board []).
Proof.
  assert (Hmeasure :
    StateMachine.MeasureDistance
      (Fixture.machine [(RESULT_OK, 1000)] StateMachine.SubjectRetreating 1200 250)
      (Fixture.board [900; 900])
    = Done (1000, Fixture.machine [] StateMachine.SubjectRetreating 1200 250)
           (Fixture.board [900; 900])) by reflexivity.
  pose proof (X23_tracking_step
                (Fixture.machine [(RESULT_OK, 1000)] StateMachine.SubjectRetreating
                   1200 250)
                (Fixture.board [900; 900]) 1000
                (Fixture.machine [] StateMachine.SubjectRetreating 1200 250)
                (Fixture.board [900; 900]) 900 900 []) as Hthm.
  rewrite (Hthm eq_refl Hmeasure eq_refl (or_intror eq_refl)
             ltac:(vm_compute; discriminate)).
  reflexivity.
Defined.

Lemma X24_witness :
  StateMachine.Update
    (Fixture.machine [(RESULT_DEV_ERR, 0)] StateMachine.Idle 1200 250)
    (Fixture.board [900; 900])
  = Halted BoardReset (mkBoard [900; 900] [DelayEv 1000]).
Proof.
  apply (X24_update_stops_on_sensor_failure
           (Fixture.machine [(RESULT_DEV_ERR, 0)] StateMachine.Idle 1200 250)
           [(RESULT_DEV_ERR, 0)] (Fixture.board [900; 900]) RESULT_DEV_ERR 0 []
           (Fixture.board [900; 900]));
    try reflexivity; discriminate.
Defined.

(** ** Runs of the state machine with the collaborators of the repository *)

Lemma Mock_SetAllLightsOff_total (light : MockTrafficLight.t) (b : Board) :
  exists result light',
    MockTrafficLight.SetAllLightsOff light b = Done (result, light') b.
Proof.
  unfold MockTrafficLight.SetAllLightsOff.
  destruct (MockTrafficLight.IsInitialized light); eexists; eexists; reflexivity.
Qed.

(** X25.  In [Idle] the motion timer restarts on every update, so a
    machine that is updated at least as often as the motion time
    threshold never detects motion: over any sequence of updates, each
    within [movingTimeThresholdMs] of the clock reading kept by the one
    before, the machine stays in [Idle] whatever distances it is given.
    (Shown with the mock indicator, which completes every command.) *)
Theorem X25_idle_under_fast_polling {S : Type} `{IDistanceSensor S}
    (samples : list (Z * Z * Z)) (self : StateMachine.t S MockTrafficLight.t)
    (light : MockTrafficLight.t) (b : Board) :
  StateMachine._state self = StateMachine.Idle ->
  StateMachine._trafficLight self = Some light ->
  paced (StateMachine._movingTimeThresholdMs self)
        (StateMachine._previousTime self) samples ->
  exists self',
    Advances samples self b = Done self' b
    /\ StateMachine._state self' = StateMachine.Idle
    /\ same_thresholds self self'.
Proof.
  revert self light.
  induction samples as [|[[distance time] now] samples IH];
    intros self light Hstate Hlight Hpaced.
  - exists self. split; [reflexivity|]. split; [exact Hstate|].
    unfold same_thresholds. repeat split.
  - cbn [paced] in Hpaced. destruct Hpaced as [Hsoon Hpaced].
    destruct (Mock_SetAllLightsOff_total light b) as (result & light' & Hoff).
    assert (Hstep :
      StateMachine.Advance distance time now self b
      = Done (StateMachine.set_state
                (StateMachine.set_trafficLight
                   (StateMachine.set_previousTime
                      (StateMachine.set_previousDistance self distance) time)
                   light')
                StateMachine.Idle) b).
    { unfold StateMachine.Advance, StateMachine.GetMovingDirection.
      destruct (Z.gtb_spec (wrap_uint32 (now - StateMachine._previousTime self))
                  (StateMachine._movingTimeThresholdMs self)); [lia|].
      unfold StateMachine.Transition.
      cbn [StateMachine._state StateMachine.set_previousDistance].
      rewrite Hstate.
      unfold StateMachine.SetAllLightsOff.
      cbn [StateMachine._trafficLight StateMachine.set_previousTime
           StateMachine.set_previousDistance].
      rewrite Hlight. unfold bind.
      cbn [light_SetAllLightsOff MockTrafficLight_ITrafficLight].
      rewrite Hoff. reflexivity. }
    destruct (IH (StateMachine.set_state
                    (StateMachine.set_trafficLight
                       (StateMachine.set_previousTime
                          (StateMachine.set_previousDistance self distance) time)
                       light')
                    StateMachine.Idle)
                 light' eq_refl eq_refl Hpaced)
      as (self' & Hrun & Hidle & Hsame).
    exists self'. split; [|split; [exact Hidle | exact Hsame]].
    cbn [Advances]. unfold bind at 1. rewrite Hstep. exact Hrun.
Qed.

Lemma X25_witness :
  exists self',
    Advances [(1000, 700, 700); (400, 1150, 1150); (90, 1600, 1600)]
      (Fixture.machine ([] : ScriptedSensor.t) StateMachine.Idle 1200 250)
      (Fixture.board [])
    = Done self' (Fixture.board [])
    /\ StateMachine._state self' = StateMachine.Idle.
Proof.
  destruct (X25_idle_under_fast_polling
              [(1000, 700, 700); (400, 1150, 1150); (90, 1600, 1600)]
              (Fixture.machine ([] : ScriptedSensor.t) StateMachine.Idle 1200 250)
              Fixture.light (Fixture.board []) eq_refl eq_refl
              ltac:(cbn; vm_compute; repeat split; discriminate))
    as (self' & Hrun & Hidle & _).
  exists self'. split; assumption.
Defined.

(** X26.  A state machine whose sensor was never configured cannot run:
    with the ranging driver, or the mock sensor, not initialised, the
    sensor answers [RESULT_NOT_READY] and [Update] stops at the assertion
    [result != RESULT_NOT_READY], before any pin is written or the clock
    is read, in whatever state the machine is. *)
Theorem X26_update_with_unconfigured_sensor {L : Type} `{ITrafficLight L}
    (b : Board) :
  (forall (self : StateMachine.t DistanceSensor.t L) (s : DistanceSensor.t),
     StateMachine._initDone self = true ->
     StateMachine._distanceSensor self = Some s ->
     DistanceSensor.IsInitialized s = false ->
     StateMachine.Update self b
     = Halted (AssertFailed "result != RESULT_NOT_READY") b)
  /\ (forall (self : StateMachine.t MockDistanceSensor.t L)
             (s : MockDistanceSensor.t),
        StateMachine._initDone self = true ->
        StateMachine._distanceSensor self = Some s ->
        MockDistanceSensor.IsInitialized s = false ->
        StateMachine.Update self b
        = Halted (AssertFailed "result != RESULT_NOT_READY") b).
Proof.
  split; intros self s Hinit Hsensor Hoff.
  - apply (Update_measure_halts self b _ _ Hinit).
    rewrite (MeasureDistance_answer self s b RESULT_NOT_READY 0 s b Hsensor);
      [reflexivity|].
    cbn [sensor_MeasureDistance DistanceSensor_IDistanceSensor].
    unfold DistanceSensor.MeasureDistance, DistanceSensor.MeasureDistanceAt.
    rewrite Hoff. reflexivity.
  - apply (Update_measure_halts self b _ _ Hinit).
    rewrite (MeasureDistance_answer self s b RESULT_NOT_READY 0 s b Hsensor);
      [reflexivity|].
    cbn [sensor_MeasureDistance MockDistanceSensor_IDistanceSensor].
    unfold MockDistanceSensor.MeasureDistance, MockDistanceSensor.MeasureDistanceAt.
    rewrite Hoff. reflexivity.
Qed.

Lemma X26_witness :
  StateMachine.Update
    (StateMachine.mk true StateMachine.Initializing StateMachine.Invalid
       (Some HCSR04.new) (Some Fixture.light) UINT32_MAX 0 2000 300 100 50 500 3000)
    (Fixture.board [250; 250])
  = Halted (AssertFailed "result != RESULT_NOT_READY") (Fixture.board [250; 250]).
Proof.
  destruct (@X26_update_with_unconfigured_sensor MockTrafficLight.t _
              (Fixture.board [250; 250])) as [Hdriver _].
  apply (Hdriver _ HCSR04.new); reflexivity.
Defined.

(** X27.  A state machine whose indicator was never initialised goes to
    [Error] on its first update: in [Initializing], with a sample in
    hand, the lights test of the mock or of the LED indicator answers
    [RESULT_NOT_READY] without writing a pin, and the update completes
    with the state [Error]. *)
Theorem X27_first_update_with_uninitialised_indicator {S : Type}
    `{IDistanceSensor S} (distance time now : Z) (rest : list Z) (b b1 : Board) :
  (forall (self self1 : StateMachine.t S MockTrafficLight.t)
          (light : MockTrafficLight.t),
     StateMachine._initDone self = true ->
     StateMachine._state self = StateMachine.Initializing ->
     StateMachine.MeasureDistance self b = Done (distance, self1) b1 ->
     feed b1 = time :: now :: rest ->
     StateMachine._trafficLight self = Some light ->
     MockTrafficLight.IsInitialized light = false ->
     exists self',
       StateMachine.Update self b = Done self' (mkBoard rest (wire b1))
       /\ StateMachine._state self' = StateMachine.Error)
  /\ (forall (self self1 : StateMachine.t S DiscreteLEDTrafficLight.t)
             (light : DiscreteLEDTrafficLight.t),
        StateMachine._initDone self = true ->
        StateMachine._state self = StateMachine.Initializing ->
        StateMachine.MeasureDistance self b = Done (distance, self1) b1 ->
        feed b1 = time :: now :: rest ->
        StateMachine._trafficLight self = Some light ->
        DiscreteLEDTrafficLight.IsInitialized light = false ->
        exists self',
          StateMachine.Update self b = Done self' (mkBoard rest (wire b1))
          /\ StateMachine._state self' = StateMachine.Error).
Proof.
  split; intros self self1 light Hinit Hstate Hmeasure Hfeed Hlight Hoff.
  - rewrite (Update_after_readings _ _ _ _ _ _ _ _ Hinit Hmeasure Hfeed).
    destruct (MeasureDistance_frame _ _ _ _ _ Hmeasure) as [s' ->].
    unfold StateMachine.Advance, StateMachine.Transition.
    cbn [StateMachine._state StateMachine.set_previousDistance
         StateMachine.set_distanceSensor].
    rewrite Hstate. unfold StateMachine.TestLights.
    cbn [StateMachine._trafficLight StateMachine.set_previousTime
         StateMachine.set_previousDistance StateMachine.set_distanceSensor].
    rewrite Hlight. unfold bind.
    cbn [light_PerformLightsTest MockTrafficLight_ITrafficLight].
    unfold MockTrafficLight.PerformLightsTest. rewrite Hoff.
    cbn [negb]. unfold ret. eexists. split; reflexivity.
  - rewrite (Update_after_readings _ _ _ _ _ _ _ _ Hinit Hmeasure Hfeed).
    destruct (MeasureDistance_frame _ _ _ _ _ Hmeasure) as [s' ->].
    unfold StateMachine.Advance, StateMachine.Transition.
    cbn [StateMachine._state StateMachine.set_previousDistance
         StateMachine.set_distanceSensor].
    rewrite Hstate. unfold StateMachine.TestLights.
    cbn [StateMachine._trafficLight StateMachine.set_previousTime
         StateMachine.set_previousDistance StateMachine.set_distanceSensor].
    rewrite Hlight. unfold bind.
    cbn [light_PerformLightsTest DiscreteLEDTrafficLight_ITrafficLight].
    unfold DiscreteLEDTrafficLight.PerformLightsTest. rewrite Hoff.
    cbn [negb]. unfold ret. eexists. split; reflexivity.
Qed.

Lemma X27_witness :
  exists self',
    StateMachine.Update
      (StateMachine.mk true StateMachine.Initializing StateMachine.Invalid
         (Some [(RESULT_OK, 1200)]) (Some DiscreteLEDTrafficLight.new)
         UINT32_MAX 0 2000 300 100 50 500 3000)
      (Fixture.board [250; 250])
    = Done self' (mkBoard [] [])
    /\ StateMachine._state self' = StateMachine.Error.
Proof.
  destruct (@X27_first_update_with_uninitialised_indicator ScriptedSensor.t _
              1200 250 250 [] (Fixture.board [250; 250]) (Fixture.board [250; 250]))
    as [_ Hled].
  apply (Hled
           (StateMachine.mk true StateMachine.Initializing StateMachine.Invalid
              (Some [(RESULT_OK, 1200)]) (Some DiscreteLEDTrafficLight.new)
              UINT32_MAX 0 2000 300 100 50 500 3000)
           (StateMachine.mk true StateMachine.Initializing StateMachine.Invalid
              (Some []) (Some DiscreteLEDTrafficLight.new)
              UINT32_MAX 0 2000 300 100 50 500 3000)
           DiscreteLEDTrafficLight.new);
    reflexivity.
Defined.

(** X28.  Losing the echo while tracking: when the sensor answers
    [RESULT_TIMEOUT] during an update in [SubjectApproaching] or
    [SubjectRetreating], and the cutoff distance is below [UINT32_MAX],
    the update completes with the indicator dark -- shown on the mock
    indicator, whose three lights are then off -- and with [UINT32_MAX]
    kept as the previous distance; the machine stays in a state of normal
    operation. *)
Theorem X28_lost_echo_darkens {S : Type} `{IDistanceSensor S}
    (self : StateMachine.t S MockTrafficLight.t) (s : S) (b : Board)
    (d : Z) (s' : S) (b1 : Board) (time now : Z) (rest : list Z)
    (light : MockTrafficLight.t) :
  StateMachine._initDone self = true ->
  StateMachine._distanceSensor self = Some s ->
  sensor_MeasureDistance s 0 b = Done (RESULT_TIMEOUT, d, s') b1 ->
  feed b1 = time :: now :: rest ->
  StateMachine._state self = StateMachine.SubjectApproaching
  \/ StateMachine._state self = StateMachine.SubjectRetreating ->
  StateMachine._trafficLight self = Some light ->
  MockTrafficLight.IsInitialized light = true ->
  StateMachine._maxDistanceThresholdMm self < UINT32_MAX ->
  exists self',
    StateMachine.Update self b = Done self' (mkBoard rest (wire b1))
    /\ StateMachine._trafficLight self'
       = Some (MockTrafficLight.mk true (MockTrafficLight._name light) Off Off Off)
    /\ StateMachine._previousDistance self' = UINT32_MAX
    /\ operating (StateMachine._state self').
Proof.
  intros Hinit Hsensor Hrun Hfeed Hstate Hlight Hon Hcutoff.
  assert (Hmeasure : StateMachine.MeasureDistance self b
    = Done (UINT32_MAX, StateMachine.set_distanceSensor self s') b1).
  { rewrite (MeasureDistance_answer self s b _ _ _ _ Hsensor Hrun). reflexivity. }
  rewrite (Update_after_readings _ _ _ _ _ _ _ _ Hinit Hmeasure Hfeed).
  clear Hmeasure Hrun Hsensor Hinit.
  destruct self as [init st pst ds tl pd pt m f n md mt ht].
  destruct light as [linit lname r y g].
  unfold MockTrafficLight.IsInitialized in Hon.
  cbn [StateMachine._state StateMachine._trafficLight
       StateMachine._maxDistanceThresholdMm MockTrafficLight._initDone
       MockTrafficLight._name] in *.
  subst tl linit.
  unfold StateMachine.Advance.
  cbn [StateMachine.set_distanceSensor StateMachine.set_previousDistance
       StateMachine._previousTime
       StateMachine._previousDistance StateMachine._initDone StateMachine._state
       StateMachine._previousState StateMachine._distanceSensor
       StateMachine._trafficLight StateMachine._maxDistanceThresholdMm
       StateMachine._farThresholdMm StateMachine._nearThresholdMm
       StateMachine._movingDistanceDetectionThresholdMm
       StateMachine._movingTimeThresholdMs StateMachine._holdingTimeThresholdMs].
  assert (Hlit : forall bb,
    StateMachine.SetTrafficLights UINT32_MAX
      (StateMachine.mk init st pst (Some s')
         (Some (MockTrafficLight.mk true lname r y g))
         UINT32_MAX pt m f n md mt ht) bb
    = Done (StateMachine.mk init st pst (Some s')
              (Some (MockTrafficLight.mk true lname Off Off Off))
              UINT32_MAX pt m f n md mt ht) bb).
  { intros bb. unfold StateMachine.SetTrafficLights.
    cbn [StateMachine._trafficLight StateMachine._maxDistanceThresholdMm].
    destruct (Z.gtb_spec UINT32_MAX m); [|lia]. reflexivity. }
  assert (Hoff : forall bb,
    StateMachine.SetAllLightsOff
      (StateMachine.mk init st pst (Some s')
         (Some (MockTrafficLight.mk true lname Off Off Off))
         UINT32_MAX pt m f n md mt ht) bb
    = Done (StateMachine.mk init st pst (Some s')
              (Some (MockTrafficLight.mk true lname Off Off Off))
              UINT32_MAX pt m f n md mt ht) bb).
  { intros bb. reflexivity. }
  unfold operating.
  destruct (StateMachine.GetMovingDirection _ _ _);
    destruct Hstate as [-> | ->];
    unfold StateMachine.Transition;
    cbn [StateMachine.set_distanceSensor StateMachine.set_previousDistance
         StateMachine._previousTime
         StateMachine._previousDistance StateMachine._initDone StateMachine._state
         StateMachine._previousState StateMachine._distanceSensor
         StateMachine._trafficLight StateMachine._maxDistanceThresholdMm
         StateMachine._farThresholdMm StateMachine._nearThresholdMm
         StateMachine._movingDistanceDetectionThresholdMm
         StateMachine._movingTimeThresholdMs StateMachine._holdingTimeThresholdMs];
    unfold bind at 1; unfold bind at 1; rewrite Hlit;
    cbn [StateMachine._holdingTimeThresholdMs];
    try (destruct (_ >? ht); [unfold bind; rewrite Hoff|]);
    unfold ret;
    (eexists; split; [reflexivity|]);
    (split; [reflexivity|]); (split; [reflexivity|]); auto.
Qed.

Lemma X28_witness :
  exists self',
    StateMachine.Update
      (Fixture.machine [(RESULT_TIMEOUT, 0)] StateMachine.SubjectApproaching 400 250)
      (Fixture.board [900; 900])
    = Done self' (mkBoard [] [])
    /\ StateMachine._previousDistance self' = UINT32_MAX.
Proof.
  assert (Hrun :
    ScriptedSensor.MeasureDistance [(RESULT_TIMEOUT, 0)] 0 (Fixture.board [900; 900])
    = Done (RESULT_TIMEOUT, 0, []) (Fixture.board [900; 900])) by reflexivity.
  destruct (@X28_lost_echo_darkens ScriptedSensor.t ScriptedSensor_IDistanceSensor
              (Fixture.machine [(RESULT_TIMEOUT, 0)] StateMachine.SubjectApproaching
                 400 250)
              [(RESULT_TIMEOUT, 0)] (Fixture.board [900; 900]) 0 []
              (Fixture.board [900; 900]) 900 900 [] Fixture.light
              eq_refl eq_refl Hrun eq_refl (or_introl eq_refl) eq_refl eq_refl
              ltac:(vm_compute; reflexivity))
    as (self' & Hupdate & _ & Hprev & _).
  exists self'. split; assumption.
Defined.

(** X29.  The tiers on the LED indicator: with an initialised LED
    indicator, [SetTrafficLights] writes the three pins once, in the order
    red, yellow, green, and leaves active at most one of them: none above
    the cutoff distance, else green above the far threshold, else yellow
    above the near threshold, else red.  The cascade is taken in this
    order whether or not the thresholds are ordered; the machine is
    unchanged and nothing is read. *)
Theorem X29_tier_on_leds {S : Type}
    (self : StateMachine.t S DiscreteLEDTrafficLight.t)
    (light : DiscreteLEDTrafficLight.t) (distance : Z) (b : Board) :
  StateMachine._trafficLight self = Some light ->
  DiscreteLEDTrafficLight.IsInitialized light = true ->
  StateMachine.SetTrafficLights distance self b
  = Done (StateMachine.set_trafficLight self light)
      (mkBoard (feed b)
         (wire b
          ++ led_frame light
               (if distance >? StateMachine._maxDistanceThresholdMm self then None
                else if distance >? StateMachine._farThresholdMm self
                then Some GreenLight
                else if distance >? StateMachine._nearThresholdMm self
                then Some YellowLight
                else Some RedLight))).
Proof.
  intros Hlight Hon. unfold StateMachine.SetTrafficLights. rewrite Hlight.
  cbn [light_SetAllLightsOff light_TurnOn DiscreteLEDTrafficLight_ITrafficLight].
  unfold bind at 1.
  destruct (distance >? StateMachine._maxDistanceThresholdMm self);
    [rewrite (led_SetAllLightsOff_run light b Hon); reflexivity|].
  destruct (distance >? StateMachine._farThresholdMm self);
    [rewrite (led_TurnOn_run light GreenLight b Hon); reflexivity|].
  destruct (distance >? StateMachine._nearThresholdMm self);
    [rewrite (led_TurnOn_run light YellowLight b Hon); reflexivity|].
  rewrite (led_TurnOn_run light RedLight b Hon). reflexivity.
Qed.

Lemma X29_witness :
  StateMachine.SetTrafficLights 250
    (StateMachine.mk true StateMachine.SubjectApproaching StateMachine.Idle
       (Some Fixture.sensor)
       (Some (DiscreteLEDTrafficLight.mk true "leds" 2 3 4 ActiveHigh))
       400 0 2000 300 100 50 500 3000)
    (Fixture.board [])
  = Done (StateMachine.mk true StateMachine.SubjectApproaching StateMachine.Idle
            (Some Fixture.sensor)
            (Some (DiscreteLEDTrafficLight.mk true "leds" 2 3 4 ActiveHigh))
            400 0 2000 300 100 50 500 3000)
         (mkBoard [] [DigitalWriteEv 2 LOW; DigitalWriteEv 3 HIGH;
                      DigitalWriteEv 4 LOW]).
Proof.
  apply (X29_tier_on_leds
           (StateMachine.mk true StateMachine.SubjectApproaching StateMachine.Idle
              (Some Fixture.sensor)
              (Some (DiscreteLEDTrafficLight.mk true "leds" 2 3 4 ActiveHigh))
              400 0 2000 300 100 50 500 3000)
           (DiscreteLEDTrafficLight.mk true "leds" 2 3 4 ActiveHigh) 250
           (Fixture.board []));
    reflexivity.
Defined.
